(** * Death-cases dashboard: record store, filter engine and temporal
    aggregates

    A shallow embedding of the pandas pipelines of [app.py], [app1.1.py],
    [app_1.2.py] (Streamlit dashboards) and [main.py] (Flask API):
    loading of the JSON batch, the boolean-mask filter, the zero-filled
    daily series, the rolling mean, the mean + 2 sigma spike flag, the
    day-over-day KPI and the top-states pivot.

    Conventions of the embedding
    - a cell of a data frame is a [value]; [NA] stands for all of pandas'
      missing markers (None, NaN, NaT);
    - a calendar date is its day number (a [Z]); a timestamp carries the
      day and the time of day, and [.dt.date] keeps the day;
    - float64 arithmetic is idealised: rationals ([Q]) where the result is
      computed, reals ([R]) where a square root is taken;
    - a Python exception is a value [Raise e] of the [result] type. *)

From Stdlib Require Import ZArith QArith Qreals Reals Lra Lia Psatz.
From Stdlib Require Import Qround.
From stdpp Require Import base option list gmap strings sorting.

Local Open Scope Z_scope.

(** ** Values, data frames, exceptions *)

Inductive value : Type :=
| NA
| VBool (b : bool)
| VNum (q : Q)
| VStr (s : string)
| VTime (day : Z) (ns : Z).

Inductive exn : Type :=
| KeyError (column : string)
| IndexError
| TypeError
| AttributeError
| ValueError.

Inductive result (A : Type) : Type :=
| Ok (a : A)
| Raise (e : exn).
Arguments Ok {A} a.
Arguments Raise {A} e.

#[global] Instance result_ret : MRet result := λ A a, Ok a.
#[global] Instance result_bind : MBind result := λ A B f m,
  match m with Ok a => f a | Raise e => Raise e end.
#[global] Instance result_fmap : FMap result := λ A B f m,
  match m with Ok a => Ok (f a) | Raise e => Raise e end.

(** A data frame: the set of its column labels and its rows in index
    order.  A row maps a label to its cell; a label of the frame that a row
    does not bind reads as [NA], as [pd.DataFrame(arr)] fills it. *)
Record DataFrame : Type := mkDF {
  columns : gset string;
  rows : list (gmap string value)
}.

Definition cell (r : gmap string value) (c : string) : value :=
  default NA (r !! c).

(** [pd.DataFrame(arr)] for a list of JSON objects. *)
Definition DataFrame_of (arr : list (gmap string value)) : DataFrame :=
  mkDF (⋃ (dom <$> arr)) arr.

(** [df[c]]: the column as a list of cells, [KeyError] if absent. *)
Definition getitem (df : DataFrame) (c : string) : result (list value) :=
  if bool_decide (c ∈ columns df) then Ok ((λ r, cell r c) <$> rows df)
  else Raise (KeyError c).

(** [df[c] = f(df[c])] for a column that exists, and [df[c] = v] for a
    scalar [v] (which creates the column when it is absent). *)
Definition map_column (c : string) (f : value → value) (df : DataFrame) : DataFrame :=
  mkDF (columns df) ((λ r, <[c := f (cell r c)]> r) <$> rows df).

Definition set_column (c : string) (v : value) (df : DataFrame) : DataFrame :=
  mkDF ({[c]} ∪ columns df) ((λ r, <[c := v]> r) <$> rows df).

(** [df[mask]]: the rows whose mask entry is [True]. *)
Fixpoint select {A : Type} (l : list A) (mask : list bool) : list A :=
  match l, mask with
  | x :: l', b :: mask' => if b then x :: select l' mask' else select l' mask'
  | _, _ => []
  end.

Definition df_select (df : DataFrame) (mask : list bool) : DataFrame :=
  mkDF (columns df) (select (rows df) mask).

(** [mask &= s] *)
Definition mask_and (mask s : list bool) : list bool := zip_with andb mask s.

(** ** Loading ([load_data], the same in the four files; [main.py] adds a
       handler that returns an empty frame when the file cannot be read)

    The input is the parsed JSON array. *)

Section Load.
(** pandas' conversions of one cell under [errors="coerce"]: [None] is
    the coerced NaT / NaN. *)
Variable to_datetime1 : value → option (Z * Z).
Variable to_numeric1 : value → option Q.

Definition to_datetime (v : value) : value :=
  match to_datetime1 v with Some (d, ns) => VTime d ns | None => NA end.

Definition to_numeric (v : value) : value :=
  match to_numeric1 v with Some q => VNum q | None => NA end.

Definition load_data (arr : list (gmap string value)) : DataFrame :=
  let df := DataFrame_of arr in
  let df := if bool_decide ("reported_date" ∈ columns df)
            then map_column "reported_date" to_datetime df else df in
  let df := if bool_decide ("age" ∈ columns df)
            then map_column "age" to_numeric df else df in
  let df := if bool_decide ("verified" ∉ columns df)
            then set_column "verified" (VBool false) df else df in
  df.

(** The frame before the [verified] step of [load_data]. *)
Definition normalized (arr : list (gmap string value)) : DataFrame :=
  let df := DataFrame_of arr in
  let df := if bool_decide ("reported_date" ∈ columns df)
            then map_column "reported_date" to_datetime df else df in
  if bool_decide ("age" ∈ columns df)
  then map_column "age" to_numeric df else df.
End Load.

(** ** Cell predicates of the filter

    The filters run on a loaded frame: the cells of [reported_date] are
    timestamps or NaT, the cells of [age] numbers or NaN, and a comparison
    with a missing cell is [False] in pandas.  State and gender labels are
    strings; a cell that holds no string is in no selection. *)

(** [s.dt.date]: the calendar day of a timestamp, [None] for NaT. *)
Definition dt_date (v : value) : option Z :=
  match v with VTime d _ => Some d | _ => None end.

(** [date >= start], [date <= end]; a missing date compares [False]. *)
Definition date_ge (lo : Z) (d : option Z) : bool :=
  match d with Some d => lo <=? d | None => false end.
Definition date_le (hi : Z) (d : option Z) : bool :=
  match d with Some d => d <=? hi | None => false end.

(** Truthiness of a Python list. *)
Definition nonempty {A : Type} (l : list A) : bool :=
  match l with [] => false | _ => true end.

(** A column that has cells and no timestamp among them.  [.dt.date] of
    such a column is not a column of dates: pandas infers [datetime64]
    for it again, where a column with a timestamp, or with no cell at
    all, comes back with [object] cells. *)
Definition all_NaT (d : list value) : bool :=
  nonempty d && forallb (λ v, bool_decide (dt_date v = None)) d.

(** [(s.dt.date >= lo) & (s.dt.date <= hi)] for two [datetime.date]
    bounds: a [datetime64] column does not compare with a date, and the
    first comparison raises [TypeError]. *)
Definition date_between (lo hi : Z) (d : list value) : result (list bool) :=
  if all_NaT d then Raise TypeError
  else mret (zip_with andb (date_ge lo ∘ dt_date <$> d)
                           (date_le hi ∘ dt_date <$> d)).

(** [s.isin(selected)]: a missing cell is in no selection. *)
Definition isin (selected : list string) (v : value) : bool :=
  match v with VStr s => bool_decide (s ∈ selected) | _ => false end.

(** [s == True]: Python equates [True] with the number one. *)
Definition eq_True (v : value) : bool :=
  match v with VBool b => b | VNum q => Qeq_bool q 1 | _ => false end.

(** [s >= x], [s <= x] on a numeric column; NaN compares [False]. *)
Definition num_ge (x : Q) (v : value) : bool :=
  match v with VNum q => Qle_bool x q | _ => false end.
Definition num_le (x : Q) (v : value) : bool :=
  match v with VNum q => Qle_bool q x | _ => false end.

(** ** The dashboard filter ([app.py] 40-50, [app1.1.py] 61-71,
       [app_1.2.py] 112-124) *)

Record Filters : Type := mkFilters {
  start : Z;
  end_ : Z;
  selected_states : list string;
  verified_only : bool;
  age_range : Z * Z;
  selected_genders : list string
}.

Definition date_mask (f : Filters) (df : DataFrame) (mask : list bool)
  : result (list bool) :=
  if bool_decide ("reported_date" ∈ columns df) then
    d ← getitem df "reported_date";
    in_range ← date_between (start f) (end_ f) d;
    mret (mask_and mask in_range)
  else mret mask.

Definition state_mask (f : Filters) (df : DataFrame) (mask : list bool)
  : result (list bool) :=
  if nonempty (selected_states f) then
    s ← getitem df "state";
    mret (mask_and mask (isin (selected_states f) <$> s))
  else mret mask.

Definition verified_mask (f : Filters) (df : DataFrame) (mask : list bool)
  : result (list bool) :=
  if verified_only f then
    v ← getitem df "verified";
    mret (mask_and mask (eq_True <$> v))
  else mret mask.

Definition age_mask (f : Filters) (df : DataFrame) (mask : list bool)
  : result (list bool) :=
  if bool_decide ("age" ∈ columns df) then
    a ← getitem df "age";
    mret (mask_and mask
            (zip_with andb (num_ge (inject_Z (age_range f).1) <$> a)
                           (num_le (inject_Z (age_range f).2) <$> a)))
  else mret mask.

Definition gender_mask (f : Filters) (df : DataFrame) (mask : list bool)
  : result (list bool) :=
  if nonempty (selected_genders f) && bool_decide ("gender" ∈ columns df) then
    g ← getitem df "gender";
    mret (mask_and mask (isin (selected_genders f) <$> g))
  else mret mask.

(** [app.py] and [app1.1.py]: no gender widget. *)
Definition apply_filters (df : DataFrame) (f : Filters) : result DataFrame :=
  let mask := replicate (length (rows df)) true in
  mask ← date_mask f df mask;
  mask ← state_mask f df mask;
  mask ← verified_mask f df mask;
  mask ← age_mask f df mask;
  mret (df_select df mask).

(** [app_1.2.py]: the same with the gender predicate last. *)
Definition apply_filters_gender (df : DataFrame) (f : Filters) : result DataFrame :=
  let mask := replicate (length (rows df)) true in
  mask ← date_mask f df mask;
  mask ← state_mask f df mask;
  mask ← verified_mask f df mask;
  mask ← age_mask f df mask;
  mask ← gender_mask f df mask;
  mret (df_select df mask).

(** ** The API filter ([main.py] 66-84, [get_data])

    The request strings are taken parsed: [pd.to_datetime(..).date()] for
    the two dates, [float(..)] for the two ages; an absent or empty
    parameter is [None]. *)
Record Query : Type := mkQuery {
  start_date : option Z;
  end_date : option Z;
  states : list string;
  q_verified_only : bool;
  min_age : option Q;
  max_age : option Q
}.

Definition query_date_mask (q : Query) (df : DataFrame) (mask : list bool)
  : result (list bool) :=
  match start_date q, end_date q with
  | Some lo, Some hi =>
      d ← getitem df "reported_date";
      in_range ← date_between lo hi d;
      mret (mask_and mask in_range)
  | _, _ => mret mask
  end.

Definition query_state_mask (q : Query) (df : DataFrame) (mask : list bool)
  : result (list bool) :=
  if nonempty (states q) then
    s ← getitem df "state";
    mret (mask_and mask (isin (states q) <$> s))
  else mret mask.

Definition query_verified_mask (q : Query) (df : DataFrame) (mask : list bool)
  : result (list bool) :=
  if q_verified_only q then
    v ← getitem df "verified";
    mret (mask_and mask (eq_True <$> v))
  else mret mask.

Definition query_min_age_mask (q : Query) (df : DataFrame) (mask : list bool)
  : result (list bool) :=
  match min_age q with
  | Some x => a ← getitem df "age"; mret (mask_and mask (num_ge x <$> a))
  | None => mret mask
  end.

Definition query_max_age_mask (q : Query) (df : DataFrame) (mask : list bool)
  : result (list bool) :=
  match max_age q with
  | Some x => a ← getitem df "age"; mret (mask_and mask (num_le x <$> a))
  | None => mret mask
  end.

Definition get_data_filter (df : DataFrame) (q : Query) : result DataFrame :=
  let mask := replicate (length (rows df)) true in
  mask ← query_date_mask q df mask;
  mask ← query_state_mask q df mask;
  mask ← query_verified_mask q df mask;
  mask ← query_min_age_mask q df mask;
  mask ← query_max_age_mask q df mask;
  mret (df_select df mask).

(** ** Row-level reading of the mask

    Each [mask &= ...] step of the filter multiplies the mask by one
    predicate on the row; [keep] is the product the four steps build. *)

Definition date_ok (lo hi : Z) (r : gmap string value) : bool :=
  date_ge lo (dt_date (cell r "reported_date"))
  && date_le hi (dt_date (cell r "reported_date")).

Definition state_ok (selected : list string) (r : gmap string value) : bool :=
  isin selected (cell r "state").

Definition verified_ok (r : gmap string value) : bool :=
  eq_True (cell r "verified").

Definition age_ok (lo hi : Q) (r : gmap string value) : bool :=
  num_ge lo (cell r "age") && num_le hi (cell r "age").

Definition gender_ok (selected : list string) (r : gmap string value) : bool :=
  isin selected (cell r "gender").

Definition keep (cols : gset string) (f : Filters) (r : gmap string value) : bool :=
  (if bool_decide ("reported_date" ∈ cols)
   then date_ok (start f) (end_ f) r else true)
  && (if nonempty (selected_states f)
      then state_ok (selected_states f) r else true)
  && (if verified_only f then verified_ok r else true)
  && (if bool_decide ("age" ∈ cols)
      then age_ok (inject_Z (age_range f).1) (inject_Z (age_range f).2) r
      else true).

Definition keep_gender (cols : gset string) (f : Filters) (r : gmap string value) : bool :=
  keep cols f r
  && (if nonempty (selected_genders f) && bool_decide ("gender" ∈ cols)
      then gender_ok (selected_genders f) r else true).

Definition keep_query (q : Query) (r : gmap string value) : bool :=
  match start_date q, end_date q with
  | Some lo, Some hi => date_ok lo hi r
  | _, _ => true
  end
  && (if nonempty (states q) then state_ok (states q) r else true)
  && (if q_verified_only q then verified_ok r else true)
  && match min_age q with Some x => num_ge x (cell r "age") | None => true end
  && match max_age q with Some x => num_le x (cell r "age") | None => true end.

(** A frame with records, none of which has a date. *)
Definition undated (df : DataFrame) : bool :=
  all_NaT ((λ r, cell r "reported_date") <$> rows df).

(** Whether the date comparison of the dashboard filter raises
    [TypeError]: the column is there and holds no date. *)
Definition date_raises (df : DataFrame) : bool :=
  bool_decide ("reported_date" ∈ columns df) && undated df.

(** Whether the API filter reads the date column: both bounds given. *)
Definition query_dated (q : Query) : bool :=
  match start_date q, end_date q with Some _, Some _ => true | _, _ => false end.

(** The first column the API filter would read and that the frame lacks. *)
Definition query_missing (cols : gset string) (q : Query) : option string :=
  if query_dated q && bool_decide ("reported_date" ∉ cols) then Some "reported_date"
  else if nonempty (states q) && bool_decide ("state" ∉ cols) then Some "state"
  else if q_verified_only q && bool_decide ("verified" ∉ cols) then Some "verified"
  else if (bool_decide (is_Some (min_age q)) || bool_decide (is_Some (max_age q)))
          && bool_decide ("age" ∉ cols) then Some "age"
  else None.

(** Whether the age cell of a row holds a number. *)
Definition has_age (r : gmap string value) : bool :=
  match cell r "age" with VNum _ => true | _ => false end.

(** The filter predicates other than the state one. *)
Definition keep_stateless (cols : gset string) (f : Filters) (r : gmap string value) : bool :=
  (if bool_decide ("reported_date" ∈ cols)
   then date_ok (start f) (end_ f) r else true)
  && (if verified_only f then verified_ok r else true)
  && (if bool_decide ("age" ∈ cols)
      then age_ok (inject_Z (age_range f).1) (inject_Z (age_range f).2) r
      else true).

Definition with_states (sel : list string) (f : Filters) : Filters :=
  mkFilters (start f) (end_ f) sel (verified_only f) (age_range f)
            (selected_genders f).

Definition query_with_states (sel : list string) (q : Query) : Query :=
  mkQuery (start_date q) (end_date q) sel (q_verified_only q)
          (min_age q) (max_age q).

(** ** A small batch for the examples

    Three cases on 2024-01-01 (day 738886) and 2024-01-03; the second has
    no age. *)
Definition mkrow (id : string) (d st a v : value) : gmap string value :=
  <["case_id" := VStr id]> (<["reported_date" := d]> (<["state" := st]>
    (<["age" := a]> (<["verified" := v]> ∅)))).

Definition sample_columns : gset string :=
  {[ "case_id"; "reported_date"; "state"; "age"; "verified" ]}.

Definition sample_c1 : gmap string value :=
  mkrow "c1" (VTime 738886 0) (VStr "A") (VNum 30) (VBool true).
Definition sample_c2 : gmap string value :=
  mkrow "c2" (VTime 738886 0) (VStr "A") NA (VBool false).
Definition sample_c3 : gmap string value :=
  mkrow "c3" (VTime 738888 0) (VStr "B") (VNum 61) (VBool false).

Definition sample_rows : list (gmap string value) :=
  [sample_c1; sample_c2; sample_c3].

Definition sample_df : DataFrame := mkDF sample_columns sample_rows.

(** A store whose only record has no date. *)
Definition sample_undated : DataFrame :=
  mkDF sample_columns [mkrow "c4" NA (VStr "A") (VNum 50) (VBool true)].

(** The whole date range, no state selected. *)
Definition sample_filters : Filters :=
  mkFilters 738886 738888 [] false (0, 120) [].

(** From 2024-01-03 back to 2024-01-01. *)
Definition sample_inverted : Filters :=
  mkFilters 738888 738886 ["A"; "B"] false (0, 120) [].

Definition sample_query : Query :=
  mkQuery (Some 738886) (Some 738888) [] false None None.

Definition sample_query_inverted : Query :=
  mkQuery (Some 738888) (Some 738886) ["A"] false None None.

(** Two JSON objects, only the first with a [verified] key. *)
Definition sample_batch : list (gmap string value) :=
  [ <["case_id" := VStr "c1"]> (<["verified" := VBool true]> ∅);
    <["case_id" := VStr "c2"]> ∅ ].

(** ** Temporal aggregates ([app1.1.py])

    A series of counts indexed by date is the list of its
    [(date, count)] pairs in index order. *)

(** [df.empty]: no row or no column. *)
Definition df_empty (df : DataFrame) : bool :=
  match rows df with [] => true | _ => false end
  || bool_decide (columns df = ∅).

(** [fdf["reported_date"].dt.date] *)
Definition date_only (fdf : DataFrame) : list (option Z) :=
  (λ r, dt_date (cell r "reported_date")) <$> rows fdf.

Definition count_key {K : Type} `{EqDecision K} (k : K) (keys : list (option K)) : nat :=
  length (filter (λ x, x = Some k) keys).

(** [.groupby(key).size().sort_index()]: one entry per distinct non-null
    key, in increasing order, with its number of rows. *)
Definition groupby_size_sorted (keys : list (option Z)) : list (Z * nat) :=
  (λ d, (d, count_key d keys)) <$> merge_sort Z.le (remove_dups (omap (λ k, k) keys)).

(** [pd.date_range(start, end)]: every day from [start] to [end_]. *)
Definition date_range (start end_ : Z) : list Z :=
  seqZ start (end_ - start + 1).

(** [s.reindex(idx, fill_value=0)] *)
Definition reindex (idx : list Z) (s : list (Z * nat)) : list (Z * nat) :=
  (λ d, (d, default 0%nat ((list_to_map s : gmap Z nat) !! d))) <$> idx.

(** The daily trend tab, lines 119-128: [None] is the branch that shows
    the notice and builds no series. *)
Definition daily (fdf : DataFrame) (start end_ : Z) : option (list (Z * nat)) :=
  if df_empty fdf || negb (bool_decide ("reported_date" ∈ columns fdf))
  then None
  else Some (reindex (date_range start end_)
                     (groupby_size_sorted (date_only fdf))).

(** The daily bins of [.resample("D").size()]: one per calendar day from
    the first to the last day that has a record, each with its number of
    records; records without a date are in no bin. *)
Definition day_bins (dates : list (option Z)) : list (Z * nat) :=
  match merge_sort Z.le (omap (λ k, k) dates) with
  | [] => []
  | d0 :: ds =>
      (λ d, (d, count_key d dates)) <$> date_range d0 (List.last ds d0)
  end.

(** [fdf.set_index("reported_date").resample("D").size()]
    ([app_1.2.py] 171, [main.py] 150).  [set_index] raises [KeyError]
    without the column; on an index that has entries and no timestamp
    among them the bin edges are taken from NaT and pandas raises
    [AttributeError]; an empty index gives the empty series. *)
Definition resample_daily (fdf : DataFrame) : result (list (Z * nat)) :=
  d ← getitem fdf "reported_date";
  if all_NaT d then Raise AttributeError
  else mret (day_bins (dt_date <$> d)).

(** [s.isna().all()] on the date column: no cell holds a timestamp. *)
Definition isna_all (col : list value) : bool :=
  forallb (λ v, bool_decide (dt_date v = None)) col.

(** The daily-rate section of [app_1.2.py], 169-171: the series is built
    only for a view that has records, the date column and a date in it;
    [None] is the notice shown otherwise. *)
Definition daily_series (fdf : DataFrame) : result (option (list (Z * nat))) :=
  if negb (df_empty fdf) && bool_decide ("reported_date" ∈ columns fdf) then
    d ← getitem fdf "reported_date";
    if negb (isna_all d) then Some <$> resample_daily fdf else mret None
  else mret None.

(** [s.iloc[i]], a negative [i] counting from the end. *)
Definition iloc {A : Type} (s : list A) (i : Z) : result A :=
  let j := if i <? 0 then i + Z.of_nat (length s) else i in
  if j <? 0 then Raise IndexError
  else match s !! Z.to_nat j with
       | Some x => Ok x
       | None => Raise IndexError
       end.

(** [compute_latest_dod], lines 86-93; [None] is Python's [None]. *)
Definition compute_latest_dod (series : list Z) : result (option Q) :=
  if (length series <? 2)%nat then mret None
  else
    last ← iloc series (-1);
    prev ← iloc series (-2);
    if prev =? 0 then mret None
    else mret (Some (inject_Z (last - prev) / inject_Z prev * 100)%Q).

(** The KPI of lines 96-105: [None] is shown as "N/A". *)
Definition dod_pct (fdf : DataFrame) : result (option Q) :=
  if negb (df_empty fdf) && bool_decide ("reported_date" ∈ columns fdf) then
    let daily_all := groupby_size_sorted (date_only fdf) in
    if (2 <=? length daily_all)%nat
    then compute_latest_dod ((λ e, Z.of_nat e.2) <$> daily_all)
    else mret None
  else mret None.

(** ** Rolling mean

    [s.rolling(window, min_periods).mean()] as pandas evaluates it for a
    fixed window: a running sum and a running number of observations; at
    index [i] the value that left the window is removed and the value at
    [i] is added; the mean is given once [min_periods] values are in. *)
Definition calc_mean (minp nobs : nat) (sum_x : Z) : option Q :=
  if (minp <=? nobs)%nat && (0 <? nobs)%nat
  then Some (sum_x # Pos.of_nat nobs) else None.

Fixpoint roll_mean (window minp : nat) (values : list Z) (i n : nat)
    (sum_x : Z) (nobs : nat) : list (option Q) :=
  match n with
  | O => []
  | S n' =>
      let '(sum_x, nobs) :=
        if (window <=? i)%nat then
          match values !! (i - window)%nat with
          | Some x => (sum_x - x, pred nobs)
          | None => (sum_x, nobs)
          end
        else (sum_x, nobs) in
      let '(sum_x, nobs) :=
        match values !! i with
        | Some x => (sum_x + x, S nobs)
        | None => (sum_x, nobs)
        end in
      calc_mean minp nobs sum_x
        :: roll_mean window minp values (S i) n' sum_x nobs
  end.

Definition rolling_mean (window minp : nat) (values : list Z) : list (option Q) :=
  roll_mean window minp values 0 (length values) 0 0.

(** [daily["count"].rolling(window=7, min_periods=1, center=False).mean()] *)
Definition rolling_7d (count : list Z) : list (option Q) := rolling_mean 7 1 count.

(** The window of the specification: [series[max(0, i-w+1) .. i]]. *)
Definition trailing_window (w : nat) (series : list Z) (i : nat) : list Z :=
  take (i + 1 - (i + 1 - w)) (drop (i + 1 - w) series).

Definition sumZ (l : list Z) : Z := foldr Z.add 0 l.

Definition mean_of (l : list Z) : Q := sumZ l # Pos.of_nat (length l).

(** ** Spike detection ([app1.1.py] 133-137)

    The statistics are float64 in the source and real numbers here; a NaN
    is [None]. *)
Definition sumR (l : list R) : R := foldr Rplus 0%R l.

(** [s.mean()]: NaN for an empty series. *)
Definition series_mean (s : list Z) : option R :=
  if nonempty s then Some (sumR (IZR <$> s) / INR (length s))%R else None.

(** [s.std()]: the sample standard deviation ([ddof = 1]), NaN below two
    points. *)
Definition series_std (s : list Z) : option R :=
  m ← series_mean s;
  if (2 <=? length s)%nat
  then Some (sqrt (sumR ((λ x, (IZR x - m) * (IZR x - m)) <$> s)
                   / INR (length s - 1)))%R
  else None.

(** [global_mean = daily["count"].mean()] *)
Definition global_mean (count : list Z) : option R := series_mean count.

(** [global_std = s.std() if s.std() > 0 else 0]: a NaN compares [False]. *)
Definition global_std (s : list Z) : R :=
  match series_std s with
  | Some sd => if Rlt_dec 0 sd then sd else 0%R
  | None => 0%R
  end.

(** [threshold = global_mean + 2 * global_std] *)
Definition threshold (count : list Z) : option R :=
  (λ m, m + 2 * global_std count)%R <$> global_mean count.

(** [count > threshold]: [False] against a NaN. *)
Definition above (t : option R) (x : Z) : Prop :=
  match t with Some t => (IZR x > t)%R | None => False end.

(** The same comparison decided in exact rational arithmetic:
    [x > m + 2 * sqrt v] is [x - m > 0] and [(x - m)^2 > 4 * v]. *)
Definition sumQ (l : list Q) : Q := foldr Qplus 0%Q l.

Definition mean_Q (s : list Z) : Q :=
  (sumQ (inject_Z <$> s) / inject_Z (Z.of_nat (length s)))%Q.

Definition var_Q (s : list Z) : Q :=
  (sumQ ((λ x, (inject_Z x - mean_Q s) * (inject_Z x - mean_Q s)) <$> s)
   / inject_Z (Z.of_nat (length s - 1)))%Q.

Definition Qlt_bool (a b : Q) : bool := negb (Qle_bool b a).

Definition exceeds (s : list Z) (x : Z) : bool :=
  nonempty s
  && Qlt_bool 0 (inject_Z x - mean_Q s)
  && ((length s <? 2)%nat
      || Qlt_bool (4 * var_Q s)
                  ((inject_Z x - mean_Q s) * (inject_Z x - mean_Q s))).

(** [daily["anomaly"] = daily["count"] > threshold] *)
Definition anomaly (count : list Z) : list bool := exceeds count <$> count.

(** [anomalies = daily[daily["anomaly"]]]: the flagged counts. *)
Definition anomalies (count : list Z) : list Z := select count (anomaly count).

(** ** Top states over time ([app1.1.py] 184-205) *)

(** The label of a state cell; a missing cell has none. *)
Definition state_of (v : value) : option string :=
  match v with VStr s => Some s | _ => None end.

Definition count_desc (a b : string * nat) : Prop := (b.2 ≤ a.2)%nat.

#[global] Instance count_desc_dec (a b : string * nat) : Decision (count_desc a b) :=
  decide (b.2 ≤ a.2)%nat.

(** [s.unique()]: the distinct values in order of first appearance. *)
Definition unique {A : Type} `{EqDecision A} (l : list A) : list A :=
  reverse (remove_dups (reverse l)).

(** [vc.sort_values(ascending=False)] on counts: by decreasing count,
    entries with equal counts in the order they had. *)
Fixpoint insert_desc (e : string * nat) (l : list (string * nat))
  : list (string * nat) :=
  match l with
  | [] => [e]
  | x :: l' => if decide (e.2 < x.2)%nat then x :: insert_desc e l' else e :: l
  end.

Definition sort_values (vc : list (string * nat)) : list (string * nat) :=
  foldr insert_desc [] vc.

(** [s.value_counts()]: the distinct non-missing labels with their number
    of rows, by decreasing count.  Labels with equal counts come in order
    of first appearance, which is what pandas gives when its sort keeps
    equal keys in place; the statements below do not depend on the order
    of equal counts. *)
Definition value_counts (col : list value) : list (string * nat) :=
  sort_values
    ((λ s, (s, count_key s (state_of <$> col)))
       <$> unique (omap state_of col)).

(** [vc.nlargest(n)]: with equal counts the earlier entries are kept. *)
Definition nlargest (n : nat) (vc : list (string * nat)) : list (string * nat) :=
  take n (sort_values vc).

(** The order of the group keys of [.groupby(["date_only", "state"])]:
    by day, then by label. *)
Definition key_le (a b : Z * string) : Prop :=
  a.1 < b.1 ∨ (a.1 = b.1 ∧ String.le a.2 b.2).

#[global] Instance key_le_dec (a b : Z * string) : Decision (key_le a b).
Proof. unfold key_le. apply _. Defined.

(** The key of a row in [.groupby(["date_only", "state"])]: rows with a
    missing day or state belong to no group. *)
Definition date_state (r : gmap string value) : option (Z * string) :=
  d ← dt_date (cell r "reported_date");
  s ← state_of (cell r "state");
  Some (d, s).

(** [fdf_dates[fdf_dates["state"].isin(top_states)]
      .groupby(["date_only","state"]).size().reset_index(name="count")] *)
Definition per_state (fdf : DataFrame) (top_states : list string)
  : list ((Z * string) * nat) :=
  let keys := date_state <$> filter (λ r, isin top_states (cell r "state")) (rows fdf) in
  (λ k, (k, count_key k keys))
    <$> merge_sort key_le (remove_dups (omap (λ k, k) keys)).

(** A wide table: the index, the column labels and the cells; a cell of
    the grid that the map does not bind is NaN. *)
Record Wide : Type := mkWide {
  w_index : list Z;
  w_columns : list string;
  w_cells : gmap (Z * string) nat
}.

(** The table whose cell at [k] of the grid [idx x cols] is [f k]. *)
Definition tabulate (idx : list Z) (cols : list string)
    (f : Z * string → option nat) : Wide :=
  mkWide idx cols
    (list_to_map (omap (λ k, pair k <$> f k) (list_prod idx cols))).

(** [.pivot(index="date_only", columns="state", values="count")]: the
    days and the labels of the long table, each in increasing order. *)
Definition pivot (long : list ((Z * string) * nat)) : Wide :=
  tabulate (merge_sort Z.le (remove_dups (long.*1.*1)))
           (merge_sort String.le (remove_dups (long.*1.*2)))
           (λ k, (list_to_map long : gmap (Z * string) nat) !! k).

(** [.fillna(0)] *)
Definition fillna0 (w : Wide) : Wide :=
  tabulate (w_index w) (w_columns w)
           (λ k, Some (default 0%nat (w_cells w !! k))).

(** [.reindex(idx, fill_value=0)]: rows of the old index keep their
    cells, new rows are filled. *)
Definition wide_reindex (idx : list Z) (w : Wide) : Wide :=
  tabulate idx (w_columns w)
           (λ k, if bool_decide (k.1 ∈ w_index w) then w_cells w !! k
                 else Some 0%nat).




(** * Further parts of the dashboards and of the API *)

(** Whether a group key is one of the labels [ds]. *)
Definition key_in {K : Type} `{EqDecision K} (ds : list K) (k : option K) : bool :=
  match k with Some d => bool_decide (d ∈ ds) | None => false end.

(** Whether the date cell of a row holds a timestamp. *)
Definition has_date (r : gmap string value) : bool :=
  match dt_date (cell r "reported_date") with Some _ => true | None => false end.

(** Whether the state cell of a row holds a label. *)
Definition has_state (r : gmap string value) : bool :=
  match state_of (cell r "state") with Some _ => true | None => false end.

(** ** Categorical charts *)

(** "Deaths by State" ([app.py] 67-74, [app1.1.py] 258-265, [app_1.2.py]
    233-256): [fdf["state"].value_counts().reset_index()]; [None] is the
    notice shown instead of the chart. *)
Definition by_state (fdf : DataFrame) : option (list (string * nat)) :=
  if negb (df_empty fdf) && bool_decide ("state" ∈ columns fdf)
  then Some (value_counts ((λ r, cell r "state") <$> rows fdf))
  else None.

(** "Top Causes" ([app.py] 88-95, [app1.1.py] 279-286, [app_1.2.py]
    280-294): [fdf["cause_of_death"].value_counts().nlargest(10)]. *)
Definition top_causes (fdf : DataFrame) : option (list (string * nat)) :=
  if negb (df_empty fdf) && bool_decide ("cause_of_death" ∈ columns fdf)
  then Some (nlargest 10
               (value_counts ((λ r, cell r "cause_of_death") <$> rows fdf)))
  else None.

(** [get_states] ([main.py] 111-116):
    [sorted(df['state'].dropna().unique().tolist())], the empty list
    without the column.  Python orders strings by code point, which is the
    lexicographic order of their bytes. *)
Definition get_states (df : DataFrame) : list string :=
  if bool_decide ("state" ∈ columns df)
  then merge_sort String.le
         (remove_dups (omap state_of ((λ r, cell r "state") <$> rows df)))
  else [].

(** ** The sidebar ([app.py] 24-35, the same in [app1.1.py]) *)

(** [s.min()], [s.max()] on the days of a timestamp column, the missing
    ones skipped. *)
Definition days_min (l : list Z) : option Z :=
  match l with [] => None | x :: l' => Some (foldr Z.min x l') end.
Definition days_max (l : list Z) : option Z :=
  match l with [] => None | x :: l' => Some (foldr Z.max x l') end.

(** The number in a cell of a numeric column. *)
Definition num_of (v : value) : option Q :=
  match v with VNum q => Some q | _ => None end.

(** [s.min(skipna=True)], [s.max(skipna=True)] on the numbers of a
    column. *)
Definition ages_min (l : list Q) : option Q :=
  match l with
  | [] => None
  | x :: l' => Some (foldr (λ a m, if Qle_bool a m then a else m) x l')
  end.
Definition ages_max (l : list Q) : option Q :=
  match l with
  | [] => None
  | x :: l' => Some (foldr (λ a m, if Qle_bool m a then a else m) x l')
  end.

(** Python's [int(x)] on a number: truncation towards zero. *)
Definition int_of_Q (q : Q) : Z :=
  if Qle_bool 0 q then Qfloor q else Qceiling q.

(** [states = sorted(df["state"].dropna().unique())] *)
Definition sidebar_states (df : DataFrame) : result (list string) :=
  s ← getitem df "state";
  mret (merge_sort String.le (remove_dups (omap state_of s))).

(** The values the widgets hold when the analyst touches none of them:
    the date inputs at the first and last reported day (2020-01-01, day
    737425, and today when no record has a date), every state selected,
    "Verified only" unticked, the age slider at [int] of the lowest and of
    the highest age (0 and 100 when no record has an age). *)
Definition default_filters (today : Z) (df : DataFrame) : result Filters :=
  d ← getitem df "reported_date";
  let days := omap dt_date d in
  let min_date := default 737425 (days_min days) in
  let max_date := default today (days_max days) in
  states ← sidebar_states df;
  a ← getitem df "age";
  let ages := omap num_of a in
  let min_age := default 0 (int_of_Q <$> ages_min ages) in
  let max_age := default 100 (int_of_Q <$> ages_max ages) in
  mret (mkFilters min_date max_date states false (min_age, max_age) []).

(** ** The KPI figures ([main.py] 87-89, [app.py] 55-57 and the same lines
       of the other dashboards) *)

(** [len(fdf)] *)
Definition total_cases (fdf : DataFrame) : nat := length (rows fdf).

(** [s.sum()] on the [verified] column: [True] counts one, [False] zero, a
    number its value, a missing cell is skipped; [None] when a cell holds
    text or a timestamp, which has no sum with a number. *)
Fixpoint verified_sum (col : list value) : option Q :=
  match col with
  | [] => Some 0%Q
  | v :: col' =>
      s ← verified_sum col';
      match v with
      | NA => Some s
      | VBool b => Some ((if b then 1 else 0) + s)%Q
      | VNum q => Some (q + s)%Q
      | VStr _ | VTime _ _ => None
      end
  end.

(** [int(fdf["verified"].sum()) if "verified" in fdf.columns else 0] *)
Definition verified_cases (fdf : DataFrame) : option Z :=
  if bool_decide ("verified" ∈ columns fdf)
  then int_of_Q <$> verified_sum ((λ r, cell r "verified") <$> rows fdf)
  else Some 0.

(** [fdf["state"].nunique() if "state" in fdf.columns else 0] *)
Definition states_count (fdf : DataFrame) : nat :=
  if bool_decide ("state" ∈ columns fdf)
  then length (remove_dups (omap state_of ((λ r, cell r "state") <$> rows fdf)))
  else 0%nat.

(** ** The other endpoints of the API ([main.py])

    Each endpoint builds its own mask from the parameters it reads. *)

(** [daily_rate_chart] 132-144 and [export_csv] 280-296: dates, states,
    verified. *)
Definition export_filter (df : DataFrame) (q : Query) : result DataFrame :=
  let mask := replicate (length (rows df)) true in
  mask ← query_date_mask q df mask;
  mask ← query_state_mask q df mask;
  mask ← query_verified_mask q df mask;
  mret (df_select df mask).

(** [state_distribution_chart] 174-186: dates and states. *)
Definition state_chart_filter (df : DataFrame) (q : Query) : result DataFrame :=
  let mask := replicate (length (rows df)) true in
  mask ← query_date_mask q df mask;
  mask ← query_state_mask q df mask;
  mret (df_select df mask).

(** [causes_chart] 215-223 and [age_distribution_chart] 245-253: dates
    only. *)
Definition date_filter (df : DataFrame) (q : Query) : result DataFrame :=
  let mask := replicate (length (rows df)) true in
  mask ← query_date_mask q df mask;
  mret (df_select df mask).

(** The answer of an endpoint: the chart data, "No data after filtering"
    or "No data available". *)
Inductive response (A : Type) : Type :=
| Http200 (body : A)
| Http404
| Http500.
Arguments Http200 {A} body.
Arguments Http404 {A}.
Arguments Http500 {A}.

(** [state_distribution_chart], 166-204: the bars of the chart. *)
Definition state_distribution_chart (df : DataFrame) (q : Query)
  : result (response (list (string * nat))) :=
  if df_empty df then mret Http500
  else
    filtered_df ← state_chart_filter df q;
    if df_empty filtered_df then mret Http404
    else
      s ← getitem filtered_df "state";
      mret (Http200 (value_counts s)).

(** ** The data-quality table ([app_1.2.py] 421-434) *)

Definition isna (v : value) : bool :=
  match v with NA => true | _ => false end.

(** [s.isna().sum()] *)
Definition isna_sum (col : list value) : nat := length (filter (λ v, isna v) col).

(** The [Count] column of the table; [None] when the view is empty and
    the table is not built. *)
Definition quality_counts (fdf : DataFrame) : result (option (list nat)) :=
  if df_empty fdf then mret None
  else
    d ← getitem fdf "reported_date";
    a ← (if bool_decide ("age" ∈ columns fdf)
         then isna_sum <$> getitem fdf "age" else mret 0%nat);
    s ← (if bool_decide ("state" ∈ columns fdf)
         then isna_sum <$> getitem fdf "state" else mret 0%nat);
    c ← (if bool_decide ("cause_of_death" ∈ columns fdf)
         then isna_sum <$> getitem fdf "cause_of_death" else mret 0%nat);
    mret (Some [length (rows fdf); isna_sum d; a; s; c]).

(** The row predicates the three shorter masks build. *)
Definition keep_dates (q : Query) (r : gmap string value) : bool :=
  match start_date q, end_date q with
  | Some lo, Some hi => date_ok lo hi r
  | _, _ => true
  end.

Definition keep_state_chart (q : Query) (r : gmap string value) : bool :=
  keep_dates q r
  && (if nonempty (states q) then state_ok (states q) r else true).

Definition keep_export (q : Query) (r : gmap string value) : bool :=
  keep_state_chart q r
  && (if q_verified_only q then verified_ok r else true).


(** ** The details panel ([app.py] 115-116, [app1.1.py] 306-307,
       [app_1.2.py] 394-395) *)

(** [s == sel] for a scalar [sel], cell by cell: a missing cell equals
    nothing, itself included, and Python equates [True] with one. *)
Definition eq_scalar (sel v : value) : bool :=
  match v, sel with
  | VStr a, VStr b => bool_decide (a = b)
  | VNum a, VNum b => Qeq_bool a b
  | VBool a, VBool b => bool_decide (a = b)
  | VBool a, VNum b => Qeq_bool (if a then 1 else 0) b
  | VNum a, VBool b => Qeq_bool a (if b then 1 else 0)
  | VTime d n, VTime d' n' => bool_decide (d = d') && bool_decide (n = n')
  | _, _ => false
  end.

(** [fdf[fdf["case_id"] == sel].iloc[0]] *)
Definition case_details (fdf : DataFrame) (sel : value) : result (gmap string value) :=
  ids ← getitem fdf "case_id";
  iloc (rows (df_select fdf (eq_scalar sel <$> ids))) 0.
(** ** Masks as row predicates *)

Lemma replicate_true_fmap {A : Type} (l : list A) :
  replicate (length l) true = (λ _, true) <$> l.
Proof. induction l as [|x l IH]; simpl; [done | by rewrite IH]. Qed.

Lemma mask_and_fmap {A : Type} (p q : A → bool) (l : list A) :
  mask_and (p <$> l) (q <$> l) = (λ x, p x && q x) <$> l.
Proof.
  unfold mask_and. induction l as [|x l IH]; simpl; [done |].
  f_equal. exact IH.
Qed.

Lemma select_fmap {A : Type} (p : A → bool) (l : list A) :
  select l (p <$> l) = filter (λ x, p x) l.
Proof.
  induction l as [|x l IH]; [done |].
  change (select (x :: l) (p <$> x :: l))
    with (if p x then x :: select l (p <$> l) else select l (p <$> l)).
  rewrite IH. destruct (p x) eqn:Hp.
  - rewrite filter_cons_True; [done | by apply Is_true_true].
  - rewrite filter_cons_False; [done | by apply Is_true_false].
Qed.

Lemma getitem_fmap (df : DataFrame) (c : string) :
  c ∈ columns df → getitem df c = Ok ((λ r, cell r c) <$> rows df).
Proof. intros Hc. unfold getitem. by rewrite bool_decide_eq_true_2. Qed.

Lemma getitem_missing (df : DataFrame) (c : string) :
  c ∉ columns df → getitem df c = Raise (KeyError c).
Proof. intros Hc. unfold getitem. by rewrite bool_decide_eq_false_2. Qed.

Lemma fmap_and_true {A : Type} (p : A → bool) (l : list A) :
  p <$> l = (λ x, p x && true) <$> l.
Proof. apply list_fmap_ext. intros _ x _. by rewrite andb_true_r. Qed.

Lemma date_between_rows (df : DataFrame) (lo hi : Z) :
  date_between lo hi ((λ r, cell r "reported_date") <$> rows df) =
    if undated df then Raise TypeError
    else Ok ((λ r, date_ok lo hi r) <$> rows df).
Proof.
  unfold date_between, undated.
  destruct (all_NaT ((λ r, cell r "reported_date") <$> rows df)); [done |].
  cbn [mret result_ret]. f_equal. rewrite <- !list_fmap_compose.
  change (zip_with andb ?a ?b) with (mask_and a b).
  by rewrite mask_and_fmap.
Qed.

Section Steps.
Context (df : DataFrame) (p : gmap string value → bool).

Lemma date_mask_rows (f : Filters) :
  date_mask f df (p <$> rows df) =
    if date_raises df then Raise TypeError
    else Ok ((λ r, p r && (if bool_decide ("reported_date" ∈ columns df)
                           then date_ok (start f) (end_ f) r else true))
               <$> rows df).
Proof.
  unfold date_mask, date_raises. case_bool_decide as Hc; cbn [andb].
  - rewrite (getitem_fmap _ _ Hc). cbn [mbind result_bind].
    rewrite date_between_rows. destruct (undated df); [done |].
    cbn [mbind result_bind mret result_ret]. by rewrite mask_and_fmap.
  - cbn [mret result_ret]. f_equal. apply fmap_and_true.
Qed.

Lemma state_mask_rows (f : Filters) :
  state_mask f df (p <$> rows df) =
    if nonempty (selected_states f) && bool_decide ("state" ∉ columns df)
    then Raise (KeyError "state")
    else Ok ((λ r, p r && (if nonempty (selected_states f)
                           then state_ok (selected_states f) r else true))
               <$> rows df).
Proof.
  unfold state_mask. destruct (nonempty (selected_states f)); simpl.
  - case_bool_decide as Hc.
    + by rewrite (getitem_missing _ _ Hc).
    + rewrite (getitem_fmap _ _ Hc).
      cbn [mbind result_bind mret result_ret].
      rewrite <- list_fmap_compose. by rewrite mask_and_fmap.
  - cbn [mret result_ret]. f_equal. apply fmap_and_true.
Qed.

Lemma verified_mask_rows (f : Filters) :
  verified_mask f df (p <$> rows df) =
    if verified_only f && bool_decide ("verified" ∉ columns df)
    then Raise (KeyError "verified")
    else Ok ((λ r, p r && (if verified_only f then verified_ok r else true))
               <$> rows df).
Proof.
  unfold verified_mask. destruct (verified_only f); simpl.
  - case_bool_decide as Hc.
    + by rewrite (getitem_missing _ _ Hc).
    + rewrite (getitem_fmap _ _ Hc).
      cbn [mbind result_bind mret result_ret].
      rewrite <- list_fmap_compose. by rewrite mask_and_fmap.
  - cbn [mret result_ret]. f_equal. apply fmap_and_true.
Qed.

Lemma age_mask_rows (f : Filters) :
  age_mask f df (p <$> rows df) =
    Ok ((λ r, p r && (if bool_decide ("age" ∈ columns df)
                      then age_ok (inject_Z (age_range f).1)
                                  (inject_Z (age_range f).2) r
                      else true))
          <$> rows df).
Proof.
  unfold age_mask. case_bool_decide as Hc.
  - rewrite (getitem_fmap _ _ Hc). cbn [mbind result_bind mret result_ret].
    rewrite <- !list_fmap_compose.
    change (zip_with andb ?a ?b) with (mask_and a b).
    by rewrite !mask_and_fmap.
  - cbn [mret result_ret]. f_equal. apply fmap_and_true.
Qed.

Lemma gender_mask_rows (f : Filters) :
  gender_mask f df (p <$> rows df) =
    Ok ((λ r, p r && (if nonempty (selected_genders f)
                         && bool_decide ("gender" ∈ columns df)
                      then gender_ok (selected_genders f) r else true))
          <$> rows df).
Proof.
  unfold gender_mask. destruct (nonempty (selected_genders f)); simpl.
  - case_bool_decide as Hc.
    + rewrite (getitem_fmap _ _ Hc). cbn [mbind result_bind mret result_ret].
      rewrite <- list_fmap_compose. by rewrite mask_and_fmap.
    + cbn [mret result_ret]. f_equal. apply fmap_and_true.
  - cbn [mret result_ret]. f_equal. apply fmap_and_true.
Qed.
End Steps.

(** The filter raises [TypeError] at the date comparison when the date
    column holds no date, or [KeyError] on a column it reads
    unconditionally, or returns the rows that satisfy [keep]. *)
Lemma apply_filters_spec (df : DataFrame) (f : Filters) :
  apply_filters df f =
    if date_raises df then Raise TypeError
    else if nonempty (selected_states f) && bool_decide ("state" ∉ columns df)
    then Raise (KeyError "state")
    else if verified_only f && bool_decide ("verified" ∉ columns df)
    then Raise (KeyError "verified")
    else Ok (mkDF (columns df)
                  (filter (λ r, keep (columns df) f r) (rows df))).
Proof.
  unfold apply_filters. rewrite replicate_true_fmap, date_mask_rows.
  destruct (date_raises df); [done |].
  cbn [mbind result_bind]. rewrite state_mask_rows.
  destruct (nonempty (selected_states f) && bool_decide ("state" ∉ columns df));
    [done |].
  cbn [mbind result_bind]. rewrite verified_mask_rows.
  destruct (verified_only f && bool_decide ("verified" ∉ columns df));
    [done |].
  cbn [mbind result_bind]. rewrite age_mask_rows.
  cbn [mbind result_bind mret result_ret]. unfold df_select.
  by rewrite select_fmap.
Qed.

Lemma apply_filters_gender_spec (df : DataFrame) (f : Filters) :
  apply_filters_gender df f =
    if date_raises df then Raise TypeError
    else if nonempty (selected_states f) && bool_decide ("state" ∉ columns df)
    then Raise (KeyError "state")
    else if verified_only f && bool_decide ("verified" ∉ columns df)
    then Raise (KeyError "verified")
    else Ok (mkDF (columns df)
                  (filter (λ r, keep_gender (columns df) f r) (rows df))).
Proof.
  unfold apply_filters_gender. rewrite replicate_true_fmap, date_mask_rows.
  destruct (date_raises df); [done |].
  cbn [mbind result_bind]. rewrite state_mask_rows.
  destruct (nonempty (selected_states f) && bool_decide ("state" ∉ columns df));
    [done |].
  cbn [mbind result_bind]. rewrite verified_mask_rows.
  destruct (verified_only f && bool_decide ("verified" ∉ columns df));
    [done |].
  cbn [mbind result_bind]. rewrite age_mask_rows.
  cbn [mbind result_bind]. rewrite gender_mask_rows.
  cbn [mbind result_bind mret result_ret]. unfold df_select.
  by rewrite select_fmap.
Qed.

Section QuerySteps.
Context (df : DataFrame) (p : gmap string value → bool) (q : Query).

Lemma getitem_step (c : string) (g : value → bool) :
  (a ← getitem df c; mret (mask_and (p <$> rows df) (g <$> a))) =
    if bool_decide (c ∉ columns df) then Raise (KeyError c)
    else Ok ((λ r, p r && g (cell r c)) <$> rows df).
Proof.
  case_bool_decide as Hc.
  - by rewrite (getitem_missing _ _ Hc).
  - rewrite (getitem_fmap _ _ Hc). cbn [mbind result_bind mret result_ret].
    rewrite <- list_fmap_compose. by rewrite mask_and_fmap.
Qed.

Lemma query_date_mask_rows :
  query_date_mask q df (p <$> rows df) =
    if query_dated q && date_raises df then Raise TypeError
    else if query_dated q && bool_decide ("reported_date" ∉ columns df)
    then Raise (KeyError "reported_date")
    else Ok ((λ r, p r && match start_date q, end_date q with
                          | Some lo, Some hi => date_ok lo hi r
                          | _, _ => true
                          end) <$> rows df).
Proof.
  unfold query_date_mask, query_dated, date_raises.
  destruct (start_date q) as [lo|], (end_date q) as [hi|]; cbn [andb];
    try (cbn [mret result_ret]; f_equal; apply fmap_and_true).
  destruct (decide ("reported_date" ∈ columns df)) as [Hc|Hc].
  - rewrite (bool_decide_eq_true_2 _ Hc).
    rewrite (bool_decide_eq_false_2 ("reported_date" ∉ columns df)) by auto.
    rewrite (getitem_fmap _ _ Hc). cbn [mbind result_bind andb].
    rewrite date_between_rows. destruct (undated df); [done |].
    cbn [mbind result_bind mret result_ret]. by rewrite mask_and_fmap.
  - rewrite (bool_decide_eq_false_2 _ Hc), (bool_decide_eq_true_2 _ Hc).
    cbn [andb]. by rewrite (getitem_missing _ _ Hc).
Qed.

Lemma query_state_mask_rows :
  query_state_mask q df (p <$> rows df) =
    if nonempty (states q) && bool_decide ("state" ∉ columns df)
    then Raise (KeyError "state")
    else Ok ((λ r, p r && (if nonempty (states q)
                           then state_ok (states q) r else true))
               <$> rows df).
Proof.
  unfold query_state_mask. destruct (nonempty (states q)); simpl.
  - apply getitem_step.
  - cbn [mret result_ret]. f_equal. apply fmap_and_true.
Qed.

Lemma query_verified_mask_rows :
  query_verified_mask q df (p <$> rows df) =
    if q_verified_only q && bool_decide ("verified" ∉ columns df)
    then Raise (KeyError "verified")
    else Ok ((λ r, p r && (if q_verified_only q then verified_ok r else true))
               <$> rows df).
Proof.
  unfold query_verified_mask. destruct (q_verified_only q); simpl.
  - apply getitem_step.
  - cbn [mret result_ret]. f_equal. apply fmap_and_true.
Qed.

Lemma query_min_age_mask_rows :
  query_min_age_mask q df (p <$> rows df) =
    if bool_decide (is_Some (min_age q)) && bool_decide ("age" ∉ columns df)
    then Raise (KeyError "age")
    else Ok ((λ r, p r && match min_age q with
                          | Some x => num_ge x (cell r "age")
                          | None => true
                          end) <$> rows df).
Proof.
  unfold query_min_age_mask. destruct (min_age q) as [x|]; simpl.
  - apply getitem_step.
  - cbn [mret result_ret]. f_equal. apply fmap_and_true.
Qed.

Lemma query_max_age_mask_rows :
  query_max_age_mask q df (p <$> rows df) =
    if bool_decide (is_Some (max_age q)) && bool_decide ("age" ∉ columns df)
    then Raise (KeyError "age")
    else Ok ((λ r, p r && match max_age q with
                          | Some x => num_le x (cell r "age")
                          | None => true
                          end) <$> rows df).
Proof.
  unfold query_max_age_mask. destruct (max_age q) as [x|]; simpl.
  - apply getitem_step.
  - cbn [mret result_ret]. f_equal. apply fmap_and_true.
Qed.
End QuerySteps.

(** The API filter raises [TypeError] when it reads a date column that
    holds no date, [KeyError] on the first column it reads and the frame
    lacks, and otherwise returns the rows that satisfy [keep_query]. *)
Lemma get_data_filter_spec (df : DataFrame) (q : Query) :
  get_data_filter df q =
    if query_dated q && date_raises df then Raise TypeError
    else match query_missing (columns df) q with
         | Some c => Raise (KeyError c)
         | None => Ok (mkDF (columns df) (filter (λ r, keep_query q r) (rows df)))
         end.
Proof.
  unfold get_data_filter, query_missing.
  rewrite replicate_true_fmap, query_date_mask_rows.
  destruct (query_dated q && date_raises df); [done |].
  destruct (query_dated q && bool_decide ("reported_date" ∉ columns df));
    [done |].
  cbn [mbind result_bind]. rewrite query_state_mask_rows.
  destruct (nonempty (states q) && bool_decide ("state" ∉ columns df));
    [done |].
  cbn [mbind result_bind]. rewrite query_verified_mask_rows.
  destruct (q_verified_only q && bool_decide ("verified" ∉ columns df));
    [done |].
  cbn [mbind result_bind]. rewrite query_min_age_mask_rows.
  destruct (bool_decide (is_Some (min_age q))) eqn:Hmin;
    destruct (bool_decide ("age" ∉ columns df)) eqn:Hage; simpl; try done;
    rewrite query_max_age_mask_rows, Hage;
    destruct (bool_decide (is_Some (max_age q))) eqn:Hmax; simpl; try done;
    unfold df_select; by rewrite select_fmap.
Qed.

(** ** The filter narrows and is idempotent *)

Lemma filter_idemp {A : Type} (P : A → Prop) `{!∀ x, Decision (P x)} (l : list A) :
  filter P (filter P l) = filter P l.
Proof. rewrite list_filter_filter. apply list_filter_iff. tauto. Qed.

Lemma filter_sublist_impl {A : Type} (P Q : A → Prop)
    `{!∀ x, Decision (P x), !∀ x, Decision (Q x)} (l : list A) :
  (∀ x, P x → Q x) → filter P l `sublist_of` filter Q l.
Proof.
  intros HPQ. induction l as [|x l IH]; [done |].
  rewrite !filter_cons. destruct (decide (P x)) as [HP|HP].
  - rewrite decide_True by auto. by apply sublist_skip.
  - destruct (decide (Q x)); [by apply sublist_cons | done].
Qed.

Lemma date_ok_dated (lo hi : Z) (r : gmap string value) :
  date_ok lo hi r → ∃ d, dt_date (cell r "reported_date") = Some d ∧ lo ≤ d ≤ hi.
Proof.
  unfold date_ok, date_ge, date_le.
  destruct (dt_date (cell r "reported_date")) as [d|]; [| done].
  rewrite andb_True. intros [H1 H2]. exists d. split; [done |].
  apply Is_true_true in H1, H2. lia.
Qed.

(** Frames on which the date comparison goes through. *)
Lemma undated_false (df : DataFrame) :
  undated df = false ↔
    rows df = [] ∨ ∃ r, r ∈ rows df ∧ is_Some (dt_date (cell r "reported_date")).
Proof.
  unfold undated, all_NaT. destruct (rows df) as [|r0 l] eqn:Hrows.
  { split; [by left | done]. }
  rewrite <- Hrows. rewrite Hrows at 1. cbn [fmap list_fmap nonempty andb].
  rewrite <- not_true_iff_false, forallb_forall. split.
  - intros Hnot. right.
    destruct (decide (Exists (λ r, is_Some (dt_date (cell r "reported_date")))
                             (rows df))) as [Hex|Hnex].
    + apply Exists_exists in Hex as (r & Hr & Hd). by exists r.
    + exfalso. apply Hnot. intros v Hv. apply list_elem_of_In in Hv.
      apply list_elem_of_fmap in Hv as (r & -> & Hr).
      apply bool_decide_eq_true_2.
      destruct (dt_date (cell r "reported_date")) eqn:Hd; [| done].
      exfalso. apply Hnex, Exists_exists. exists r. by rewrite Hd.
  - intros [Hnil|(r & Hr & Hd)] Hall; [by rewrite Hrows in Hnil |].
    assert (Hin : In (cell r "reported_date")
                     ((λ r, cell r "reported_date") <$> rows df)).
    { apply list_elem_of_In, list_elem_of_fmap. by exists r. }
    apply Hall, bool_decide_eq_true_1 in Hin. rewrite Hin in Hd.
    by destruct Hd.
Qed.

Lemma undated_true (df : DataFrame) :
  undated df = true ↔
    rows df ≠ [] ∧ ∀ r, r ∈ rows df → dt_date (cell r "reported_date") = None.
Proof.
  rewrite <- not_false_iff_true, undated_false. split.
  - intros Hnot. split.
    + intros Hnil. apply Hnot. by left.
    + intros r Hr. destruct (dt_date (cell r "reported_date")) eqn:Hd; [| done].
      exfalso. apply Hnot. right. exists r. by rewrite Hd.
  - intros [Hne Hnone] [Hnil|(r & Hr & Hd)]; [done |].
    rewrite (Hnone r Hr) in Hd. by destruct Hd.
Qed.

(** A view cut by the date predicate is empty or dated. *)
Lemma filter_dated_not_undated (cols : gset string) (K : gmap string value → bool)
    (lo hi : Z) (l : list (gmap string value)) :
  (∀ r, K r → date_ok lo hi r) →
  undated (mkDF cols (filter (λ r, K r) l)) = false.
Proof.
  intros HK. apply undated_false. cbn [rows].
  destruct (filter (λ r, K r) l) as [|r rest] eqn:Hf; [by left |].
  right. exists r. split; [left |].
  assert (Hr : r ∈ filter (λ r, K r) l) by (rewrite Hf; left).
  apply list_elem_of_filter in Hr as [Hr _].
  apply HK, date_ok_dated in Hr as (d & -> & _). by eexists.
Qed.

Lemma apply_filters_dated (df : DataFrame) (f : Filters) (v : DataFrame) :
  apply_filters df f = Ok v → date_raises df = false.
Proof. rewrite apply_filters_spec. by destruct (date_raises df). Qed.

Lemma get_data_filter_dated (df : DataFrame) (q : Query) (v : DataFrame) :
  get_data_filter df q = Ok v → query_dated q && date_raises df = false.
Proof.
  rewrite get_data_filter_spec. by destruct (query_dated q && date_raises df).
Qed.

Lemma apply_filters_inv (df : DataFrame) (f : Filters) (v : DataFrame) :
  apply_filters df f = Ok v →
  (nonempty (selected_states f) && bool_decide ("state" ∉ columns df) = false)
  ∧ (verified_only f && bool_decide ("verified" ∉ columns df) = false)
  ∧ v = mkDF (columns df) (filter (λ r, keep (columns df) f r) (rows df)).
Proof.
  rewrite apply_filters_spec. destruct (date_raises df); [done |].
  destruct (nonempty (selected_states f) && bool_decide ("state" ∉ columns df));
    [done |].
  destruct (verified_only f && bool_decide ("verified" ∉ columns df));
    [done |].
  intros [= <-]. done.
Qed.

Lemma apply_filters_gender_inv (df : DataFrame) (f : Filters) (v : DataFrame) :
  apply_filters_gender df f = Ok v →
  v = mkDF (columns df) (filter (λ r, keep_gender (columns df) f r) (rows df)).
Proof.
  rewrite apply_filters_gender_spec. destruct (date_raises df); [done |].
  destruct (nonempty (selected_states f) && bool_decide ("state" ∉ columns df));
    [done |].
  destruct (verified_only f && bool_decide ("verified" ∉ columns df));
    [done |].
  intros [= <-]. done.
Qed.

Lemma get_data_filter_inv (df : DataFrame) (q : Query) (v : DataFrame) :
  get_data_filter df q = Ok v →
  query_missing (columns df) q = None
  ∧ v = mkDF (columns df) (filter (λ r, keep_query q r) (rows df)).
Proof.
  rewrite get_data_filter_spec.
  destruct (query_dated q && date_raises df); [done |].
  destruct (query_missing (columns df) q); [done |].
  intros [= <-]. done.
Qed.

(** The date comparison goes through on a filtered view. *)
Lemma view_date_raises (df : DataFrame) (f : Filters) :
  date_raises (mkDF (columns df) (filter (λ r, keep (columns df) f r) (rows df)))
  = false.
Proof.
  unfold date_raises. cbn [columns]. case_bool_decide as Hc; [| done].
  cbn [andb]. apply (filter_dated_not_undated _ _ (start f) (end_ f)).
  intros r Hr. unfold keep in Hr.
  rewrite (bool_decide_eq_true_2 _ Hc), !andb_True in Hr. tauto.
Qed.

Lemma query_view_date_raises (df : DataFrame) (q : Query) :
  query_dated q
  && date_raises (mkDF (columns df) (filter (λ r, keep_query q r) (rows df)))
  = false.
Proof.
  unfold query_dated.
  destruct (start_date q) as [lo|] eqn:Hlo; [| done].
  destruct (end_date q) as [hi|] eqn:Hhi; [| done].
  cbn [andb]. unfold date_raises. apply andb_false_intro2.
  apply (filter_dated_not_undated _ _ lo hi).
  intros r Hr. unfold keep_query in Hr. rewrite Hlo, Hhi, !andb_True in Hr.
  tauto.
Qed.

(** C8 — the filtered view is a sub-sequence of the store (so it is no
    longer than the store), and filtering the view again with the same
    specification returns the view unchanged; for the dashboard filter and
    for the API filter. *)
Theorem filter_narrows_and_is_idempotent (df : DataFrame) :
  (∀ f v, apply_filters df f = Ok v →
     rows v `sublist_of` rows df
     ∧ (length (rows v) ≤ length (rows df))%nat
     ∧ apply_filters v f = Ok v)
  ∧ (∀ q v, get_data_filter df q = Ok v →
     rows v `sublist_of` rows df
     ∧ (length (rows v) ≤ length (rows df))%nat
     ∧ get_data_filter v q = Ok v).
Proof.
  split.
  - intros f v Hv. apply apply_filters_inv in Hv as (Hs & Hver & ->).
    cbn [rows columns]. split_and!.
    + apply sublist_filter.
    + apply length_filter.
    + rewrite apply_filters_spec, view_date_raises. cbn [rows columns].
      rewrite Hs, Hver. by rewrite filter_idemp.
  - intros q v Hv. apply get_data_filter_inv in Hv as (Hm & ->).
    cbn [rows columns]. split_and!.
    + apply sublist_filter.
    + apply length_filter.
    + rewrite get_data_filter_spec, query_view_date_raises.
      cbn [rows columns]. rewrite Hm. by rewrite filter_idemp.
Qed.

(** On the sample batch: the dashboard view keeps [c1] and [c3], the API
    view for state B keeps [c3]. *)
Lemma filter_narrows_and_is_idempotent_witness :
  let v := mkDF sample_columns
             [sample_c1; sample_c3] in
  (apply_filters sample_df sample_filters = Ok v
   ∧ (length (rows v) ≤ length (rows sample_df))%nat
   ∧ apply_filters v sample_filters = Ok v)
  ∧ (get_data_filter sample_df (query_with_states ["B"] sample_query)
       = Ok (mkDF sample_columns [sample_c3])
     ∧ get_data_filter (mkDF sample_columns [sample_c3])
         (query_with_states ["B"] sample_query)
       = Ok (mkDF sample_columns [sample_c3])).
Proof.
  intros v.
  assert (Hv : apply_filters sample_df sample_filters = Ok v) by reflexivity.
  assert (Hq : get_data_filter sample_df (query_with_states ["B"] sample_query)
               = Ok (mkDF sample_columns [sample_c3])) by reflexivity.
  destruct (filter_narrows_and_is_idempotent sample_df) as [Happ Hapi].
  split.
  - destruct (Happ sample_filters v Hv) as (_ & Hlen & Hidem).
    split; [exact Hv |]. split; [exact Hlen | exact Hidem].
  - destruct (Hapi _ _ Hq) as (_ & _ & Hidem).
    split; [exact Hq | exact Hidem].
Defined.

(** ** An empty state selection *)

Lemma keep_no_states (cols : gset string) (f : Filters) (r : gmap string value) :
  selected_states f = [] → keep cols f r = keep_stateless cols f r.
Proof.
  intros Hs. unfold keep, keep_stateless. rewrite Hs. simpl.
  by rewrite andb_true_r.
Qed.

Lemma keep_with_states (cols : gset string) (f : Filters) (sel : list string)
    (r : gmap string value) :
  keep cols (with_states sel f) r → keep_stateless cols f r.
Proof.
  unfold keep, keep_stateless, with_states. simpl.
  rewrite !andb_True. tauto.
Qed.

(** C1 (as stated, refuted) — with no state selected the dashboard filter
    and the API filter both return a view that holds records, none of which
    is in the (empty) accepted set: the empty set is not read as "none
    selected". *)
Lemma empty_selection_keeps_records :
  selected_states sample_filters = [] ∧ states sample_query = []
  ∧ ∃ v r,
      apply_filters sample_df sample_filters = Ok v
      ∧ get_data_filter sample_df sample_query = Ok sample_df
      ∧ r ∈ rows v ∧ r ∈ rows sample_df
      ∧ state_ok [] r = false.
Proof.
  split; [done |]. split; [done |].
  eexists _, sample_c1.
  split; [reflexivity |]. split; [reflexivity |].
  split; [apply list_elem_of_here |]. split; [apply list_elem_of_here | done].
Qed.

(** C1 (amended) — an empty accepted-state set switches the state
    predicate off.  The view of the dashboard filter then holds exactly the
    records of the store that pass the date, verified and age predicates,
    whatever their state; and for the dashboard filter and the API filter
    alike it contains the view of every specification that differs only in
    its accepted states. *)
Theorem empty_selection_is_no_restriction (df : DataFrame) :
  (∀ f v, selected_states f = [] → apply_filters df f = Ok v →
     rows v = filter (λ r, keep_stateless (columns df) f r) (rows df)
     ∧ ∀ sel v', apply_filters df (with_states sel f) = Ok v' →
         rows v' `sublist_of` rows v)
  ∧ (∀ q v, states q = [] → get_data_filter df q = Ok v →
     ∀ sel v', get_data_filter df (query_with_states sel q) = Ok v' →
       rows v' `sublist_of` rows v).
Proof.
  split.
  - intros f v Hs Hv. apply apply_filters_inv in Hv as (_ & _ & ->).
    cbn [rows columns]. split.
    + apply list_filter_iff. intros r. by rewrite keep_no_states.
    + intros sel v' Hv'. apply apply_filters_inv in Hv' as (_ & _ & ->).
      cbn [rows columns]. apply filter_sublist_impl. intros r Hr.
      rewrite keep_no_states by done. by eapply keep_with_states.
  - intros q v Hs Hv sel v' Hv'.
    apply get_data_filter_inv in Hv as (_ & ->).
    apply get_data_filter_inv in Hv' as (_ & ->).
    cbn [rows]. apply filter_sublist_impl. intros r.
    unfold keep_query, query_with_states. rewrite Hs.
    cbn [start_date end_date states q_verified_only min_age max_age nonempty].
    rewrite andb_true_r, !andb_True. tauto.
Qed.

(** On the sample batch. *)
Lemma empty_selection_is_no_restriction_witness :
  (∃ v, apply_filters sample_df sample_filters = Ok v
        ∧ rows v = filter (λ r, keep_stateless sample_columns sample_filters r)
                          sample_rows)
  ∧ ∃ v', get_data_filter sample_df (query_with_states ["B"] sample_query) = Ok v'
          ∧ rows v' `sublist_of` sample_rows.
Proof.
  destruct (empty_selection_is_no_restriction sample_df) as [Happ Hapi].
  split.
  - eexists. split; [reflexivity |].
    exact (proj1 (Happ sample_filters _ eq_refl eq_refl)).
  - eexists. split; [reflexivity |].
    exact (Hapi sample_query sample_df eq_refl eq_refl ["B"] _ eq_refl).
Defined.

(** ** An inverted date range *)

Lemma date_ok_inverted (lo hi : Z) (r : gmap string value) :
  hi < lo → date_ok lo hi r = false.
Proof.
  intros Hlt. unfold date_ok, date_ge, date_le.
  destruct (dt_date (cell r "reported_date")) as [d|]; [| done].
  apply andb_false_iff.
  destruct (Z.leb_spec lo d); [right | by left]. apply Z.leb_gt. lia.
Qed.

Lemma filter_none {A : Type} (P : A → Prop) `{!∀ x, Decision (P x)} (l : list A) :
  (∀ x, x ∈ l → ¬ P x) → filter P l = [].
Proof.
  intros HP. induction l as [|x l IH]; [done |].
  rewrite filter_cons_False by (apply HP; left).
  apply IH. intros y Hy. apply HP. by right.
Qed.

(** C2 (as stated, refuted) — for a range that runs from 2024-01-03 back
    to 2024-01-01 the dashboard filter and the API filter return a view,
    the empty one; neither raises. *)
Lemma inverted_range_returns_a_view :
  end_ sample_inverted < start sample_inverted
  ∧ apply_filters sample_df sample_inverted = Ok (mkDF sample_columns [])
  ∧ get_data_filter sample_df sample_query_inverted = Ok (mkDF sample_columns []).
Proof. split; [done |]. split; reflexivity. Qed.

(** C2 (amended) — the filter has no check of the date order.  With
    [start > end], the columns it reads present and a store that is empty
    or has a record with a date (so that the date column compares with a
    date), it returns the empty view: no record lies on or after [start]
    and on or before [end].  So for the dashboard filter and for the API
    filter. *)
Theorem inverted_range_gives_empty_view (df : DataFrame) :
  undated df = false →
  (∀ f, end_ f < start f →
     "reported_date" ∈ columns df → "state" ∈ columns df →
     "verified" ∈ columns df →
     apply_filters df f = Ok (mkDF (columns df) []))
  ∧ (∀ q lo hi, start_date q = Some lo → end_date q = Some hi → hi < lo →
     query_missing (columns df) q = None →
     get_data_filter df q = Ok (mkDF (columns df) [])).
Proof.
  intros Hu. split.
  - intros f Hlt Hd Hs Hv. rewrite apply_filters_spec. unfold date_raises.
    rewrite Hu, andb_false_r.
    rewrite (bool_decide_eq_false_2 ("state" ∉ columns df)) by auto.
    rewrite (bool_decide_eq_false_2 ("verified" ∉ columns df)) by auto.
    rewrite !andb_false_r. do 2 f_equal. apply filter_none. intros r _.
    unfold keep. rewrite (bool_decide_eq_true_2 _ Hd).
    rewrite date_ok_inverted by done. simpl. tauto.
  - intros q lo hi Hlo Hhi Hlt Hm. rewrite get_data_filter_spec.
    unfold date_raises. rewrite Hu, !andb_false_r, Hm.
    do 2 f_equal. apply filter_none. intros r _.
    unfold keep_query. rewrite Hlo, Hhi.
    rewrite date_ok_inverted by done. simpl. tauto.
Qed.

(** On the sample batch, from 2024-01-03 back to 2024-01-01. *)
Lemma inverted_range_gives_empty_view_witness :
  undated sample_df = false
  ∧ apply_filters sample_df sample_inverted = Ok (mkDF sample_columns [])
  ∧ get_data_filter sample_df sample_query_inverted = Ok (mkDF sample_columns []).
Proof.
  assert (Hu : undated sample_df = false) by reflexivity.
  destruct (inverted_range_gives_empty_view sample_df Hu) as [Happ Hapi].
  split; [exact Hu |]. split.
  - apply Happ; [done | | |];
      apply (bool_decide_unpack _); vm_compute; exact I.
  - apply (Hapi sample_query_inverted 738888 738886); try reflexivity.
Defined.

(** ** Records without an age *)

Lemma age_ok_inv (lo hi : Q) (r : gmap string value) :
  age_ok lo hi r → ∃ a, cell r "age" = VNum a ∧ (lo <= a)%Q ∧ (a <= hi)%Q.
Proof.
  unfold age_ok, num_ge, num_le. destruct (cell r "age") as [| |a| |]; try done.
  rewrite andb_True. intros [H1 H2]. exists a.
  apply Is_true_true in H1, H2. by rewrite <- !Qle_bool_iff.
Qed.

(** ** The default of [verified] *)

Lemma columns_DataFrame_of (arr : list (gmap string value)) (c : string) :
  c ∈ columns (DataFrame_of arr) ↔ ∃ raw, raw ∈ arr ∧ is_Some (raw !! c).
Proof.
  unfold DataFrame_of. cbn [columns]. rewrite elem_of_union_list. split.
  - intros (X & HX & Hc). apply list_elem_of_fmap in HX as (raw & -> & Hraw).
    exists raw. split; [done |]. by apply elem_of_dom.
  - intros (raw & Hraw & Hc). exists (dom raw). split.
    + apply list_elem_of_fmap. by exists raw.
    + by apply elem_of_dom.
Qed.

Lemma cell_insert_ne (r : gmap string value) (c c' : string) (x : value) :
  c ≠ c' → cell (<[c := x]> r) c' = cell r c'.
Proof. intros Hne. unfold cell. by rewrite lookup_insert_ne. Qed.

Lemma cell_insert_eq (r : gmap string value) (c : string) (x : value) :
  cell (<[c := x]> r) c = x.
Proof. unfold cell. by rewrite lookup_insert_eq. Qed.

Section LoadFacts.
Context (to_datetime1 : value → option (Z * Z)) (to_numeric1 : value → option Q).

Lemma load_data_normalized (arr : list (gmap string value)) :
  load_data to_datetime1 to_numeric1 arr =
    if bool_decide ("verified" ∉ columns (normalized to_datetime1 to_numeric1 arr))
    then set_column "verified" (VBool false)
                    (normalized to_datetime1 to_numeric1 arr)
    else normalized to_datetime1 to_numeric1 arr.
Proof. reflexivity. Qed.

Lemma normalized_columns (arr : list (gmap string value)) :
  columns (normalized to_datetime1 to_numeric1 arr) = columns (DataFrame_of arr).
Proof. unfold normalized. by repeat case_bool_decide. Qed.

Lemma normalized_rows (arr : list (gmap string value)) (i : nat)
    (raw : gmap string value) :
  arr !! i = Some raw →
  ∃ r, rows (normalized to_datetime1 to_numeric1 arr) !! i = Some r
       ∧ cell r "verified" = cell raw "verified".
Proof.
  intros Hi. unfold normalized, map_column.
  repeat case_bool_decide; cbn [rows columns DataFrame_of];
    rewrite ?list_lookup_fmap, Hi; cbn [fmap option_fmap option_map];
    eexists; (split; [reflexivity |]);
    by rewrite ?cell_insert_ne.
Qed.
End LoadFacts.

(** C9 (as stated, refuted) — in a batch where one object has a
    [verified] key and the next has none, the second record is loaded with
    a missing [verified] cell, not with [False]. *)
Lemma verified_default_skips_records :
  ∃ raw r,
    sample_batch !! 1%nat = Some raw ∧ raw !! "verified" = None
    ∧ rows (load_data (λ _, None) (λ _, None) sample_batch) !! 1%nat = Some r
    ∧ cell r "verified" = NA
    ∧ ∀ b, cell r "verified" ≠ VBool b.
Proof.
  eexists _, _. split; [reflexivity |]. split; [reflexivity |].
  split; [reflexivity |]. split; [reflexivity |]. intros b. discriminate.
Qed.

(** C9 (amended) — the default is per column.  When no object of the
    batch has a [verified] key, every loaded record has [verified = False];
    when some object has the key, each loaded record keeps the [verified]
    value of its object, and a record whose object lacks the key has a
    missing cell. *)
Theorem verified_default_is_per_column
    (to_datetime1 : value → option (Z * Z)) (to_numeric1 : value → option Q)
    (arr : list (gmap string value)) :
  ((∀ raw, raw ∈ arr → raw !! "verified" = None) →
   ∀ r, r ∈ rows (load_data to_datetime1 to_numeric1 arr) →
     cell r "verified" = VBool false)
  ∧ ((∃ raw, raw ∈ arr ∧ is_Some (raw !! "verified")) →
     ∀ i raw, arr !! i = Some raw →
     ∃ r, rows (load_data to_datetime1 to_numeric1 arr) !! i = Some r
          ∧ cell r "verified" = cell raw "verified"
          ∧ (raw !! "verified" = None → cell r "verified" = NA)).
Proof.
  rewrite load_data_normalized, normalized_columns. split.
  - intros Hnone r. rewrite bool_decide_eq_true_2.
    + unfold set_column. cbn [rows]. intros Hr.
      apply list_elem_of_fmap in Hr as (r0 & -> & _). apply cell_insert_eq.
    + rewrite columns_DataFrame_of. intros (raw & Hraw & Hsome).
      rewrite (Hnone raw Hraw) in Hsome. by destruct Hsome.
  - intros Hsome i raw Hi. rewrite bool_decide_eq_false_2.
    + destruct (normalized_rows to_datetime1 to_numeric1 arr i raw Hi)
        as (r & Hr & Hcell).
      exists r. split; [done |]. split; [done |].
      intros Hnone. rewrite Hcell. unfold cell. by rewrite Hnone.
    + intros Hnot. apply Hnot. by apply columns_DataFrame_of.
Qed.

(** On a batch without the key and on the sample batch. *)
Lemma verified_default_is_per_column_witness :
  (∀ r, r ∈ rows (load_data (λ _, None) (λ _, None) [ {[ "case_id" := VStr "c1" ]} ]) →
     cell r "verified" = VBool false)
  ∧ ∃ r, rows (load_data (λ _, None) (λ _, None) sample_batch) !! 1%nat = Some r
         ∧ cell r "verified" = NA.
Proof.
  split.
  - apply (proj1 (verified_default_is_per_column (λ _, None) (λ _, None)
                    [ {[ "case_id" := VStr "c1" ]} ])).
    intros raw Hraw. apply list_elem_of_singleton in Hraw as ->. reflexivity.
  - destruct (proj2 (verified_default_is_per_column (λ _, None) (λ _, None)
                       sample_batch)) with (i := 1%nat)
        (raw := <["case_id" := VStr "c2"]> (∅ : gmap string value))
      as (r & Hr & _ & Hna).
    + eexists. split; [apply list_elem_of_here | by eexists].
    + reflexivity.
    + exists r. split; [exact Hr | apply Hna; reflexivity].
Defined.

(** ** The daily series *)

Lemma count_key_absent {K : Type} `{EqDecision K} (k : K) (keys : list (option K)) :
  Some k ∉ keys → count_key k keys = 0%nat.
Proof.
  intros Hk. unfold count_key. rewrite filter_none; [done |].
  by intros x Hx ->.
Qed.

Lemma groupby_keys (keys : list (option Z)) (d : Z) :
  d ∈ merge_sort Z.le (remove_dups (omap (λ k, k) keys)) ↔ Some d ∈ keys.
Proof.
  rewrite merge_sort_Permutation, elem_of_remove_dups, list_elem_of_omap.
  split.
  - by intros (x & Hx & ->).
  - intros Hd. by exists (Some d).
Qed.

Lemma groupby_size_lookup (keys : list (option Z)) (d : Z) :
  default 0%nat ((list_to_map (groupby_size_sorted keys) : gmap Z nat) !! d)
  = count_key d keys.
Proof.
  unfold groupby_size_sorted.
  set (ks := merge_sort Z.le (remove_dups (omap (λ k, k) keys))).
  assert (Hfst : ((λ d0, (d0, count_key d0 keys)) <$> ks).*1 = ks).
  { rewrite <- list_fmap_compose. apply list_fmap_id. }
  destruct (decide (d ∈ ks)) as [Hin|Hout].
  - rewrite (elem_of_list_to_map_1 _ d (count_key d keys)); [reflexivity | |].
    + rewrite Hfst. subst ks. rewrite merge_sort_Permutation.
      apply NoDup_remove_dups.
    + apply list_elem_of_fmap. by exists d.
  - rewrite not_elem_of_list_to_map_1 by (by rewrite Hfst).
    simpl. symmetry. apply count_key_absent.
    intros Hd. apply Hout. by apply groupby_keys.
Qed.

Lemma daily_built (fdf : DataFrame) (lo hi : Z) :
  df_empty fdf = false → "reported_date" ∈ columns fdf →
  daily fdf lo hi =
    Some ((λ d, (d, count_key d (date_only fdf))) <$> date_range lo hi).
Proof.
  intros Hne Hcol. unfold daily.
  rewrite Hne, (bool_decide_eq_true_2 _ Hcol). simpl. f_equal.
  unfold reindex. apply list_fmap_ext. intros _ d _.
  by rewrite groupby_size_lookup.
Qed.

(** C3 (as stated, refuted) — for an empty view the daily-trend tab
    builds no series, even over a single day; and the resampled series of
    [app_1.2.py] runs from the first to the last day with a record, three
    entries here where the five-day interval has five days. *)
Lemma daily_series_of_empty_view :
  daily (mkDF sample_columns []) 738886 738886 = None
  ∧ ∃ v s, apply_filters sample_df
             (mkFilters 738886 738890 [] false (0, 120) []) = Ok v
           ∧ resample_daily v = Ok s
           ∧ length s = 3%nat
           ∧ Z.to_nat (738890 - 738886 + 1) = 5%nat.
Proof.
  split; [reflexivity |]. eexists _, _. split; [reflexivity |].
  split; [vm_compute; reflexivity |]. split; reflexivity.
Qed.

(** C3 (amended) — for a view that is not empty and has the date column,
    the daily series over [start, end] has one entry per calendar day of
    the interval, in order: [(end - start).days + 1] entries when
    [start <= end] (a single entry for a single-day range), each holding
    the number of records of the view reported on that day, zero when
    there is none.  For an empty view no series is built. *)
Theorem daily_is_zero_filled (fdf : DataFrame) (lo hi : Z) :
  (df_empty fdf = true → daily fdf lo hi = None)
  ∧ (df_empty fdf = false → "reported_date" ∈ columns fdf →
     ∃ s, daily fdf lo hi = Some s
          ∧ length s = Z.to_nat (hi - lo + 1)
          ∧ (lo ≤ hi → Z.of_nat (length s) = hi - lo + 1)
          ∧ ∀ i : nat, (i < length s)%nat →
              s !! i = Some (lo + Z.of_nat i,
                             count_key (lo + Z.of_nat i) (date_only fdf))).
Proof.
  split.
  - intros He. unfold daily. by rewrite He.
  - intros Hne Hcol. eexists. split; [by apply daily_built |].
    unfold date_range. rewrite length_fmap, length_seqZ.
    split; [done |]. split; [lia |].
    intros i Hi. rewrite list_lookup_fmap, lookup_seqZ_lt by lia. done.
Qed.

(** On the sample batch: 2024-01-02 has a zero. *)
Lemma daily_is_zero_filled_witness :
  daily (mkDF sample_columns []) 738886 738888 = None
  ∧ ∃ s, daily sample_df 738886 738888 = Some s
         ∧ length s = 3%nat
         ∧ s !! 1%nat = Some (738887, 0%nat).
Proof.
  split.
  - apply (proj1 (daily_is_zero_filled (mkDF sample_columns []) 738886 738888)).
    reflexivity.
  - destruct (proj2 (daily_is_zero_filled sample_df 738886 738888))
      as (s & Hs & Hlen & _ & Hi).
    + reflexivity.
    + apply (bool_decide_unpack _). vm_compute. exact I.
    + exists s. split; [exact Hs |]. split; [exact Hlen |].
      apply (Hi 1%nat). rewrite Hlen. vm_compute. lia.
Defined.

(** ** Day-over-day change *)

Lemma iloc_last {A : Type} (pre : list A) (prev last : A) :
  iloc (pre ++ [prev; last]) (-1) = Ok last.
Proof.
  unfold iloc. rewrite length_app. cbn [length Z.ltb Z.compare].
  destruct (Z.ltb_spec (-1 + Z.of_nat (length pre + 2)) 0) as [Hlt|Hge]; [lia |].
  replace (Z.to_nat (-1 + Z.of_nat (length pre + 2))) with (length pre + 1)%nat by lia.
  rewrite lookup_app_r by lia.
  by replace (length pre + 1 - length pre)%nat with 1%nat by lia.
Qed.

Lemma iloc_prev {A : Type} (pre : list A) (prev last : A) :
  iloc (pre ++ [prev; last]) (-2) = Ok prev.
Proof.
  unfold iloc. rewrite length_app. cbn [length Z.ltb Z.compare].
  destruct (Z.ltb_spec (-2 + Z.of_nat (length pre + 2)) 0) as [Hlt|Hge]; [lia |].
  replace (Z.to_nat (-2 + Z.of_nat (length pre + 2))) with (length pre + 0)%nat by lia.
  rewrite lookup_app_r by lia.
  by replace (length pre + 0 - length pre)%nat with 0%nat by lia.
Qed.

Lemma two_last {A : Type} (l : list A) :
  (2 ≤ length l)%nat → ∃ pre prev last, l = pre ++ [prev; last].
Proof.
  intros Hlen. exists (take (length l - 2) l).
  destruct (drop (length l - 2) l) as [|prev [|last [|z rest]]] eqn:Hd.
  - apply (f_equal length) in Hd. rewrite length_drop in Hd. simpl in Hd. lia.
  - apply (f_equal length) in Hd. rewrite length_drop in Hd. simpl in Hd. lia.
  - exists prev, last. by rewrite <- Hd, take_drop.
  - apply (f_equal length) in Hd. rewrite length_drop in Hd. simpl in Hd. lia.
Qed.

(** The KPI never raises either: its series has two points when
    [compute_latest_dod] is called. *)
Lemma dod_pct_no_exception (fdf : DataFrame) : ∃ change, dod_pct fdf = Ok change.
Proof.
  unfold dod_pct.
  destruct (negb (df_empty fdf) && bool_decide ("reported_date" ∈ columns fdf));
    [| by eexists].
  destruct (2 <=? length (groupby_size_sorted (date_only fdf)))%nat eqn:Hlen;
    [| by eexists].
  apply Nat.leb_le in Hlen.
  destruct (two_last ((λ e, Z.of_nat e.2) <$> groupby_size_sorted (date_only fdf)))
    as (pre & prev & last & Heq); [by rewrite length_fmap |].
  rewrite Heq. unfold compute_latest_dod.
  rewrite (proj2 (Nat.ltb_ge _ _)) by (rewrite length_app; simpl; lia).
  rewrite iloc_last, iloc_prev. cbn [mbind result_bind].
  destruct (prev =? 0); by eexists.
Qed.

(** C6 — [compute_latest_dod] raises nothing and returns [None] ("not
    available") for a series of fewer than two points and for a series
    whose second-to-last count is zero; otherwise it returns the number
    [(last - prev) / prev * 100]. *)
Theorem day_over_day_change (series : list Z) :
  (∃ change, compute_latest_dod series = Ok change)
  ∧ ((length series < 2)%nat → compute_latest_dod series = Ok None)
  ∧ (∀ pre last, series = pre ++ [0; last] →
       compute_latest_dod series = Ok None)
  ∧ (∀ pre prev last, series = pre ++ [prev; last] → prev ≠ 0 →
       compute_latest_dod series =
         Ok (Some (inject_Z (last - prev) / inject_Z prev * 100)%Q)).
Proof.
  split_and!.
  - unfold compute_latest_dod. destruct (Nat.ltb_spec (length series) 2) as [Hlen|Hlen].
    + by eexists.
    + destruct (two_last series Hlen) as (pre & prev & last & ->).
      rewrite iloc_last, iloc_prev. cbn [mbind result_bind].
      destruct (prev =? 0); by eexists.
  - intros Hlen. unfold compute_latest_dod.
    by rewrite (proj2 (Nat.ltb_lt _ _) Hlen).
  - intros pre last ->. unfold compute_latest_dod.
    rewrite (proj2 (Nat.ltb_ge _ _)) by (rewrite length_app; simpl; lia).
    by rewrite iloc_last, iloc_prev.
  - intros pre prev last -> Hprev. unfold compute_latest_dod.
    rewrite (proj2 (Nat.ltb_ge _ _)) by (rewrite length_app; simpl; lia).
    rewrite iloc_last, iloc_prev. cbn [mbind result_bind].
    by rewrite (proj2 (Z.eqb_neq _ _) Hprev).
Qed.

(** One point; a zero before the last point; from 4 to 5. *)
Lemma day_over_day_change_witness :
  compute_latest_dod [4] = Ok None
  ∧ compute_latest_dod [3; 0; 5] = Ok None
  ∧ compute_latest_dod [3; 4; 5] = Ok (Some (inject_Z (5 - 4) / inject_Z 4 * 100)%Q).
Proof.
  split_and!.
  - apply (proj1 (proj2 (day_over_day_change [4]))). simpl. lia.
  - apply (proj1 (proj2 (proj2 (day_over_day_change [3; 0; 5]))) [3] 5).
    reflexivity.
  - apply (proj2 (proj2 (proj2 (day_over_day_change [3; 4; 5]))) [3] 4 5);
      [reflexivity | lia].
Defined.

(** ** The rolling mean against the trailing window *)

Lemma sumZ_app (l1 l2 : list Z) : sumZ (l1 ++ l2) = sumZ l1 + sumZ l2.
Proof.
  unfold sumZ. induction l1 as [|x l1 IH]; simpl; [done |]. rewrite IH. lia.
Qed.

Lemma length_roll_mean (w minp : nat) (l : list Z) (n i : nat) (s : Z) (k : nat) :
  length (roll_mean w minp l i n s k) = n.
Proof.
  revert i s k. induction n as [|n IH]; intros i s k; [done |].
  cbn [roll_mean].
  destruct (if (w <=? i)%nat then _ else _) as [s1 k1].
  destruct (match l !! i with Some _ => _ | None => _ end) as [s2 k2].
  simpl. by rewrite IH.
Qed.

Section Window.
Context (w : nat) (l : list Z) (Hw : (1 ≤ w)%nat).

(** The values at the indices [j - w .. j - 1]: the window once the
    first [j] values are in. *)
Let held (j : nat) : list Z := take (j - (j - w)) (drop (j - w) l).

Lemma held_length (j : nat) : (j ≤ length l)%nat → length (held j) = (j `min` w)%nat.
Proof. intros Hj. unfold held. rewrite length_take, length_drop. lia. Qed.

Lemma held_step_grow (j : nat) (y : Z) :
  (j < w)%nat → l !! j = Some y → held (S j) = held j ++ [y].
Proof.
  intros Hjw Hy. unfold held.
  replace (S j - w)%nat with 0%nat by lia.
  replace (j - w)%nat with 0%nat by lia.
  rewrite !Nat.sub_0_r, !drop_0. by apply take_S_r.
Qed.

Lemma held_step_slide (j : nat) (x y : Z) :
  (w ≤ j)%nat → l !! (j - w)%nat = Some x → l !! j = Some y →
  ∃ mid, held j = x :: mid ∧ held (S j) = mid ++ [y].
Proof.
  intros Hwj Hx Hy. unfold held.
  replace (S j - w)%nat with (S (j - w)) by lia.
  replace (j - (j - w))%nat with (S (w - 1)) by lia.
  replace (S j - S (j - w))%nat with (S (w - 1)) by lia.
  exists (take (w - 1) (drop (S (j - w)) l)). split.
  - by rewrite (drop_S _ _ _ Hx).
  - apply take_S_r. rewrite lookup_drop.
    by replace (S (j - w) + (w - 1))%nat with j by lia.
Qed.

Lemma roll_mean_lookup (n i k : nat) :
  (i + n ≤ length l)%nat → (k < n)%nat →
  roll_mean w 1 l i n (sumZ (held i)) (length (held i)) !! k
  = Some (Some (mean_of (held (S (i + k))))).
Proof.
  revert i k. induction n as [|n IH]; intros i k Hin Hk; [lia |].
  assert (Hi : (i < length l)%nat) by lia.
  destruct (lookup_lt_is_Some_2 l i Hi) as [y Hy].
  assert (Hstep :
    (let '(s1, k1) :=
       if (w <=? i)%nat then
         match l !! (i - w)%nat with
         | Some x => (sumZ (held i) - x, pred (length (held i)))
         | None => (sumZ (held i), length (held i))
         end
       else (sumZ (held i), length (held i)) in
     match l !! i with
     | Some x => (s1 + x, S k1)
     | None => (s1, k1)
     end) = (sumZ (held (S i)), length (held (S i)))).
  { rewrite Hy. destruct (Nat.leb_spec w i) as [Hwi|Hwi].
    - destruct (lookup_lt_is_Some_2 l (i - w)%nat) as [x Hx]; [lia |].
      rewrite Hx.
      destruct (held_step_slide i x y Hwi Hx Hy) as (mid & -> & ->).
      rewrite sumZ_app, length_app. unfold sumZ. cbn [foldr length pred].
      f_equal; lia.
    - rewrite (held_step_grow i y Hwi Hy), sumZ_app, length_app.
      unfold sumZ. cbn [foldr length]. f_equal; lia. }
  cbn [roll_mean].
  destruct (if (w <=? i)%nat then _ else _) as [s1 k1].
  destruct (match l !! i with Some _ => _ | None => _ end) as [s2 k2].
  injection Hstep as -> ->.
  destruct k as [|k].
  - cbn [lookup list_lookup]. rewrite Nat.add_0_r. do 2 f_equal.
    unfold calc_mean, mean_of.
    assert (Hpos : (1 ≤ length (held (S i)))%nat)
      by (rewrite held_length by lia; lia).
    rewrite (proj2 (Nat.leb_le _ _) Hpos).
    by rewrite (proj2 (Nat.ltb_lt _ _) Hpos).
  - cbn [lookup list_lookup].
    replace (S (i + S k)) with (S (S i + k)) by lia.
    apply IH; lia.
Qed.
End Window.

Lemma rolling_mean_lookup (w : nat) (l : list Z) (i : nat) :
  (1 ≤ w)%nat → (i < length l)%nat →
  rolling_mean w 1 l !! i = Some (Some (mean_of (trailing_window w l i))).
Proof.
  intros Hw Hi. unfold rolling_mean, trailing_window.
  replace (i + 1)%nat with (S (0 + i)) by lia.
  by apply (roll_mean_lookup w l Hw (length l) 0 i).
Qed.

Lemma trailing_window_prefix (w : nat) (l : list Z) (i : nat) :
  trailing_window w (take (S i) l) i = trailing_window w l i.
Proof.
  unfold trailing_window.
  rewrite skipn_firstn_comm, take_take. f_equal. lia.
Qed.

(** C4 — for a window [w >= 1] (and [min_periods = 1], as every call in
    the source has it) the rolling mean has the length of its input; its
    value at index [i] is the mean of [series[max(0, i-w+1) .. i]]; the
    first value is [series[0]]; and the value at [i] is the same for two
    series that agree up to index [i]. *)
Theorem rolling_mean_is_trailing (w : nat) (series : list Z) :
  (1 ≤ w)%nat →
  length (rolling_mean w 1 series) = length series
  ∧ (∀ i, (i < length series)%nat →
       rolling_mean w 1 series !! i
       = Some (Some (mean_of (trailing_window w series i))))
  ∧ (∀ x rest, series = x :: rest →
       rolling_mean w 1 series !! 0%nat = Some (Some (inject_Z x)))
  ∧ (∀ other i, (i < length series)%nat → (i < length other)%nat →
       take (S i) other = take (S i) series →
       rolling_mean w 1 other !! i = rolling_mean w 1 series !! i).
Proof.
  intros Hw. split_and!.
  - apply length_roll_mean.
  - intros i Hi. by apply rolling_mean_lookup.
  - intros x rest ->. rewrite rolling_mean_lookup by (simpl; lia).
    unfold trailing_window.
    replace (0 + 1 - w)%nat with 0%nat by lia.
    unfold mean_of, sumZ. cbn [Nat.add Nat.sub take drop foldr length].
    by rewrite Z.add_0_r.
  - intros other i Hi Ho Heq. rewrite !rolling_mean_lookup by done.
    rewrite <- (trailing_window_prefix w other), <- (trailing_window_prefix w series).
    by rewrite Heq.
Qed.

(** Eight days with the 7-day window of the source. *)
Lemma rolling_mean_is_trailing_witness :
  rolling_7d [2; 0; 1; 5; 0; 0; 3; 4] !! 7%nat
  = Some (Some (mean_of [0; 1; 5; 0; 0; 3; 4]))
  ∧ rolling_7d [2; 0; 1; 5; 0; 0; 3; 4] !! 0%nat = Some (Some (inject_Z 2))
  ∧ rolling_7d [2; 0; 9; 9] !! 1%nat = rolling_7d [2; 0; 1; 5; 0; 0; 3; 4] !! 1%nat.
Proof.
  destruct (rolling_mean_is_trailing 7 [2; 0; 1; 5; 0; 0; 3; 4])
    as (_ & Hval & Hfirst & Hpast); [lia |].
  split; [| split].
  - apply (Hval 7%nat). simpl. lia.
  - by apply (Hfirst 2 [0; 1; 5; 0; 0; 3; 4]).
  - apply (Hpast [2; 0; 9; 9] 1%nat); [simpl; lia | simpl; lia | reflexivity].
Defined.

(** ** Spike detection: the rational test against the real threshold *)

Lemma Q2R_inject_Z (x : Z) : Q2R (inject_Z x) = IZR x.
Proof. unfold Q2R, inject_Z. simpl. lra. Qed.

Lemma Q2R_sumQ (l : list Q) : Q2R (sumQ l) = sumR (Q2R <$> l).
Proof.
  induction l as [|q l IH].
  - unfold sumQ, sumR, Q2R. simpl. lra.
  - change (sumQ (q :: l)) with (q + sumQ l)%Q.
    change (sumR (Q2R <$> q :: l)) with (Q2R q + sumR (Q2R <$> l))%R.
    by rewrite Q2R_plus, IH.
Qed.

Lemma Qlt_bool_Rlt (a b : Q) : Qlt_bool a b = true ↔ (Q2R a < Q2R b)%R.
Proof.
  unfold Qlt_bool. rewrite negb_true_iff. split.
  - intros Hle. apply Qlt_Rlt. apply Qnot_le_lt. intros Hba.
    apply Qle_bool_iff in Hba. congruence.
  - intros Hlt. apply Rlt_Qlt in Hlt. apply not_true_is_false.
    intros Hba. apply Qle_bool_iff in Hba. by apply Qle_not_lt in Hba.
Qed.

Lemma INR_length_pos {A : Type} (l : list A) : nonempty l = true → (0 < INR (length l))%R.
Proof. destruct l; [done |]. intros _. apply lt_0_INR. simpl. lia. Qed.

Lemma Q2R_mean_Q (s : list Z) :
  nonempty s = true →
  Q2R (mean_Q s) = (sumR (IZR <$> s) / INR (length s))%R.
Proof.
  intros Hne. unfold mean_Q.
  assert (Hpos := INR_length_pos s Hne).
  rewrite Q2R_div.
  - rewrite Q2R_sumQ, Q2R_inject_Z, <- INR_IZR_INZ, <- list_fmap_compose.
    f_equal. f_equal. apply list_fmap_ext. intros _ x _. apply Q2R_inject_Z.
  - intros Hz. apply Qeq_eqR in Hz. rewrite Q2R_inject_Z, <- INR_IZR_INZ in Hz.
    rewrite RMicromega.Q2R_0 in Hz. lra.
Qed.

Lemma Q2R_var_Q (s : list Z) :
  (2 ≤ length s)%nat →
  Q2R (var_Q s) =
    (sumR ((λ x, (IZR x - Q2R (mean_Q s)) * (IZR x - Q2R (mean_Q s))) <$> s)
     / INR (length s - 1))%R.
Proof.
  intros Hlen. unfold var_Q.
  assert (Hpos : (0 < INR (length s - 1))%R) by (apply lt_0_INR; lia).
  rewrite Q2R_div.
  - rewrite Q2R_sumQ, Q2R_inject_Z, <- INR_IZR_INZ, <- list_fmap_compose.
    f_equal. f_equal. apply list_fmap_ext. intros _ x _. simpl.
    by rewrite Q2R_mult, Q2R_minus, Q2R_inject_Z.
  - intros Hz. apply Qeq_eqR in Hz. rewrite Q2R_inject_Z, <- INR_IZR_INZ in Hz.
    rewrite RMicromega.Q2R_0 in Hz. lra.
Qed.

Lemma sumR_squares_nonneg (m : R) (s : list Z) :
  (0 <= sumR ((λ x, (IZR x - m) * (IZR x - m)) <$> s))%R.
Proof.
  induction s as [|x s IH]; [unfold sumR; simpl; lra |].
  change (0 <= (IZR x - m) * (IZR x - m)
               + sumR ((λ x, (IZR x - m) * (IZR x - m)) <$> s))%R.
  assert (Hsq := Rle_0_sqr (IZR x - m)). unfold Rsqr in Hsq. lra.
Qed.

Lemma gt_twice_sqrt (a v : R) :
  (0 <= v)%R → (a > 2 * sqrt v)%R ↔ (0 < a)%R ∧ (4 * v < a * a)%R.
Proof.
  intros Hv. assert (Hs := sqrt_pos v). assert (Hss := sqrt_sqrt v Hv).
  split.
  - intros Ha. split; nra.
  - intros [Ha Hlt]. apply Rnot_le_gt. intros Hle. nra.
Qed.

Lemma global_std_defined (s : list Z) (sd : R) :
  series_std s = Some sd → global_std s = sd ∧ (0 <= sd)%R.
Proof.
  intros Hsd. unfold global_std. rewrite Hsd.
  assert (Hnn : (0 <= sd)%R).
  { unfold series_std in Hsd. destruct (series_mean s) as [m|]; [| done].
    cbn [mbind option_bind] in Hsd.
    destruct (2 <=? length s)%nat; [| discriminate].
    injection Hsd as <-. apply sqrt_pos. }
  split; [| done]. destruct (Rlt_dec 0 sd); lra.
Qed.

(** [exceeds] decides the comparison of the source. *)
Lemma exceeds_spec (s : list Z) (x : Z) :
  exceeds s x = true ↔ above (threshold s) x.
Proof.
  unfold exceeds, threshold, global_mean, series_mean.
  destruct (nonempty s) eqn:Hne; [| by split].
  cbn [fmap option_fmap option_map andb above].
  rewrite <- (Q2R_mean_Q s Hne).
  rewrite andb_true_iff, orb_true_iff, !Qlt_bool_Rlt.
  rewrite !Q2R_mult, !Q2R_minus, !Q2R_inject_Z, RMicromega.Q2R_0.
  unfold global_std, series_std, series_mean. rewrite Hne.
  cbn [mbind option_bind]. rewrite <- (Q2R_mean_Q s Hne).
  destruct (Nat.leb_spec 2 (length s)) as [Hlen|Hlen].
  - rewrite (proj2 (Nat.ltb_ge _ _)) by lia.
    rewrite (Q2R_var_Q s Hlen).
    set (m := Q2R (mean_Q s)).
    set (v := (sumR ((λ x0, (IZR x0 - m) * (IZR x0 - m)) <$> s)
               / INR (length s - 1))%R).
    assert (Hv : (0 <= v)%R).
    { subst v. apply Rmult_le_pos; [apply sumR_squares_nonneg |].
      apply Rlt_le, Rinv_0_lt_compat, lt_0_INR. lia. }
    assert (H4 : Q2R 4 = 4%R) by (unfold Q2R; simpl; lra).
    rewrite H4. assert (Hs := sqrt_pos v).
    destruct (Rlt_dec 0 (sqrt v)) as [Hpos|Hzero].
    + assert (Hiff := gt_twice_sqrt (IZR x - m) v Hv). split.
      * intros [Ha [Hb|Hb]]; [done |].
        assert (IZR x - m > 2 * sqrt v)%R by (apply Hiff; split; assumption).
        lra.
      * intros Hgt. assert (Hgt' : (IZR x - m > 2 * sqrt v)%R) by lra.
        apply Hiff in Hgt' as [Ha Hb]. split; [lra | by right].
    + assert (Hsz : sqrt v = 0%R) by lra.
      assert (Hvz : v = 0%R).
      { assert (Hss := sqrt_sqrt v Hv). rewrite Hsz in Hss. lra. }
      rewrite Hvz. split.
      * intros [Ha _]. lra.
      * intros Hgt. split; [lra | right; nra].
  - rewrite (proj2 (Nat.ltb_lt _ _)) by lia. split.
    + intros [Ha _]. lra.
    + intros Hgt. split; [lra | by left].
Qed.

Lemma global_std_nonneg (s : list Z) : (0 <= global_std s)%R.
Proof.
  unfold global_std. destruct (series_std s) as [sd|]; [| lra].
  destruct (Rlt_dec 0 sd); lra.
Qed.

Lemma sumR_constant (c : Z) (s : list Z) :
  (∀ y, y ∈ s → y = c) → sumR (IZR <$> s) = (INR (length s) * IZR c)%R.
Proof.
  induction s as [|y s IH]; intros Hc.
  - unfold sumR. simpl. lra.
  - change (sumR (IZR <$> y :: s)) with (IZR y + sumR (IZR <$> s))%R.
    change (length (y :: s)) with (S (length s)). rewrite S_INR.
    rewrite IH by (intros z Hz; apply Hc; by right).
    rewrite (Hc y) by left. lra.
Qed.

Lemma constant_not_above (c : Z) (s : list Z) :
  (∀ y, y ∈ s → y = c) → ¬ above (threshold s) c.
Proof.
  intros Hc. unfold threshold, global_mean, series_mean.
  destruct (nonempty s) eqn:Hne; [| by intros []].
  cbn [fmap option_fmap option_map above].
  rewrite (sumR_constant c s Hc).
  assert (Hpos := INR_length_pos s Hne). assert (Hg := global_std_nonneg s).
  replace (INR (length s) * IZR c / INR (length s))%R with (IZR c)
    by (field; lra).
  lra.
Qed.

(** C5 — the anomaly column has one flag per point and is computed
    without an exception; a point is flagged exactly when its count is
    strictly greater than the threshold, and, for a point of the series,
    exactly when its count is strictly greater than the mean of the whole
    series plus twice its standard deviation; no point of a series whose
    values are all equal is flagged. *)
Theorem anomaly_flags (count : list Z) :
  length (anomaly count) = length count
  ∧ (∀ i x, count !! i = Some x →
       (anomaly count !! i = Some true ↔ above (threshold count) x)
       ∧ (above (threshold count) x ↔
          ∃ m sd, series_mean count = Some m ∧ series_std count = Some sd
                  ∧ (IZR x > m + 2 * sd)%R))
  ∧ ((∀ x y, x ∈ count → y ∈ count → x = y) →
     (∀ b, b ∈ anomaly count → b = false) ∧ anomalies count = []).
Proof.
  split_and!.
  - unfold anomaly. apply length_fmap.
  - intros i x Hx. split.
    + unfold anomaly. rewrite list_lookup_fmap, Hx. cbn [fmap option_fmap option_map].
      rewrite <- exceeds_spec. split; [by intros [= ->] | by intros ->].
    + destruct (series_std count) as [sd|] eqn:Hsd.
      * assert (Hm : ∃ m, series_mean count = Some m).
        { unfold series_std in Hsd. destruct (series_mean count) as [m|]; [| done].
          by exists m. }
        destruct Hm as [m Hm].
        destruct (global_std_defined count sd Hsd) as [Hg _].
        unfold threshold, global_mean. rewrite Hm, Hg. cbn [fmap option_fmap option_map above].
        split.
        -- intros Hgt. by exists m, sd.
        -- by intros (m' & sd' & [= <-] & [= <-] & Hgt).
      * split; [| by intros (m & sd & _ & [=] & _)].
        intros Habove. exfalso.
        assert (Hconst : ∀ y, y ∈ count → y = x).
        { unfold series_std, series_mean in Hsd.
          destruct count as [|c [|c' rest]]; [done | | done].
          apply list_lookup_singleton_Some in Hx as [_ <-].
          intros y Hy. by apply list_elem_of_singleton in Hy. }
        by apply (constant_not_above x count Hconst).
  - intros Hconst.
    assert (Hnone : ∀ x, x ∈ count → ¬ exceeds count x).
    { intros x Hx Hex. apply Is_true_true, exceeds_spec in Hex.
      revert Hex. apply constant_not_above. intros y Hy. by apply Hconst. }
    split.
    + intros b Hb. unfold anomaly in Hb.
      apply list_elem_of_fmap in Hb as (x & -> & Hx).
      apply Is_true_false. by apply Hnone.
    + unfold anomalies, anomaly. rewrite select_fmap.
      by apply filter_none.
Qed.

(** A spike of nine over ones, and a constant series. *)
Lemma anomaly_flags_witness :
  above (threshold [1; 1; 1; 1; 1; 1; 9]) 9
  ∧ anomalies [1; 1; 1; 1; 1; 1; 9] = [9]
  ∧ anomalies [3; 3; 3] = [].
Proof.
  destruct (anomaly_flags [1; 1; 1; 1; 1; 1; 9]) as (_ & Hflag & _).
  destruct (anomaly_flags [3; 3; 3]) as (_ & _ & Hconst).
  split; [| split].
  - apply (proj1 (Hflag 6%nat 9 eq_refl)). reflexivity.
  - reflexivity.
  - apply Hconst. intros x y Hx Hy.
    repeat (apply elem_of_cons in Hx as [->|Hx]);
      repeat (apply elem_of_cons in Hy as [->|Hy]);
      try reflexivity; by apply elem_of_nil in Hx || by apply elem_of_nil in Hy.
Defined.

(** ** Wide tables *)


Lemma count_key_present {K : Type} `{EqDecision K} (k : K) (keys : list (option K)) :
  Some k ∈ keys → (0 < count_key k keys)%nat.
Proof.
  intros Hk. unfold count_key.
  assert (Hin : Some k ∈ filter (λ x, x = Some k) keys)
    by (by apply list_elem_of_filter).
  destruct (filter (λ x, x = Some k) keys); [by apply elem_of_nil in Hin |].
  simpl. lia.
Qed.



Section Pivot.
Context (fdf : DataFrame) (top_states : list string) (lo hi : Z).

Let selected := filter (λ r, isin top_states (cell r "state")) (rows fdf).
Let keys := date_state <$> selected.
Let table := wide_reindex (date_range lo hi)
                 (fillna0 (pivot (per_state fdf top_states))).



Lemma table_index : w_index table = date_range lo hi.
Proof. reflexivity. Qed.


End Pivot.

(** ** The states with the highest totals *)

#[local] Instance count_desc_trans : Transitive count_desc.
Proof. unfold count_desc. intros a b c. lia. Qed.

#[local] Instance count_desc_total : Total count_desc.
Proof. unfold count_desc. intros a b. lia. Qed.

Lemma state_of_Some (v : value) (s : string) : state_of v = Some s → v = VStr s.
Proof. destruct v; simpl; congruence. Qed.

Lemma elem_of_unique {A : Type} `{EqDecision A} (l : list A) (x : A) :
  x ∈ unique l ↔ x ∈ l.
Proof.
  unfold unique. by rewrite elem_of_reverse, elem_of_remove_dups, elem_of_reverse.
Qed.

Lemma NoDup_unique {A : Type} `{EqDecision A} (l : list A) : NoDup (unique l).
Proof. unfold unique. rewrite reverse_Permutation. apply NoDup_remove_dups. Qed.

Lemma insert_desc_Permutation (e : string * nat) (l : list (string * nat)) :
  insert_desc e l ≡ₚ e :: l.
Proof.
  induction l as [|x l IH]; [done |]. cbn [insert_desc].
  case_decide; [| done]. rewrite IH. apply Permutation_swap.
Qed.

Lemma sort_values_Permutation (vc : list (string * nat)) : sort_values vc ≡ₚ vc.
Proof.
  induction vc as [|e vc IH]; [done |].
  cbn [sort_values foldr]. fold (sort_values vc).
  by rewrite insert_desc_Permutation, IH.
Qed.

Lemma insert_desc_sorted (e : string * nat) (l : list (string * nat)) :
  StronglySorted count_desc l → StronglySorted count_desc (insert_desc e l).
Proof.
  induction 1 as [|x l Hl IH Hx]; [repeat constructor |].
  cbn [insert_desc]. case_decide as He.
  - constructor; [exact IH |].
    rewrite insert_desc_Permutation. constructor; [| exact Hx].
    unfold count_desc. lia.
  - constructor; [by constructor |]. constructor; [unfold count_desc; lia |].
    eapply Forall_impl; [exact Hx |]. unfold count_desc. intros y Hy. lia.
Qed.

Lemma StronglySorted_sort_values (vc : list (string * nat)) :
  StronglySorted count_desc (sort_values vc).
Proof.
  induction vc as [|e vc IH]; [constructor |].
  cbn [sort_values foldr]. by apply insert_desc_sorted.
Qed.

(** Sorting keeps the order of a list that is sorted already. *)
Lemma sort_values_sorted (vc : list (string * nat)) :
  StronglySorted count_desc vc → sort_values vc = vc.
Proof.
  induction 1 as [|x l Hl IH Hx]; [done |].
  cbn [sort_values foldr]. fold (sort_values l). rewrite IH.
  destruct l as [|y l']; [done |]. cbn [insert_desc].
  apply Forall_cons in Hx as [Hy _]. unfold count_desc in Hy.
  by rewrite decide_False by lia.
Qed.

Lemma value_counts_elem (col : list value) (s : string) (c : nat) :
  (s, c) ∈ value_counts col ↔
    c = count_key s (state_of <$> col) ∧ ∃ v, v ∈ col ∧ state_of v = Some s.
Proof.
  unfold value_counts.
  rewrite sort_values_Permutation, list_elem_of_fmap. split.
  - intros (s0 & [= -> ->] & Hs). split; [done |].
    by apply elem_of_unique, list_elem_of_omap in Hs.
  - intros (-> & Hv). exists s. split; [done |].
    by apply elem_of_unique, list_elem_of_omap.
Qed.

Lemma value_counts_NoDup (col : list value) : NoDup (value_counts col).*1.
Proof.
  unfold value_counts. rewrite sort_values_Permutation, <- list_fmap_compose.
  rewrite list_fmap_id. apply NoDup_unique.
Qed.

Lemma nlargest_elem (n : nat) (vc : list (string * nat)) (e : string * nat) :
  e ∈ nlargest n vc → e ∈ vc.
Proof.
  unfold nlargest. intros He.
  rewrite <- (sort_values_Permutation vc).
  eapply elem_of_sublist; [exact He | apply sublist_take].
Qed.

Lemma nlargest_NoDup (n : nat) (vc : list (string * nat)) :
  NoDup vc.*1 → NoDup (nlargest n vc).*1.
Proof.
  intros Hnd. unfold nlargest. rewrite fmap_take.
  eapply sublist_NoDup; [| apply sublist_take].
  by rewrite sort_values_Permutation.
Qed.

Lemma nlargest_length (n : nat) (vc : list (string * nat)) :
  length (nlargest n vc) = (n `min` length vc)%nat.
Proof.
  unfold nlargest. by rewrite length_take, sort_values_Permutation.
Qed.

Lemma nlargest_dominates (n : nat) (vc : list (string * nat))
    (e e' : string * nat) :
  NoDup vc.*1 →
  e ∈ nlargest n vc → e' ∈ vc → e'.1 ∉ (nlargest n vc).*1 → (e'.2 ≤ e.2)%nat.
Proof.
  intros Hnd He He' Hout. unfold nlargest in *.
  set (L := sort_values vc) in *.
  assert (Hsorted : StronglySorted count_desc (take n L ++ drop n L)).
  { rewrite take_drop. apply StronglySorted_sort_values. }
  assert (Hdrop : e' ∈ drop n L).
  { assert (HL : e' ∈ take n L ++ drop n L).
    { rewrite take_drop. subst L. by rewrite sort_values_Permutation. }
    apply elem_of_app in HL as [HL|HL]; [| done].
    exfalso. apply Hout. apply list_elem_of_fmap. by exists e'. }
  exact (StronglySorted_app_1_elem_of _ _ _ _ _ Hsorted He Hdrop).
Qed.

(** ** Rows of a filtered view *)

Lemma filtered_rows_dated (df : DataFrame) (f : Filters) (v : DataFrame)
    (r : gmap string value) :
  apply_filters df f = Ok v → "reported_date" ∈ columns v → r ∈ rows v →
  ∃ d, dt_date (cell r "reported_date") = Some d ∧ start f ≤ d ≤ end_ f.
Proof.
  intros Hv. apply apply_filters_inv in Hv as (_ & _ & ->).
  cbn [rows columns]. intros Hcol Hr.
  apply list_elem_of_filter in Hr as [Hk _]. unfold keep in Hk.
  rewrite (bool_decide_eq_true_2 _ Hcol), !andb_True in Hk.
  apply date_ok_dated. tauto.
Qed.

Lemma count_key_cons {K : Type} `{EqDecision K} (k : K) (x : option K)
    (keys : list (option K)) :
  count_key k (x :: keys)
  = ((if decide (x = Some k) then 1 else 0) + count_key k keys)%nat.
Proof. unfold count_key. rewrite filter_cons. by case_decide. Qed.


Lemma filter_all {A : Type} (P : A → Prop) `{!∀ x, Decision (P x)} (l : list A) :
  (∀ x, x ∈ l → P x) → filter P l = l.
Proof.
  intros HP. induction l as [|x l IH]; [done |].
  rewrite filter_cons_True by (apply HP; left).
  f_equal. apply IH. intros y Hy. apply HP. by right.
Qed.

Lemma count_key_fmap {A K : Type} `{EqDecision K} (g : A → option K) (k : K)
    (l : list A) :
  count_key k (g <$> l) = length (filter (λ x, g x = Some k) l).
Proof.
  induction l as [|x l IH]; [done |].
  rewrite fmap_cons, count_key_cons, filter_cons, IH.
  by destruct (decide (g x = Some k)).
Qed.

Lemma count_of_label (c : string) (s : string) (l : list (gmap string value)) :
  count_key s (state_of <$> ((λ r, cell r c) <$> l))
  = length (filter (λ r, state_of (cell r c) = Some s) l).
Proof. by rewrite <- list_fmap_compose, count_key_fmap. Qed.

Lemma value_counts_sorted (col : list value) :
  StronglySorted count_desc (value_counts col).
Proof. apply StronglySorted_sort_values. Qed.

Lemma value_counts_count (col : list value) (s : string) (c : nat) :
  (s, c) ∈ value_counts col ↔
    (1 ≤ c)%nat ∧ c = count_key s (state_of <$> col).
Proof.
  rewrite value_counts_elem. split.
  - intros (-> & v & Hv & Hs). split; [| done].
    apply count_key_present, list_elem_of_fmap. by exists v.
  - intros (Hpos & ->). split; [done |].
    destruct (decide (Some s ∈ state_of <$> col)) as [Hin|Hout].
    + apply list_elem_of_fmap in Hin as (v & Hs & Hv). by exists v.
    + rewrite (count_key_absent _ _ Hout) in Hpos. lia.
Qed.

Lemma nlargest_sorted (n : nat) (vc : list (string * nat)) :
  StronglySorted count_desc (nlargest n vc).
Proof.
  unfold nlargest.
  apply (StronglySorted_app_1_l _ _ (drop n (sort_values vc))).
  rewrite take_drop. apply StronglySorted_sort_values.
Qed.







(** ** Records without an age in the aggregates *)

(** C10 — a missing age fails both comparisons of the age predicate.  In
    the three dashboards, when the age column is present, every record of
    the filtered view carries a number as its age, within the inclusive
    range; a record of the store whose age is missing is in no filtered
    view, whatever the rest of the record and of the specification; and
    the count of a state in the view is at most the number of records of
    the store with that state and an age. *)
Theorem filtered_view_has_age (df : DataFrame) (f : Filters) (v : DataFrame) :
  "age" ∈ columns df →
  apply_filters df f = Ok v ∨ apply_filters_gender df f = Ok v →
  (∀ lo hi, num_ge lo NA = false ∧ num_le hi NA = false)
  ∧ (∀ r, r ∈ rows v →
     r ∈ rows df
     ∧ ∃ a, cell r "age" = VNum a
            ∧ (inject_Z (age_range f).1 <= a)%Q
            ∧ (a <= inject_Z (age_range f).2)%Q)
  ∧ (∀ r, r ∈ rows df → cell r "age" = NA → r ∉ rows v)
  ∧ (∀ s c, (s, c) ∈ value_counts ((λ r, cell r "state") <$> rows v) →
       (c ≤ length (filter (λ r, state_of (cell r "state") = Some s ∧ has_age r)
                           (rows df)))%nat).
Proof.
  intros Hage Hv.
  assert (HK : ∃ K : gmap string value → bool,
            rows v = filter (λ r, K r) (rows df)
            ∧ ∀ r, K r → keep (columns df) f r).
  { destruct Hv as [Hv|Hv].
    - apply apply_filters_inv in Hv as (_ & _ & ->). by eexists.
    - apply apply_filters_gender_inv in Hv as ->.
      exists (keep_gender (columns df) f). split; [done |].
      intros r. unfold keep_gender. rewrite andb_True. tauto. }
  destruct HK as (K & Hrows & HK).
  assert (Hnum : ∀ r, K r →
            ∃ a, cell r "age" = VNum a
                 ∧ (inject_Z (age_range f).1 <= a)%Q
                 ∧ (a <= inject_Z (age_range f).2)%Q).
  { intros r Hr. apply HK in Hr. unfold keep in Hr.
    rewrite (bool_decide_eq_true_2 _ Hage) in Hr.
    rewrite !andb_True in Hr. destruct Hr as (_ & Ha). by apply age_ok_inv. }
  rewrite Hrows. split_and!.
  - done.
  - intros r Hr. apply list_elem_of_filter in Hr as [Hr Hin].
    split; [done | by apply Hnum].
  - intros r _ Hna Hr. apply list_elem_of_filter in Hr as [Hr _].
    destruct (Hnum r Hr) as (a & Ha & _). congruence.
  - intros s c Hc. apply value_counts_elem in Hc as (-> & _).
    rewrite <- list_fmap_compose, count_key_fmap, list_filter_filter.
    apply sublist_length, filter_sublist_impl. intros r [Hs Hr].
    split; [done |]. destruct (Hnum r Hr) as (a & Ha & _).
    unfold has_age. by rewrite Ha.
Qed.

(** On the sample batch: [c2] has no age. *)
Lemma filtered_view_has_age_witness :
  ∃ v, apply_filters sample_df sample_filters = Ok v
       ∧ (sample_c2 ∉ rows v)
       ∧ value_counts ((λ r, cell r "state") <$> rows v)
         = [("A", 1%nat); ("B", 1%nat)].
Proof.
  eexists. split; [reflexivity |]. split; [| vm_compute; reflexivity].
  refine (proj1 (proj2 (proj2 (filtered_view_has_age sample_df sample_filters
                                 _ _ (or_introl eq_refl))))
                sample_c2 _ _).
  - apply (bool_decide_unpack _). vm_compute. exact I.
  - apply list_elem_of_further, list_elem_of_here.
  - reflexivity.
Defined.


(** * Further properties of the dashboards and of the API *)

(** ** Counts add up *)

Lemma sum_list_fmap_add {A : Type} (g h : A → nat) (l : list A) :
  sum_list ((λ x, g x + h x)%nat <$> l)
  = (sum_list (g <$> l) + sum_list (h <$> l))%nat.
Proof.
  induction l as [|x l IH]; [done |].
  rewrite !fmap_cons. cbn [sum_list_with]. rewrite IH.
  unfold Datatypes.id. lia.
Qed.

Lemma sum_list_indicator {K : Type} `{EqDecision K} (ds : list K) (k : option K) :
  NoDup ds →
  sum_list ((λ d, if decide (k = Some d) then 1 else 0)%nat <$> ds)
  = (if key_in ds k then 1 else 0)%nat.
Proof.
  intros Hnd. induction Hnd as [|d ds Hd Hnd IH]; [by destruct k |].
  rewrite fmap_cons. cbn [sum_list_with]. rewrite IH. unfold Datatypes.id.
  destruct k as [d'|]; [| by rewrite decide_False].
  unfold key_in. destruct (decide (Some d' = Some d)) as [[= ->]|Hne].
  - rewrite (bool_decide_eq_false_2 _ Hd).
    by rewrite bool_decide_eq_true_2 by left.
  - assert (d' ≠ d) by congruence.
    destruct (decide (d' ∈ ds)) as [Hin|Hout].
    + rewrite (bool_decide_eq_true_2 _ Hin).
      by rewrite bool_decide_eq_true_2 by (by right).
    + rewrite (bool_decide_eq_false_2 _ Hout).
      rewrite bool_decide_eq_false_2; [done |].
      intros [?|?]%elem_of_cons; done.
Qed.

(** Over distinct days, the sizes of the groups add up to the number of
    keys that fall on one of the days. *)
Lemma sum_count_keys {K : Type} `{EqDecision K} (ds : list K)
    (keys : list (option K)) :
  NoDup ds →
  sum_list ((λ d, count_key d keys) <$> ds)
  = length (filter (λ k, key_in ds k) keys).
Proof.
  intros Hnd. induction keys as [|k keys IH].
  - induction ds as [|d ds IHds]; [done |].
    rewrite fmap_cons. cbn [sum_list_with].
    apply NoDup_cons in Hnd as [_ Hnd]. by rewrite (IHds Hnd).
  - rewrite (list_fmap_ext (λ d, count_key d (k :: keys))
               (λ d, (if decide (k = Some d) then 1 else 0)
                     + count_key d keys)%nat ds)
      by (intros; apply count_key_cons).
    rewrite sum_list_fmap_add, IH, (sum_list_indicator _ _ Hnd), filter_cons.
    destruct (key_in ds k) eqn:Hk.
    + by rewrite decide_True by done.
    + by rewrite decide_False by (by intros []).
Qed.

Lemma length_filter_fmap {A B : Type} (g : A → B) (P : B → Prop)
    `{!∀ y, Decision (P y)} (l : list A) :
  length (filter P (g <$> l)) = length (filter (λ x, P (g x)) l).
Proof.
  induction l as [|x l IH]; [done |].
  rewrite fmap_cons, !filter_cons. destruct (decide (P (g x))); simpl; by rewrite IH.
Qed.

Lemma key_in_range (lo hi : Z) (r : gmap string value) :
  key_in (date_range lo hi) (dt_date (cell r "reported_date")) ↔ date_ok lo hi r.
Proof.
  unfold key_in, date_ok, date_ge, date_le, date_range.
  destruct (dt_date (cell r "reported_date")) as [d|]; [| done].
  rewrite bool_decide_spec, elem_of_seqZ, andb_True.
  rewrite !Is_true_true, !Z.leb_le. lia.
Qed.

Lemma daily_Some_inv (fdf : DataFrame) (lo hi : Z) (s : list (Z * nat)) :
  daily fdf lo hi = Some s →
  df_empty fdf = false ∧ "reported_date" ∈ columns fdf
  ∧ s = (λ d, (d, count_key d (date_only fdf))) <$> date_range lo hi.
Proof.
  intros Hs. pose proof Hs as Hs'. unfold daily in Hs'.
  destruct (df_empty fdf) eqn:He; [done |].
  destruct (bool_decide ("reported_date" ∈ columns fdf)) eqn:Hc; [| done].
  apply bool_decide_eq_true_1 in Hc.
  rewrite (daily_built fdf lo hi He Hc) in Hs. by injection Hs as <-.
Qed.

(** X1 — the counts of the daily series add up to the number of records
    of the view reported within the interval; on a filtered view drawn
    over the interval of its own filter they add up to the number of
    records, the "Total cases" figure. *)
Theorem daily_counts_add_up (fdf : DataFrame) (lo hi : Z) (s : list (Z * nat)) :
  daily fdf lo hi = Some s →
  sum_list (s.*2) = length (filter (λ r, date_ok lo hi r) (rows fdf))
  ∧ (∀ df f, apply_filters df f = Ok fdf → lo = start f → hi = end_ f →
       sum_list (s.*2) = length (rows fdf)).
Proof.
  intros Hs. apply daily_Some_inv in Hs as (_ & Hcol & ->).
  assert (Hsum : sum_list (((λ d, (d, count_key d (date_only fdf)))
                              <$> date_range lo hi).*2)
                 = length (filter (λ r, date_ok lo hi r) (rows fdf))).
  { rewrite <- list_fmap_compose.
    change (snd ∘ (λ d : Z, (d, count_key d (date_only fdf))))
      with (λ d, count_key d (date_only fdf)).
    rewrite sum_count_keys by apply NoDup_seqZ.
    unfold date_only. rewrite length_filter_fmap.
    f_equal. apply list_filter_iff. intros r. apply key_in_range. }
  split; [exact Hsum |].
  intros df f Hv -> ->. rewrite Hsum. f_equal. apply filter_all.
  intros r Hr.
  destruct (filtered_rows_dated df f fdf r Hv Hcol Hr) as (d & Hd & Hrange).
  unfold date_ok, date_ge, date_le. rewrite Hd, andb_True.
  rewrite !Is_true_true, !Z.leb_le. lia.
Qed.

(** On the sample batch: two cases on the first day and one on the third
    make three. *)
Lemma daily_counts_add_up_witness :
  ∃ s, daily sample_df 738886 738888 = Some s ∧ sum_list (s.*2) = 3%nat.
Proof.
  eexists. split; [reflexivity |].
  rewrite (proj1 (daily_counts_add_up sample_df 738886 738888 _ eq_refl)).
  reflexivity.
Defined.

(** ** The resampled daily series *)

Lemma sorted_bounds (d0 : Z) (ds : list Z) :
  StronglySorted Z.le (d0 :: ds) →
  List.last ds d0 ∈ d0 :: ds
  ∧ ∀ x, x ∈ d0 :: ds → d0 ≤ x ≤ List.last ds d0.
Proof.
  intros Hs. destruct (decide (ds = [])) as [->|Hne].
  - simpl. split; [left |]. intros x Hx.
    apply list_elem_of_singleton in Hx as ->. lia.
  - destruct (exists_last Hne) as (pre & hi & ->).
    rewrite last_last. split; [set_solver |].
    intros x Hx. split.
    + inversion Hs as [|? ? _ Hall]; subst.
      rewrite Forall_forall in Hall.
      apply elem_of_cons in Hx as [->|Hx]; [lia | by apply Hall].
    + change (d0 :: pre ++ [hi]) with ((d0 :: pre) ++ [hi]) in Hx, Hs.
      apply elem_of_app in Hx as [Hx|Hx].
      * exact (StronglySorted_app_1_elem_of _ _ _ _ _ Hs Hx
                 (list_elem_of_here _ _)).
      * apply list_elem_of_singleton in Hx as ->. lia.
Qed.

Lemma filter_iff_in {A : Type} (P Q : A → Prop)
    `{!∀ x, Decision (P x), !∀ x, Decision (Q x)} (l : list A) :
  (∀ x, x ∈ l → P x ↔ Q x) → filter P l = filter Q l.
Proof.
  intros HPQ. induction l as [|x l IH]; [done |].
  assert (Hx : P x ↔ Q x) by (apply HPQ; left).
  assert (Hl : filter P l = filter Q l)
    by (apply IH; intros y Hy; apply HPQ; by right).
  rewrite !filter_cons, Hl.
  destruct (decide (P x)), (decide (Q x)); tauto.
Qed.

Lemma dated_days (fdf : DataFrame) (d : Z) :
  d ∈ omap (λ k, k) (date_only fdf) ↔ Some d ∈ date_only fdf.
Proof.
  rewrite list_elem_of_omap. split.
  - by intros (x & Hx & ->).
  - intros Hd. by exists (Some d).
Qed.

(** The bins run from the first to the last day that has a record. *)
Lemma day_bins_spans (fdf : DataFrame) (d : Z) :
  Some d ∈ date_only fdf →
  ∃ lo hi,
    lo ≤ d ≤ hi
    ∧ (∀ d', Some d' ∈ date_only fdf → lo ≤ d' ≤ hi)
    ∧ day_bins (date_only fdf)
      = (λ d', (d', count_key d' (date_only fdf))) <$> seqZ lo (hi - lo + 1)
    ∧ Z.of_nat (length (day_bins (date_only fdf))) = hi - lo + 1
    ∧ (1 ≤ count_key lo (date_only fdf))%nat
    ∧ (1 ≤ count_key hi (date_only fdf))%nat
    ∧ sum_list ((day_bins (date_only fdf)).*2)
      = length (filter (λ r, has_date r) (rows fdf)).
Proof.
  intros Hd. unfold day_bins.
  destruct (merge_sort Z.le (omap (λ k, k) (date_only fdf))) as [|d0 ds] eqn:HL.
  { apply dated_days in Hd.
    rewrite <- (merge_sort_Permutation Z.le), HL in Hd.
    by apply elem_of_nil in Hd. }
  assert (Hsorted : StronglySorted Z.le (d0 :: ds)).
  { rewrite <- HL. apply StronglySorted_merge_sort; apply _. }
  assert (Hmem : ∀ d, d ∈ d0 :: ds ↔ Some d ∈ date_only fdf).
  { intros d'. by rewrite <- HL, merge_sort_Permutation, dated_days. }
  destruct (sorted_bounds d0 ds Hsorted) as [Hlast Hbounds].
  set (hi := List.last ds d0) in *.
  assert (Hlen : 0 < hi - d0 + 1).
  { specialize (Hbounds d0 (list_elem_of_here _ _)). lia. }
  exists d0, hi.
  assert (Hall : ∀ d', Some d' ∈ date_only fdf → d0 ≤ d' ≤ hi).
  { intros d' Hd'. apply Hbounds. by apply Hmem. }
  split; [by apply Hall |]. split; [exact Hall |].
  split; [done |]. split.
  { unfold date_range. rewrite length_fmap, length_seqZ. lia. }
  split; [apply count_key_present, Hmem; left |].
  split; [by apply count_key_present, Hmem |].
  rewrite <- list_fmap_compose.
  change (snd ∘ (λ d' : Z, (d', count_key d' (date_only fdf))))
    with (λ d', count_key d' (date_only fdf)).
  unfold date_range. rewrite sum_count_keys by apply NoDup_seqZ.
  unfold date_only. rewrite length_filter_fmap.
  f_equal. apply filter_iff_in. intros r Hr. unfold key_in, has_date.
  destruct (dt_date (cell r "reported_date")) as [d'|] eqn:Hd'; [| done].
  rewrite bool_decide_spec, elem_of_seqZ.
  assert (d0 ≤ d' ≤ hi).
  { apply Hall. unfold date_only. apply list_elem_of_fmap.
    exists r. by rewrite Hd'. }
  split; [done | lia].
Qed.

Lemma dated_not_undated (fdf : DataFrame) (d : Z) :
  Some d ∈ date_only fdf → undated fdf = false.
Proof.
  intros Hd. apply undated_false. right.
  apply list_elem_of_fmap in Hd as (r & Hd & Hr). exists r.
  split; [done |]. by rewrite <- Hd.
Qed.

Lemma isna_all_dates (fdf : DataFrame) :
  isna_all ((λ r, cell r "reported_date") <$> rows fdf) = true
  ↔ ∀ d, Some d ∉ date_only fdf.
Proof.
  unfold isna_all. rewrite forallb_forall. split.
  - intros Hall d Hd. apply list_elem_of_fmap in Hd as (r & Hd & Hr).
    assert (Hin : In (cell r "reported_date")
                     ((λ r, cell r "reported_date") <$> rows fdf)).
    { apply list_elem_of_In, list_elem_of_fmap. by exists r. }
    apply Hall, bool_decide_eq_true_1 in Hin. congruence.
  - intros Hnone v Hv. apply list_elem_of_In in Hv.
    apply list_elem_of_fmap in Hv as (r & -> & Hr).
    apply bool_decide_eq_true_2.
    destruct (dt_date (cell r "reported_date")) as [d|] eqn:Hd; [| done].
    destruct (Hnone d). apply list_elem_of_fmap. by exists r.
Qed.

(** X2 — [set_index("reported_date").resample("D").size()] raises
    [KeyError] on a view without the date column and [AttributeError] on
    a view that has records none of which has a date.  On a view with a
    dated record it returns one entry per calendar day from the first to
    the last day that has a record, in order, each with the number of
    records of that day: the first and the last entry count at least one
    record and the counts add up to the number of dated records.  The
    guard of [app_1.2.py] keeps the two errors away: its series is that
    one when the view has a dated record, and nothing is built
    otherwise. *)
Theorem resample_daily_spans_records (fdf : DataFrame) :
  ("reported_date" ∉ columns fdf →
     resample_daily fdf = Raise (KeyError "reported_date")
     ∧ daily_series fdf = Ok None)
  ∧ ("reported_date" ∈ columns fdf → undated fdf = true →
     resample_daily fdf = Raise AttributeError
     ∧ daily_series fdf = Ok None)
  ∧ (rows fdf = [] → daily_series fdf = Ok None)
  ∧ ∀ d, "reported_date" ∈ columns fdf → Some d ∈ date_only fdf →
      ∃ lo hi s,
        resample_daily fdf = Ok s
        ∧ daily_series fdf = Ok (Some s)
        ∧ lo ≤ d ≤ hi
        ∧ (∀ d', Some d' ∈ date_only fdf → lo ≤ d' ≤ hi)
        ∧ s = (λ d', (d', count_key d' (date_only fdf))) <$> seqZ lo (hi - lo + 1)
        ∧ Z.of_nat (length s) = hi - lo + 1
        ∧ (1 ≤ count_key lo (date_only fdf))%nat
        ∧ (1 ≤ count_key hi (date_only fdf))%nat
        ∧ sum_list (s.*2) = length (filter (λ r, has_date r) (rows fdf)).
Proof.
  split_and!.
  - intros Hc. split.
    + unfold resample_daily. by rewrite (getitem_missing _ _ Hc).
    + unfold daily_series. rewrite (bool_decide_eq_false_2 _ Hc).
      by rewrite andb_false_r.
  - intros Hc Hu. split.
    + unfold resample_daily. rewrite (getitem_fmap _ _ Hc).
      cbn [mbind result_bind]. unfold undated in Hu. by rewrite Hu.
    + unfold daily_series.
      destruct (negb (df_empty fdf) && bool_decide ("reported_date" ∈ columns fdf));
        [| done].
      rewrite (getitem_fmap _ _ Hc). cbn [mbind result_bind].
      assert (Hall : isna_all ((λ r, cell r "reported_date") <$> rows fdf) = true).
      { apply isna_all_dates. intros d Hd.
        apply undated_true in Hu as [_ Hnone].
        apply list_elem_of_fmap in Hd as (r & Hd & Hr).
        rewrite (Hnone r Hr) in Hd. discriminate. }
      by rewrite Hall.
  - intros Hnil. unfold daily_series, df_empty. by rewrite Hnil.
  - intros d Hc Hd.
    destruct (day_bins_spans fdf d Hd)
      as (lo & hi & Hin & Hall & Hs & Hlen & Hlo & Hhi & Hsum).
    assert (Hres : resample_daily fdf = Ok (day_bins (date_only fdf))).
    { unfold resample_daily. rewrite (getitem_fmap _ _ Hc).
      cbn [mbind result_bind].
      pose proof (dated_not_undated fdf d Hd) as Hu. unfold undated in Hu.
      rewrite Hu. cbn [mret result_ret]. f_equal.
      unfold date_only. by rewrite <- list_fmap_compose. }
    exists lo, hi, (day_bins (date_only fdf)).
    split; [exact Hres |]. split; [| done].
    unfold daily_series.
    assert (Hne : df_empty fdf = false).
    { unfold df_empty. apply orb_false_intro.
      - apply list_elem_of_fmap in Hd as (r & _ & Hr).
        destruct (rows fdf); [by apply elem_of_nil in Hr | done].
      - apply bool_decide_eq_false_2. intros Hcols. rewrite Hcols in Hc.
        by apply not_elem_of_empty in Hc. }
    rewrite Hne, (bool_decide_eq_true_2 _ Hc). cbn [negb andb].
    rewrite (getitem_fmap _ _ Hc). cbn [mbind result_bind].
    assert (Hna : isna_all ((λ r, cell r "reported_date") <$> rows fdf) = false).
    { apply not_true_iff_false. rewrite isna_all_dates. intros Hnone.
      by destruct (Hnone d). }
    rewrite Hna, Hres. done.
Qed.

(** On the sample batch: three days, the middle one empty; and on a
    store whose only record has no date. *)
Lemma resample_daily_spans_records_witness :
  resample_daily sample_df
  = Ok [(738886, 2%nat); (738887, 0%nat); (738888, 1%nat)]
  ∧ resample_daily sample_undated = Raise AttributeError
  ∧ daily_series sample_undated = Ok None.
Proof.
  assert (Hc : "reported_date" ∈ sample_columns)
    by (apply (bool_decide_unpack _); vm_compute; exact I).
  destruct (resample_daily_spans_records sample_df) as (_ & _ & _ & Hsome).
  destruct (resample_daily_spans_records sample_undated) as (_ & Hund & _).
  destruct (Hsome 738886 Hc (list_elem_of_here _ _))
    as (lo & hi & s & Hs & _).
  split; [| exact (Hund Hc eq_refl)].
  rewrite Hs. vm_compute in Hs. by injection Hs as <-.
Defined.

(** ** The day-over-day KPI on a view *)

Lemma groupby_size_sorted_fst (keys : list (option Z)) :
  (groupby_size_sorted keys).*1
  = merge_sort Z.le (remove_dups (omap (λ k, k) keys)).
Proof.
  unfold groupby_size_sorted. rewrite <- list_fmap_compose. apply list_fmap_id.
Qed.

Lemma groupby_size_sorted_elem (keys : list (option Z)) (d : Z) (c : nat) :
  (d, c) ∈ groupby_size_sorted keys →
  c = count_key d keys ∧ Some d ∈ keys ∧ (1 ≤ c)%nat.
Proof.
  unfold groupby_size_sorted. intros Hin.
  apply list_elem_of_fmap in Hin as (d' & [= -> ->] & Hd).
  apply groupby_keys in Hd. split; [done |]. split; [done |].
  by apply count_key_present.
Qed.

Lemma groupby_last_two (keys : list (option Z)) (pre : list (Z * nat))
    (dp dl : Z) (cp cl : nat) :
  groupby_size_sorted keys = pre ++ [(dp, cp); (dl, cl)] →
  dp < dl ∧ cp = count_key dp keys ∧ cl = count_key dl keys ∧ (1 ≤ cp)%nat.
Proof.
  intros Heq.
  assert (Hp : (dp, cp) ∈ groupby_size_sorted keys).
  { rewrite Heq. apply elem_of_app. right. left. }
  assert (Hl : (dl, cl) ∈ groupby_size_sorted keys).
  { rewrite Heq. apply elem_of_app. right. right. left. }
  apply groupby_size_sorted_elem in Hp as (Hcp & _ & Hpos).
  apply groupby_size_sorted_elem in Hl as (Hcl & _ & _).
  split; [| done].
  assert (Hfst : merge_sort Z.le (remove_dups (omap (λ k, k) keys))
                 = pre.*1 ++ [dp; dl]).
  { rewrite <- groupby_size_sorted_fst, Heq, fmap_app. done. }
  assert (Hsorted : StronglySorted Z.le (pre.*1 ++ [dp; dl])).
  { rewrite <- Hfst. apply StronglySorted_merge_sort; apply _. }
  assert (Hnd : NoDup (pre.*1 ++ [dp; dl])).
  { rewrite <- Hfst, merge_sort_Permutation. apply NoDup_remove_dups. }
  apply StronglySorted_app_1_r in Hsorted.
  apply NoDup_app in Hnd as (_ & _ & Hnd).
  inversion Hsorted as [|? ? _ Hall]; subst.
  apply Forall_cons in Hall as [Hle _].
  apply NoDup_cons in Hnd as [Hne _].
  assert (dp ≠ dl) by (intros ->; apply Hne; left). lia.
Qed.

(** X3 — the "latest day % change" is computed on the days that have
    records, not on the calendar.  It is "N/A" exactly when the view is
    empty, has no date column or has records on fewer than two distinct
    days; otherwise it is the change from the second-to-last to the last
    day with a record, two days that need not be consecutive, and the
    guard against a zero previous count never fires. *)
Theorem dod_pct_compares_days_with_records (fdf : DataFrame) :
  (dod_pct fdf = Ok None ↔
     df_empty fdf = true ∨ "reported_date" ∉ columns fdf
     ∨ (length (remove_dups (omap (λ k, k) (date_only fdf))) < 2)%nat)
  ∧ ∀ pre dp cp dl cl,
      df_empty fdf = false → "reported_date" ∈ columns fdf →
      groupby_size_sorted (date_only fdf) = pre ++ [(dp, cp); (dl, cl)] →
      dp < dl
      ∧ cp = count_key dp (date_only fdf) ∧ cl = count_key dl (date_only fdf)
      ∧ (1 ≤ cp)%nat
      ∧ dod_pct fdf
        = Ok (Some (inject_Z (Z.of_nat cl - Z.of_nat cp)
                    / inject_Z (Z.of_nat cp) * 100)%Q).
Proof.
  assert (Hlen : length (groupby_size_sorted (date_only fdf))
                 = length (remove_dups (omap (λ k, k) (date_only fdf)))).
  { unfold groupby_size_sorted. by rewrite length_fmap, merge_sort_Permutation. }
  assert (Hsome : ∀ pre dp cp dl cl,
    df_empty fdf = false → "reported_date" ∈ columns fdf →
    groupby_size_sorted (date_only fdf) = pre ++ [(dp, cp); (dl, cl)] →
    dod_pct fdf = Ok (Some (inject_Z (Z.of_nat cl - Z.of_nat cp)
                            / inject_Z (Z.of_nat cp) * 100)%Q)
    ∧ (1 ≤ cp)%nat).
  { intros pre dp cp dl cl He Hc Heq.
    destruct (groupby_last_two _ _ _ _ _ _ Heq) as (_ & _ & _ & Hpos).
    split; [| done]. unfold dod_pct.
    rewrite He, (bool_decide_eq_true_2 _ Hc). cbn [negb andb].
    rewrite Heq, (proj2 (Nat.leb_le _ _)) by (rewrite length_app; simpl; lia).
    rewrite fmap_app. cbn [fmap list_fmap snd]. unfold compute_latest_dod.
    rewrite (proj2 (Nat.ltb_ge _ _))
      by (rewrite length_app, length_fmap; simpl; lia).
    rewrite iloc_last, iloc_prev. cbn [mbind result_bind].
    rewrite (proj2 (Z.eqb_neq _ _)) by lia. done. }
  split.
  - rewrite <- Hlen. split.
    + intros Hnone.
      destruct (df_empty fdf) eqn:He; [by left |].
      destruct (decide ("reported_date" ∈ columns fdf)) as [Hc|Hc];
        [| right; by left].
      right; right.
      destruct (Nat.ltb_spec (length (groupby_size_sorted (date_only fdf))) 2)
        as [Hlt|Hge]; [done |].
      destruct (two_last _ Hge) as (pre & [dp cp] & [dl cl] & Heq).
      destruct (Hsome pre dp cp dl cl eq_refl Hc Heq) as [Hval _].
      rewrite Hval in Hnone. discriminate.
    + unfold dod_pct. intros [He|[Hc|Hlt]].
      * by rewrite He.
      * rewrite (bool_decide_eq_false_2 _ Hc). by rewrite andb_false_r.
      * destruct (negb (df_empty fdf)
                  && bool_decide ("reported_date" ∈ columns fdf)); [| done].
        by rewrite (proj2 (Nat.leb_gt _ _)) by lia.
  - intros pre dp cp dl cl He Hc Heq.
    destruct (groupby_last_two _ _ _ _ _ _ Heq) as (Hlt & Hcp & Hcl & Hpos).
    destruct (Hsome pre dp cp dl cl He Hc Heq) as [Hval _].
    done.
Qed.

(** On the sample batch the change goes from 2024-01-01 to 2024-01-03,
    from two cases to one. *)
Lemma dod_pct_compares_days_with_records_witness :
  dod_pct sample_df = Ok (Some (inject_Z (1 - 2) / inject_Z 2 * 100)%Q).
Proof.
  refine (proj2 (proj2 (proj2 (proj2
           (proj2 (dod_pct_compares_days_with_records sample_df)
              [] 738886 2%nat 738888 1%nat _ _ _))))).
  - reflexivity.
  - apply (bool_decide_unpack _). vm_compute. exact I.
  - vm_compute. reflexivity.
Defined.

(** ** The categorical charts *)

Lemma value_counts_total (col : list value) :
  sum_list ((value_counts col).*2)
  = length (filter (λ v, is_Some (state_of v)) col).
Proof.
  unfold value_counts. rewrite sort_values_Permutation.
  rewrite <- list_fmap_compose.
  change (snd ∘ (λ s : string, (s, count_key s (state_of <$> col))))
    with (λ s, count_key s (state_of <$> col)).
  rewrite sum_count_keys by apply NoDup_unique.
  rewrite length_filter_fmap. f_equal. apply filter_iff_in. intros v Hv.
  unfold key_in. destruct (state_of v) as [s|] eqn:Hs.
  - rewrite bool_decide_spec, elem_of_unique, list_elem_of_omap.
    split; [by eexists |]. intros _. by exists v.
  - split; [done |]. by intros [? [=]].
Qed.

(** X4 — the bars of "Deaths by State" come in decreasing order of count,
    one per distinct state of the view; the bar of a state counts the
    records of the view with that state and is never zero; and the bars
    add up to the number of records that have a state, so that records
    without one are in no bar. *)
Theorem by_state_bars (fdf : DataFrame) (bars : list (string * nat)) :
  by_state fdf = Some bars →
  StronglySorted count_desc bars
  ∧ NoDup bars.*1
  ∧ (∀ s c, (s, c) ∈ bars ↔
       (1 ≤ c)%nat
       ∧ c = length (filter (λ r, state_of (cell r "state") = Some s)
                            (rows fdf)))
  ∧ sum_list (bars.*2) = length (filter (λ r, has_state r) (rows fdf)).
Proof.
  unfold by_state.
  destruct (negb (df_empty fdf) && bool_decide ("state" ∈ columns fdf));
    [| done].
  intros [= <-]. split_and!.
  - apply value_counts_sorted.
  - apply value_counts_NoDup.
  - intros s c. by rewrite value_counts_count, count_of_label.
  - rewrite value_counts_total, length_filter_fmap. f_equal.
    apply list_filter_iff. intros r. unfold has_state.
    destruct (state_of (cell r "state")); split; try done.
    all: try (by intros [? [=]]); try (by eexists).
Qed.

(** On the sample batch: two records for A, one for B. *)
Lemma by_state_bars_witness :
  by_state sample_df = Some [("A", 2%nat); ("B", 1%nat)]
  ∧ sum_list ([("A", 2%nat); ("B", 1%nat)].*2) = 3%nat.
Proof.
  assert (Hb : by_state sample_df = Some [("A", 2%nat); ("B", 1%nat)])
    by (vm_compute; reflexivity).
  split; [exact Hb |].
  rewrite (proj2 (proj2 (proj2 (by_state_bars sample_df _ Hb)))).
  reflexivity.
Defined.

(** X5 — "Top Causes" lists at most ten causes in decreasing order of
    count, each once, with the number of records of the view that have the
    cause; a cause of the view that is not listed has no more records than
    any listed one, and is left out only when ten are listed. *)
Theorem top_causes_are_the_largest (fdf : DataFrame) (top : list (string * nat)) :
  top_causes fdf = Some top →
  (length top ≤ 10)%nat
  ∧ StronglySorted count_desc top
  ∧ NoDup top.*1
  ∧ (∀ c n, (c, n) ∈ top →
       (1 ≤ n)%nat
       ∧ n = length (filter (λ r, state_of (cell r "cause_of_death") = Some c)
                            (rows fdf)))
  ∧ (∀ c r, r ∈ rows fdf → cell r "cause_of_death" = VStr c → c ∉ top.*1 →
       length top = 10%nat
       ∧ ∀ c' n', (c', n') ∈ top →
           (length (filter (λ r, state_of (cell r "cause_of_death") = Some c)
                           (rows fdf)) ≤ n')%nat).
Proof.
  unfold top_causes.
  destruct (negb (df_empty fdf)
            && bool_decide ("cause_of_death" ∈ columns fdf)); [| done].
  intros [= <-].
  set (col := (λ r, cell r "cause_of_death") <$> rows fdf).
  split_and!.
  - rewrite nlargest_length. lia.
  - apply nlargest_sorted.
  - apply nlargest_NoDup, value_counts_NoDup.
  - intros c n Hin. apply nlargest_elem, value_counts_count in Hin.
    subst col. by rewrite count_of_label in Hin.
  - intros c r Hr Hc Hout.
    set (n := count_key c (state_of <$> col)).
    assert (Hvc : (c, n) ∈ value_counts col).
    { apply value_counts_elem. split; [done |].
      exists (cell r "cause_of_death"). split.
      - subst col. apply list_elem_of_fmap. by exists r.
      - by rewrite Hc. }
    split.
    + rewrite nlargest_length.
      destruct (Nat.le_gt_cases 10 (length (value_counts col))) as [Hge|Hlt];
        [lia |].
      exfalso. apply Hout. apply list_elem_of_fmap. exists (c, n).
      split; [done |]. unfold nlargest. rewrite take_ge.
      * by rewrite sort_values_Permutation.
      * rewrite sort_values_Permutation. lia.
    + intros c' n' Hin.
      pose proof (nlargest_dominates 10 (value_counts col) (c', n') (c, n)
                    (value_counts_NoDup _) Hin Hvc Hout) as Hle.
      subst n col. by rewrite count_of_label in Hle.
Qed.

(** On three records with two causes. *)
Lemma top_causes_are_the_largest_witness :
  let fdf := mkDF {[ "cause_of_death" ]}
               [ {[ "cause_of_death" := VStr "fire" ]};
                 {[ "cause_of_death" := VStr "flood" ]};
                 {[ "cause_of_death" := VStr "fire" ]} ] in
  top_causes fdf = Some [("fire", 2%nat); ("flood", 1%nat)]
  ∧ (length [("fire", 2%nat); ("flood", 1%nat)] ≤ 10)%nat.
Proof.
  intros fdf.
  assert (Ht : top_causes fdf = Some [("fire", 2%nat); ("flood", 1%nat)])
    by (vm_compute; reflexivity).
  split; [exact Ht |].
  exact (proj1 (top_causes_are_the_largest fdf _ Ht)).
Defined.

(** X6 — [get_states] returns the states of the store in increasing
    order, each once: a label is listed exactly when the state column
    exists and some record carries it; records without a state contribute
    nothing, and without the column the list is empty. *)
Theorem get_states_sorted_distinct (df : DataFrame) :
  StronglySorted String.le (get_states df)
  ∧ NoDup (get_states df)
  ∧ (∀ s, s ∈ get_states df ↔
       "state" ∈ columns df ∧ ∃ r, r ∈ rows df ∧ cell r "state" = VStr s)
  ∧ ("state" ∉ columns df → get_states df = []).
Proof.
  unfold get_states. case_bool_decide as Hc.
  - split_and!.
    + apply StronglySorted_merge_sort; apply _.
    + rewrite merge_sort_Permutation. apply NoDup_remove_dups.
    + intros s.
      rewrite merge_sort_Permutation, elem_of_remove_dups, list_elem_of_omap.
      split.
      * intros (v & Hv & Hs). split; [done |].
        apply list_elem_of_fmap in Hv as (r & -> & Hr).
        exists r. split; [done |]. by apply state_of_Some.
      * intros (_ & r & Hr & Hs). exists (cell r "state"). split.
        -- apply list_elem_of_fmap. by exists r.
        -- by rewrite Hs.
    + done.
  - split_and!; [constructor | constructor | | done].
    intros s. split; [by intros ?%elem_of_nil | tauto].
Qed.

(** ** The default selection of the sidebar *)

Lemma days_min_spec (l : list Z) (m : Z) :
  days_min l = Some m → m ∈ l ∧ ∀ x, x ∈ l → m ≤ x.
Proof.
  destruct l as [|x0 l]; [done |]. intros [= <-].
  induction l as [|y l IH].
  - simpl. split; [left |]. intros x Hx.
    apply list_elem_of_singleton in Hx as ->. lia.
  - cbn [foldr]. destruct IH as [Hin Hle].
    split.
    + destruct (Z.min_spec y (foldr Z.min x0 l)) as [[_ ->]|[_ ->]].
      * right. left.
      * apply elem_of_cons in Hin as [->|Hin]; [left | right; by right].
    + intros x Hx.
      assert (Hx' : x = y ∨ x ∈ x0 :: l)
        by (rewrite !elem_of_cons in Hx; rewrite elem_of_cons; tauto).
      destruct Hx' as [->|Hx']; [lia |]. specialize (Hle x Hx'). lia.
Qed.

Lemma days_max_spec (l : list Z) (m : Z) :
  days_max l = Some m → m ∈ l ∧ ∀ x, x ∈ l → x ≤ m.
Proof.
  destruct l as [|x0 l]; [done |]. intros [= <-].
  induction l as [|y l IH].
  - simpl. split; [left |]. intros x Hx.
    apply list_elem_of_singleton in Hx as ->. lia.
  - cbn [foldr]. destruct IH as [Hin Hle].
    split.
    + destruct (Z.max_spec y (foldr Z.max x0 l)) as [[_ ->]|[_ ->]].
      * apply elem_of_cons in Hin as [->|Hin]; [left | right; by right].
      * right. left.
    + intros x Hx.
      assert (Hx' : x = y ∨ x ∈ x0 :: l)
        by (rewrite !elem_of_cons in Hx; rewrite elem_of_cons; tauto).
      destruct Hx' as [->|Hx']; [lia |]. specialize (Hle x Hx'). lia.
Qed.

Lemma ages_min_spec (l : list Q) (m : Q) :
  ages_min l = Some m → m ∈ l ∧ ∀ x, x ∈ l → (m <= x)%Q.
Proof.
  destruct l as [|x0 l]; [done |]. intros [= <-].
  induction l as [|y l IH].
  - simpl. split; [left |]. intros x Hx.
    apply list_elem_of_singleton in Hx as ->. apply Qle_refl.
  - cbn [foldr]. destruct IH as [Hin Hle].
    set (m := foldr (λ a m, if Qle_bool a m then a else m) x0 l) in *.
    destruct (Qle_bool y m) eqn:Hym; split.
    + right. left.
    + apply Qle_bool_iff in Hym. intros x Hx.
      assert (Hx' : x = y ∨ x ∈ x0 :: l)
        by (rewrite !elem_of_cons in Hx; rewrite elem_of_cons; tauto).
      destruct Hx' as [->|Hx']; [apply Qle_refl |].
      eapply Qle_trans; [exact Hym | by apply Hle].
    + apply elem_of_cons in Hin as [->|Hin]; [left | right; by right].
    + intros x Hx.
      assert (Hx' : x = y ∨ x ∈ x0 :: l)
        by (rewrite !elem_of_cons in Hx; rewrite elem_of_cons; tauto).
      destruct Hx' as [->|Hx']; [| by apply Hle].
      apply Qlt_le_weak, Qnot_le_lt. intros Hle'.
      apply Qle_bool_iff in Hle'. congruence.
Qed.

Lemma ages_max_spec (l : list Q) (m : Q) :
  ages_max l = Some m → m ∈ l ∧ ∀ x, x ∈ l → (x <= m)%Q.
Proof.
  destruct l as [|x0 l]; [done |]. intros [= <-].
  induction l as [|y l IH].
  - simpl. split; [left |]. intros x Hx.
    apply list_elem_of_singleton in Hx as ->. apply Qle_refl.
  - cbn [foldr]. destruct IH as [Hin Hle].
    set (m := foldr (λ a m, if Qle_bool m a then a else m) x0 l) in *.
    destruct (Qle_bool m y) eqn:Hym; split.
    + right. left.
    + apply Qle_bool_iff in Hym. intros x Hx.
      assert (Hx' : x = y ∨ x ∈ x0 :: l)
        by (rewrite !elem_of_cons in Hx; rewrite elem_of_cons; tauto).
      destruct Hx' as [->|Hx']; [apply Qle_refl |].
      eapply Qle_trans; [by apply Hle | exact Hym].
    + apply elem_of_cons in Hin as [->|Hin]; [left | right; by right].
    + intros x Hx.
      assert (Hx' : x = y ∨ x ∈ x0 :: l)
        by (rewrite !elem_of_cons in Hx; rewrite elem_of_cons; tauto).
      destruct Hx' as [->|Hx']; [| by apply Hle].
      apply Qlt_le_weak, Qnot_le_lt. intros Hle'.
      apply Qle_bool_iff in Hle'. congruence.
Qed.

Lemma int_of_Q_integer (a : Q) (n : Z) : (a == inject_Z n)%Q → int_of_Q a = n.
Proof.
  intros Ha. unfold int_of_Q.
  destruct (Qle_bool 0 a).
  - by rewrite Ha, Qfloor_Z.
  - by rewrite Ha, Qceiling_Z.
Qed.

Lemma sidebar_labels (df : DataFrame) (s : string) :
  s ∈ merge_sort String.le
        (remove_dups (omap state_of ((λ r, cell r "state") <$> rows df)))
  ↔ ∃ r, r ∈ rows df ∧ cell r "state" = VStr s.
Proof.
  rewrite merge_sort_Permutation, elem_of_remove_dups, list_elem_of_omap.
  split.
  - intros (v & Hv & Hs). apply list_elem_of_fmap in Hv as (r & -> & Hr).
    exists r. split; [done |]. by apply state_of_Some.
  - intros (r & Hr & Hs). exists (cell r "state"). split.
    + apply list_elem_of_fmap. by exists r.
    + by rewrite Hs.
Qed.

Lemma default_filters_value (today : Z) (df : DataFrame) :
  "reported_date" ∈ columns df → "state" ∈ columns df → "age" ∈ columns df →
  default_filters today df =
    Ok (mkFilters
          (default 737425 (days_min (omap dt_date
             ((λ r, cell r "reported_date") <$> rows df))))
          (default today (days_max (omap dt_date
             ((λ r, cell r "reported_date") <$> rows df))))
          (merge_sort String.le
             (remove_dups (omap state_of ((λ r, cell r "state") <$> rows df))))
          false
          (default 0 (int_of_Q <$> ages_min (omap num_of
             ((λ r, cell r "age") <$> rows df))),
           default 100 (int_of_Q <$> ages_max (omap num_of
             ((λ r, cell r "age") <$> rows df))))
          []).
Proof.
  intros Hd Hs Ha. unfold default_filters, sidebar_states.
  rewrite (getitem_fmap _ _ Hd). cbn [mbind result_bind].
  rewrite (getitem_fmap _ _ Hs). cbn [mbind result_bind mret result_ret].
  by rewrite (getitem_fmap _ _ Ha).
Qed.

Lemma default_dates_cover (today : Z) (df : DataFrame) (r : gmap string value) :
  r ∈ rows df →
  date_ok (default 737425 (days_min (omap dt_date
             ((λ r, cell r "reported_date") <$> rows df))))
          (default today (days_max (omap dt_date
             ((λ r, cell r "reported_date") <$> rows df)))) r
  ↔ has_date r.
Proof.
  intros Hr. unfold date_ok, has_date, date_ge, date_le.
  destruct (dt_date (cell r "reported_date")) as [d|] eqn:Hd; [| done].
  set (days := omap dt_date ((λ r, cell r "reported_date") <$> rows df)).
  assert (Hin : d ∈ days).
  { subst days. apply list_elem_of_omap. exists (cell r "reported_date").
    split; [| done]. apply list_elem_of_fmap. by exists r. }
  destruct (days_min days) as [lo|] eqn:Hlo.
  2: { destruct days; [by apply elem_of_nil in Hin | done]. }
  destruct (days_max days) as [hi|] eqn:Hhi.
  2: { destruct days; [by apply elem_of_nil in Hin | done]. }
  apply days_min_spec in Hlo as [_ Hlo]. apply days_max_spec in Hhi as [_ Hhi].
  specialize (Hlo d Hin). specialize (Hhi d Hin).
  cbn [default from_option Datatypes.id].
  rewrite andb_True, !Is_true_true, !Z.leb_le. split; [done | lia].
Qed.

(** X7 — with the widgets of the sidebar untouched the dashboard does not
    show the whole store.  On a store that has records none of which has
    a date, the default filter raises [TypeError] at the date comparison.
    On every other store with whole-number ages, the default view holds
    exactly the records that have a date and an age and, unless no record
    of the store has a state, a state: records that miss one of the three
    are filtered out before any figure is computed. *)
Theorem default_selection_keeps_complete_records (today : Z) (df : DataFrame) :
  "reported_date" ∈ columns df → "state" ∈ columns df → "age" ∈ columns df →
  (∀ r a, r ∈ rows df → cell r "age" = VNum a → ∃ n, (a == inject_Z n)%Q) →
  ∃ f,
    default_filters today df = Ok f
    ∧ (selected_states f = [] ↔ ∀ r, r ∈ rows df → ¬ has_state r)
    ∧ (undated df = true → apply_filters df f = Raise TypeError)
    ∧ (undated df = false →
       ∃ v, apply_filters df f = Ok v
            ∧ rows v = filter (λ r, has_date r ∧ has_age r
                                    ∧ (has_state r ∨ selected_states f = []))
                              (rows df)).
Proof.
  intros Hd Hs Ha Hint. eexists.
  split; [by apply default_filters_value |].
  rewrite apply_filters_spec. unfold date_raises.
  rewrite (bool_decide_eq_true_2 _ Hd).
  cbn [selected_states verified_only start end_ age_range andb].
  rewrite (bool_decide_eq_false_2 ("state" ∉ columns df)) by auto.
  rewrite andb_false_r.
  set (states := merge_sort String.le
         (remove_dups (omap state_of ((λ r, cell r "state") <$> rows df)))).
  assert (Hstates : ∀ r, r ∈ rows df → isin states (cell r "state") ↔ has_state r).
  { intros r Hr. unfold isin, has_state.
    destruct (cell r "state") as [| | |s|] eqn:Hc; try done.
    simpl. rewrite bool_decide_spec. subst states. rewrite sidebar_labels.
    split; [done |]. intros _. by exists r. }
  split; [| split; [by intros -> |]].
  2: intros ->; eexists; split; [reflexivity |].
  - split.
    + intros Hnil r Hr Hst. apply Hstates in Hst; [| done].
      rewrite Hnil in Hst. unfold isin in Hst.
      destruct (cell r "state"); try done.
      all: simpl in Hst; apply bool_decide_unpack in Hst;
        by apply elem_of_nil in Hst.
    + intros Hnone. destruct states as [|s rest] eqn:Hst; [done |].
      assert (Hin : s ∈ states) by (rewrite Hst; left).
      subst states. apply sidebar_labels in Hin as (r & Hr & Hc).
      destruct (Hnone r Hr). unfold has_state. by rewrite Hc.
  - cbn [rows]. apply filter_iff_in. intros r Hr. unfold keep.
    cbn [selected_states verified_only start end_ age_range fst snd].
    rewrite (bool_decide_eq_true_2 _ Hd), (bool_decide_eq_true_2 _ Ha).
    rewrite !andb_True, (default_dates_cover today df r Hr).
    assert (Hstate : Is_true (if nonempty states then state_ok states r else true)
                     ↔ has_state r ∨ states = []).
    { destruct states as [|s rest] eqn:Hst.
      - simpl. split; [by right | done].
      - cbn [nonempty]. unfold state_ok. rewrite <- Hst in *.
        rewrite (Hstates r Hr). split; [by left |].
        intros [?|Hnil]; [done |]. rewrite Hst in Hnil. discriminate. }
    rewrite Hstate.
    assert (Hage : age_ok
              (inject_Z (default 0 (int_of_Q <$> ages_min (omap num_of
                 ((λ r, cell r "age") <$> rows df)))))
              (inject_Z (default 100 (int_of_Q <$> ages_max (omap num_of
                 ((λ r, cell r "age") <$> rows df))))) r
            ↔ has_age r).
    { unfold age_ok, has_age, num_ge, num_le.
      destruct (cell r "age") as [| |a| |] eqn:Hc; try done.
      set (ages := omap num_of ((λ r, cell r "age") <$> rows df)).
      assert (Hin : a ∈ ages).
      { subst ages. apply list_elem_of_omap. exists (cell r "age").
        split; [| by rewrite Hc]. apply list_elem_of_fmap. by exists r. }
      assert (Hwhole : ∀ x, x ∈ ages → ∃ n, (x == inject_Z n)%Q).
      { intros x Hx. subst ages.
        apply list_elem_of_omap in Hx as (c & Hcin & Hnum).
        apply list_elem_of_fmap in Hcin as (r' & -> & Hr').
        apply (Hint r' x Hr'). destruct (cell r' "age"); try done.
        by injection Hnum as ->. }
      destruct (ages_min ages) as [lo|] eqn:Hlo.
      2: { destruct ages; [by apply elem_of_nil in Hin | done]. }
      destruct (ages_max ages) as [hi|] eqn:Hhi.
      2: { destruct ages; [by apply elem_of_nil in Hin | done]. }
      apply ages_min_spec in Hlo as [Hlo_in Hlo].
      apply ages_max_spec in Hhi as [Hhi_in Hhi].
      destruct (Hwhole lo Hlo_in) as [nlo Hnlo].
      destruct (Hwhole hi Hhi_in) as [nhi Hnhi].
      cbn [fmap option_fmap option_map default from_option Datatypes.id].
      rewrite (int_of_Q_integer lo nlo Hnlo), (int_of_Q_integer hi nhi Hnhi).
      split; [done |]. intros _. rewrite andb_True, !Is_true_true.
      rewrite !Qle_bool_iff, <- Hnlo, <- Hnhi. split; [by apply Hlo | by apply Hhi]. }
    rewrite Hage. split.
    + intros [[[? ?] _] ?]. by split_and!.
    + intros (? & ? & ?). by split_and!.
Qed.

(** On the sample batch the record without an age is left out; on the
    store whose only record has no date the filter raises. *)
Lemma default_selection_keeps_complete_records_witness :
  (∃ f v, default_filters 739000 sample_df = Ok f
          ∧ apply_filters sample_df f = Ok v
          ∧ rows v = [sample_c1; sample_c3])
  ∧ ∃ f, default_filters 739000 sample_undated = Ok f
         ∧ apply_filters sample_undated f = Raise TypeError.
Proof.
  assert (Hd : "reported_date" ∈ sample_columns)
    by (apply (bool_decide_unpack _); vm_compute; exact I).
  assert (Hs : "state" ∈ sample_columns)
    by (apply (bool_decide_unpack _); vm_compute; exact I).
  assert (Ha : "age" ∈ sample_columns)
    by (apply (bool_decide_unpack _); vm_compute; exact I).
  split.
  - destruct (default_selection_keeps_complete_records 739000 sample_df
                Hd Hs Ha) as (f & Hf & _ & _ & Hview).
    + intros r a Hr Hc.
      repeat (apply elem_of_cons in Hr as [->|Hr]);
        [| | | by apply elem_of_nil in Hr].
      * injection Hc as <-. by exists 30.
      * discriminate Hc.
      * injection Hc as <-. by exists 61.
    + destruct (Hview eq_refl) as (v & Hv & Hrows).
      exists f, v. split; [exact Hf |]. split; [exact Hv |].
      rewrite Hrows. vm_compute in Hf. injection Hf as <-.
      vm_compute. reflexivity.
  - destruct (default_selection_keeps_complete_records 739000 sample_undated
                Hd Hs Ha) as (f & Hf & _ & Hraise & _).
    + intros r a Hr Hc.
      apply elem_of_cons in Hr as [->|Hr]; [| by apply elem_of_nil in Hr].
      injection Hc as <-. by exists 50.
    + exists f. split; [exact Hf |]. exact (Hraise eq_refl).
Defined.

Lemma age_cell_in (df : DataFrame) (r : gmap string value) (a : Q) :
  r ∈ rows df → cell r "age" = VNum a →
  a ∈ omap num_of ((λ r, cell r "age") <$> rows df).
Proof.
  intros Hr Hc. apply list_elem_of_omap. exists (cell r "age").
  split; [| by rewrite Hc]. apply list_elem_of_fmap. by exists r.
Qed.

Lemma age_in_cell (df : DataFrame) (a : Q) :
  a ∈ omap num_of ((λ r, cell r "age") <$> rows df) →
  ∃ r, r ∈ rows df ∧ cell r "age" = VNum a.
Proof.
  intros Ha. apply list_elem_of_omap in Ha as (c & Hc & Hnum).
  apply list_elem_of_fmap in Hc as (r & -> & Hr). exists r. split; [done |].
  destruct (cell r "age"); try done. by injection Hnum as ->.
Qed.

(** X8 — the age slider starts at [int] of the highest age, which cuts a
    fractional part off.  When the highest age of the store is not a whole
    number, the upper end of the default slider lies below it and every
    record of that age is missing from the default view. *)
Theorem default_age_slider_truncates (today : Z) (df : DataFrame)
    (r : gmap string value) (a : Q) :
  "reported_date" ∈ columns df → "state" ∈ columns df → "age" ∈ columns df →
  r ∈ rows df → cell r "age" = VNum a →
  (∀ r' a', r' ∈ rows df → cell r' "age" = VNum a' → (a' <= a)%Q) →
  (0 <= a)%Q → ¬ (a == inject_Z (Qfloor a))%Q →
  ∃ f, default_filters today df = Ok f
       ∧ (age_range f).2 = Qfloor a
       ∧ ∀ v, apply_filters df f = Ok v → r ∉ rows v.
Proof.
  intros Hd Hs Ha Hr Hc Hmax Hpos Hfrac. eexists.
  split; [by apply default_filters_value |].
  cbn [age_range snd].
  pose proof (age_cell_in df r a Hr Hc) as Hin.
  set (ages := omap num_of ((λ r, cell r "age") <$> rows df)) in *.
  destruct (ages_max ages) as [m|] eqn:Hm.
  2: { destruct ages; [by apply elem_of_nil in Hin | done]. }
  apply ages_max_spec in Hm as [Hm_in Hm].
  assert (Hma : (m == a)%Q).
  { apply Qle_antisym; [| by apply Hm].
    subst ages. apply age_in_cell in Hm_in as (r' & Hr' & Hc').
    by apply (Hmax r' m). }
  assert (Hint : int_of_Q m = Qfloor a).
  { unfold int_of_Q. rewrite (proj2 (Qle_bool_iff 0 m)).
    - by rewrite Hma.
    - by rewrite Hma. }
  cbn [fmap option_fmap option_map default from_option Datatypes.id].
  split; [exact Hint |].
  intros v Hv Hrv. apply apply_filters_inv in Hv as (_ & _ & ->).
  cbn [rows] in Hrv. apply list_elem_of_filter in Hrv as [Hk _].
  unfold keep in Hk. cbn [age_range fst snd] in Hk.
  rewrite (bool_decide_eq_true_2 _ Ha), !andb_True in Hk.
  destruct Hk as (_ & Hage). apply age_ok_inv in Hage as (a' & Hc' & _ & Hle).
  rewrite Hc in Hc'. injection Hc' as <-.
  cbn [fmap option_fmap option_map default from_option Datatypes.id] in Hle.
  rewrite Hint in Hle. apply Hfrac.
  apply Qle_antisym; [exact Hle | apply Qfloor_le].
Qed.

(** A store whose oldest case is 61.5 years old: the slider ends at 61. *)
Lemma default_age_slider_truncates_witness :
  let old := mkrow "c3" (VTime 738888 0) (VStr "B") (VNum (123 # 2)) (VBool false) in
  ∃ f, default_filters 739000 (mkDF sample_columns [sample_c1; old]) = Ok f
       ∧ (age_range f).2 = 61
       ∧ apply_filters (mkDF sample_columns [sample_c1; old]) f
         = Ok (mkDF sample_columns [sample_c1]).
Proof.
  intros old.
  destruct (default_age_slider_truncates 739000
              (mkDF sample_columns [sample_c1; old]) old (123 # 2))
    as (f & Hf & Hhi & _).
  - apply (bool_decide_unpack _). vm_compute. exact I.
  - apply (bool_decide_unpack _). vm_compute. exact I.
  - apply (bool_decide_unpack _). vm_compute. exact I.
  - right. left.
  - reflexivity.
  - intros r' a' Hr' Hc'.
    repeat (apply elem_of_cons in Hr' as [->|Hr']);
      [| | by apply elem_of_nil in Hr'].
    + injection Hc' as <-. by apply Qle_bool_iff.
    + injection Hc' as <-. by apply Qle_bool_iff.
  - by apply Qle_bool_iff.
  - intros Heq. apply Qeq_bool_iff in Heq. discriminate.
  - exists f. split; [exact Hf |]. split; [exact Hhi |].
    vm_compute in Hf. injection Hf as <-. vm_compute. reflexivity.
Defined.

(** ** The KPI figures *)

Lemma length_remove_dups_le {A : Type} `{EqDecision A} (l : list A) :
  (length (remove_dups l) ≤ length l)%nat.
Proof.
  induction l as [|x l IH]; [done |]. cbn [remove_dups].
  destruct (decide_rel elem_of x l); simpl; lia.
Qed.

Lemma length_omap_le {A B : Type} (g : A → option B) (l : list A) :
  (length (omap g l) ≤ length l)%nat.
Proof.
  induction l as [|x l IH]; [done |]. cbn [omap list_omap].
  destruct (g x); simpl; lia.
Qed.

Lemma inject_Z_succ (n : nat) :
  (inject_Z (Z.of_nat (S n)) == 1 + inject_Z (Z.of_nat n))%Q.
Proof.
  rewrite Nat2Z.inj_succ, <- Z.add_1_l, inject_Z_plus. reflexivity.
Qed.

Lemma verified_sum_bools (col : list value) :
  (∀ c, c ∈ col → c = NA ∨ ∃ b, c = VBool b) →
  ∃ s, verified_sum col = Some s
       ∧ (s == inject_Z (Z.of_nat (length (filter (λ c, eq_True c) col))))%Q.
Proof.
  induction col as [|c col IH]; intros Hcol.
  - exists 0%Q. split; [done | reflexivity].
  - destruct IH as (s & Hs & Heq); [intros c' Hc'; apply Hcol; by right |].
    cbn [verified_sum]. rewrite Hs. cbn [mbind option_bind].
    rewrite filter_cons.
    destruct (Hcol c) as [->|[[] ->]]; [left | | |]; simpl.
    + by exists s.
    + eexists. split; [done |]. by rewrite inject_Z_succ, Heq.
    + eexists. split; [done |]. rewrite Heq. ring.
Qed.

Lemma verified_sum_all_true (col : list value) :
  (∀ c, c ∈ col → eq_True c) →
  ∃ s, verified_sum col = Some s
       ∧ (s == inject_Z (Z.of_nat (length col)))%Q.
Proof.
  induction col as [|c col IH]; intros Hcol.
  - exists 0%Q. split; [done | reflexivity].
  - destruct IH as (s & Hs & Heq); [intros c' Hc'; apply Hcol; by right |].
    cbn [verified_sum]. rewrite Hs. cbn [mbind option_bind].
    specialize (Hcol c (list_elem_of_here _ _)).
    destruct c as [|[]|q| |]; try done; cbn [length].
    + eexists. split; [done |]. by rewrite inject_Z_succ, Heq.
    + eexists. split; [done |]. simpl in Hcol.
      apply Is_true_true, Qeq_bool_iff in Hcol.
      by rewrite inject_Z_succ, Heq, Hcol.
Qed.

(** X9 — on a view whose [verified] cells are booleans or missing, the
    "Verified" figure is the number of records marked true; it is never
    negative and never above "Total cases", and the number of distinct
    states is never above "Total cases" either. *)
Theorem verified_never_exceeds_total (fdf : DataFrame) :
  "verified" ∈ columns fdf →
  (∀ r, r ∈ rows fdf →
     cell r "verified" = NA ∨ ∃ b, cell r "verified" = VBool b) →
  ∃ n, verified_cases fdf = Some n
       ∧ n = Z.of_nat (length (filter (λ r, verified_ok r) (rows fdf)))
       ∧ 0 ≤ n ≤ Z.of_nat (total_cases fdf)
       ∧ (states_count fdf ≤ total_cases fdf)%nat.
Proof.
  intros Hcol Hcells. unfold verified_cases, total_cases.
  rewrite (bool_decide_eq_true_2 _ Hcol).
  destruct (verified_sum_bools ((λ r, cell r "verified") <$> rows fdf))
    as (s & Hs & Heq).
  { intros c Hc. apply list_elem_of_fmap in Hc as (r & -> & Hr).
    by apply Hcells. }
  rewrite Hs. cbn [fmap option_fmap option_map].
  rewrite length_filter_fmap in Heq.
  eexists. split; [done |]. split; [by apply int_of_Q_integer |].
  rewrite (int_of_Q_integer _ _ Heq).
  pose proof (length_filter (λ r, Is_true (eq_True (cell r "verified")))
                (rows fdf)) as Hle.
  split; [lia |].
  unfold states_count. case_bool_decide; [| lia].
  etrans; [apply length_remove_dups_le |].
  etrans; [apply length_omap_le |]. by rewrite length_fmap.
Qed.

(** On the sample batch one of three records is verified. *)
Lemma verified_never_exceeds_total_witness :
  verified_cases sample_df = Some 1 ∧ total_cases sample_df = 3%nat.
Proof.
  destruct (verified_never_exceeds_total sample_df) as (n & Hn & Hval & _).
  - apply (bool_decide_unpack _). vm_compute. exact I.
  - intros r Hr.
    repeat (apply elem_of_cons in Hr as [->|Hr]);
      [| | | by apply elem_of_nil in Hr]; right; by eexists.
  - split; [| reflexivity]. rewrite Hn, Hval. reflexivity.
Defined.

(** X10 — with "Verified only" ticked the two figures coincide: every
    record of the view counts as verified, so "Verified" equals "Total
    cases", whatever the cells of the store hold. *)
Theorem verified_only_view_is_all_verified (df : DataFrame) (f : Filters)
    (v : DataFrame) :
  apply_filters df f = Ok v → verified_only f = true →
  verified_cases v = Some (Z.of_nat (total_cases v))
  ∧ ∀ r, r ∈ rows v → verified_ok r.
Proof.
  intros Hv Hvo. apply apply_filters_inv in Hv as (_ & Hcol & ->).
  rewrite Hvo in Hcol. cbn [andb] in Hcol.
  apply bool_decide_eq_false_1 in Hcol. apply dec_stable in Hcol.
  assert (Hall : ∀ r, r ∈ filter (λ r, keep (columns df) f r) (rows df) →
                   verified_ok r).
  { intros r Hr. apply list_elem_of_filter in Hr as [Hk _].
    unfold keep in Hk. rewrite Hvo, !andb_True in Hk. tauto. }
  split; [| exact Hall].
  unfold verified_cases, total_cases. cbn [rows columns].
  rewrite (bool_decide_eq_true_2 _ Hcol).
  destruct (verified_sum_all_true
              ((λ r, cell r "verified")
                 <$> filter (λ r, keep (columns df) f r) (rows df)))
    as (s & Hs & Heq).
  { intros c Hc. apply list_elem_of_fmap in Hc as (r & -> & Hr).
    by apply Hall. }
  rewrite Hs. cbn [fmap option_fmap option_map]. f_equal.
  rewrite length_fmap in Heq. by apply int_of_Q_integer.
Qed.

(** On the sample batch with the box ticked: one record, one verified. *)
Lemma verified_only_view_is_all_verified_witness :
  ∃ v, apply_filters sample_df (mkFilters 738886 738888 [] true (0, 120) [])
       = Ok v
       ∧ verified_cases v = Some 1.
Proof.
  eexists. split; [reflexivity |].
  exact (proj1 (verified_only_view_is_all_verified sample_df
                  (mkFilters 738886 738888 [] true (0, 120) []) _
                  eq_refl eq_refl)).
Defined.

(** ** The endpoints of the API and their filters *)

Lemma date_filter_spec (df : DataFrame) (q : Query) :
  date_filter df q =
    if query_dated q && date_raises df then Raise TypeError
    else if query_dated q && bool_decide ("reported_date" ∉ columns df)
    then Raise (KeyError "reported_date")
    else Ok (mkDF (columns df) (filter (λ r, keep_dates q r) (rows df))).
Proof.
  unfold date_filter. rewrite replicate_true_fmap, query_date_mask_rows.
  destruct (query_dated q && date_raises df); [done |].
  destruct (query_dated q && bool_decide ("reported_date" ∉ columns df));
    [done |].
  cbn [mbind result_bind mret result_ret]. unfold df_select.
  by rewrite select_fmap.
Qed.

Lemma state_chart_filter_spec (df : DataFrame) (q : Query) :
  state_chart_filter df q =
    if query_dated q && date_raises df then Raise TypeError
    else if query_dated q && bool_decide ("reported_date" ∉ columns df)
    then Raise (KeyError "reported_date")
    else if nonempty (states q) && bool_decide ("state" ∉ columns df)
    then Raise (KeyError "state")
    else Ok (mkDF (columns df) (filter (λ r, keep_state_chart q r) (rows df))).
Proof.
  unfold state_chart_filter. rewrite replicate_true_fmap, query_date_mask_rows.
  destruct (query_dated q && date_raises df); [done |].
  destruct (query_dated q && bool_decide ("reported_date" ∉ columns df));
    [done |].
  cbn [mbind result_bind]. rewrite query_state_mask_rows.
  destruct (nonempty (states q) && bool_decide ("state" ∉ columns df));
    [done |].
  cbn [mbind result_bind mret result_ret]. unfold df_select.
  by rewrite select_fmap.
Qed.

Lemma export_filter_spec (df : DataFrame) (q : Query) :
  export_filter df q =
    if query_dated q && date_raises df then Raise TypeError
    else if query_dated q && bool_decide ("reported_date" ∉ columns df)
    then Raise (KeyError "reported_date")
    else if nonempty (states q) && bool_decide ("state" ∉ columns df)
    then Raise (KeyError "state")
    else if q_verified_only q && bool_decide ("verified" ∉ columns df)
    then Raise (KeyError "verified")
    else Ok (mkDF (columns df) (filter (λ r, keep_export q r) (rows df))).
Proof.
  unfold export_filter. rewrite replicate_true_fmap, query_date_mask_rows.
  destruct (query_dated q && date_raises df); [done |].
  destruct (query_dated q && bool_decide ("reported_date" ∉ columns df));
    [done |].
  cbn [mbind result_bind]. rewrite query_state_mask_rows.
  destruct (nonempty (states q) && bool_decide ("state" ∉ columns df));
    [done |].
  cbn [mbind result_bind]. rewrite query_verified_mask_rows.
  destruct (q_verified_only q && bool_decide ("verified" ∉ columns df));
    [done |].
  cbn [mbind result_bind mret result_ret]. unfold df_select.
  by rewrite select_fmap.
Qed.

Lemma keep_query_export (q : Query) (r : gmap string value) :
  keep_query q r
  = keep_export q r
    && match min_age q with Some x => num_ge x (cell r "age") | None => true end
    && match max_age q with Some x => num_le x (cell r "age") | None => true end.
Proof. reflexivity. Qed.

(** X11 — the endpoints of the API read fewer and fewer parameters, so
    for one request their record sets are nested: what [get_data] returns
    is part of what [export_csv] and the daily chart use (they ignore the
    age bounds), which is part of what the state chart uses (it ignores
    "verified only" too), which is part of what the causes and age charts
    use (dates only).  Whenever [get_data] answers, so do the others, and
    without age bounds the export holds exactly the records of
    [get_data]. *)
Theorem endpoint_filters_are_nested (df : DataFrame) (q : Query) (v : DataFrame) :
  get_data_filter df q = Ok v →
  ∃ v1 v2 v3,
    export_filter df q = Ok v1
    ∧ state_chart_filter df q = Ok v2
    ∧ date_filter df q = Ok v3
    ∧ rows v `sublist_of` rows v1
    ∧ rows v1 `sublist_of` rows v2
    ∧ rows v2 `sublist_of` rows v3
    ∧ rows v3 `sublist_of` rows df
    ∧ (min_age q = None → max_age q = None → v1 = v)
    ∧ (q_verified_only q = false → v2 = v1)
    ∧ (states q = [] → v3 = v2).
Proof.
  intros Hv. pose proof (get_data_filter_dated _ _ _ Hv) as H0.
  apply get_data_filter_inv in Hv as (Hm & ->).
  unfold query_missing in Hm.
  destruct (query_dated q && bool_decide ("reported_date" ∉ columns df))
    eqn:H1; [done |].
  destruct (nonempty (states q) && bool_decide ("state" ∉ columns df))
    eqn:H2; [done |].
  destruct (q_verified_only q && bool_decide ("verified" ∉ columns df))
    eqn:H3; [done |].
  eexists _, _, _.
  rewrite export_filter_spec, state_chart_filter_spec, date_filter_spec.
  rewrite H0, H1, H2, H3. split_and!; try reflexivity; cbn [rows].
  - apply filter_sublist_impl. intros r. rewrite keep_query_export.
    rewrite !andb_True. tauto.
  - apply filter_sublist_impl. intros r. unfold keep_export.
    rewrite andb_True. tauto.
  - apply filter_sublist_impl. intros r. unfold keep_state_chart.
    rewrite andb_True. tauto.
  - apply sublist_filter.
  - intros Hmin Hmax. f_equal. apply list_filter_iff. intros r.
    rewrite keep_query_export, Hmin, Hmax. by rewrite !andb_true_r.
  - intros Hver. f_equal. apply list_filter_iff. intros r.
    unfold keep_export. rewrite Hver. by rewrite andb_true_r.
  - intros Hst. f_equal. apply list_filter_iff. intros r.
    unfold keep_state_chart. rewrite Hst. simpl. by rewrite andb_true_r.
Qed.

(** On the sample batch, a request for verified cases of at most 40
    years: the data endpoint and the export agree here, the state chart
    sees all three records. *)
Lemma endpoint_filters_are_nested_witness :
  let q := mkQuery (Some 738886) (Some 738888) [] true None (Some 40%Q) in
  get_data_filter sample_df q = Ok (mkDF sample_columns [sample_c1])
  ∧ export_filter sample_df q = Ok (mkDF sample_columns [sample_c1])
  ∧ state_chart_filter sample_df q = Ok sample_df.
Proof.
  intros q.
  assert (Hv : get_data_filter sample_df q = Ok (mkDF sample_columns [sample_c1]))
    by reflexivity.
  destruct (endpoint_filters_are_nested sample_df q _ Hv)
    as (v1 & v2 & v3 & H1 & H2 & _).
  split; [exact Hv |]. split.
  - rewrite H1. vm_compute in H1. by injection H1 as <-.
  - rewrite H2. vm_compute in H2. by injection H2 as <-.
Defined.

Lemma df_empty_false_rows (df : DataFrame) :
  df_empty df = false → ∃ r rest, rows df = r :: rest.
Proof.
  unfold df_empty. destruct (rows df) as [|r rest]; [done |]. by eexists _, _.
Qed.

(** X12 — when the state chart of the API answers a request that names
    states with data, the chart has at least one bar and only bars of the
    named states; when the request names no state, every record in the
    date range is counted under its own state. *)
Theorem state_chart_shows_requested_states (df : DataFrame) (q : Query)
    (bars : list (string * nat)) :
  state_distribution_chart df q = Ok (Http200 bars) →
  (states q ≠ [] → bars ≠ [] ∧ ∀ s c, (s, c) ∈ bars → s ∈ states q)
  ∧ (∀ s c, (s, c) ∈ bars →
       c = length (filter (λ r, keep_state_chart q r
                                ∧ state_of (cell r "state") = Some s)
                          (rows df))).
Proof.
  unfold state_distribution_chart.
  destruct (df_empty df); [done |].
  rewrite state_chart_filter_spec.
  destruct (query_dated q && date_raises df); [done |].
  destruct (query_dated q && bool_decide ("reported_date" ∉ columns df));
    [done |].
  destruct (nonempty (states q) && bool_decide ("state" ∉ columns df));
    [done |].
  cbn [mbind result_bind].
  set (view := mkDF (columns df)
                 (filter (λ r, keep_state_chart q r) (rows df))).
  destruct (df_empty view) eqn:Hne; [done |].
  unfold getitem. case_bool_decide as Hcol; [| done].
  cbn [mbind result_bind mret result_ret]. intros [= <-].
  split.
  - intros Hst.
    assert (Hsel : ∀ r, r ∈ rows view →
              ∃ s, cell r "state" = VStr s ∧ s ∈ states q).
    { intros r Hr. subst view. cbn [rows] in Hr.
      apply list_elem_of_filter in Hr as [Hk _].
      unfold keep_state_chart in Hk. rewrite andb_True in Hk.
      destruct Hk as [_ Hk]. destruct (states q) as [|s0 rest] eqn:Hq; [done |].
      cbn [nonempty] in Hk. unfold state_ok, isin in Hk.
      destruct (cell r "state") as [| | |s|]; try done.
      exists s. split; [done |]. by apply bool_decide_unpack in Hk. }
    split.
    + destruct (df_empty_false_rows view Hne) as (r & rest & Hrows).
      destruct (Hsel r) as (s & Hc & _); [rewrite Hrows; left |].
      intros Hnil.
      assert (Hin : (s, count_key s (state_of <$> ((λ r, cell r "state")
                                                     <$> rows view)))
                    ∈ value_counts ((λ r, cell r "state") <$> rows view)).
      { apply value_counts_elem. split; [done |].
        exists (cell r "state"). split; [| by rewrite Hc].
        apply list_elem_of_fmap. exists r. split; [done |].
        rewrite Hrows. left. }
      subst view. cbn [rows] in *. rewrite Hnil in Hin.
      by apply elem_of_nil in Hin.
    + intros s c Hin. apply value_counts_elem in Hin as (_ & x & Hx & Hs).
      apply list_elem_of_fmap in Hx as (r & -> & Hr).
      destruct (Hsel r Hr) as (s' & Hc & Hin). rewrite Hc in Hs.
      by injection Hs as <-.
  - intros s c Hin. apply value_counts_elem in Hin as (-> & _).
    rewrite count_of_label. subst view. cbn [rows].
    rewrite list_filter_filter. f_equal. apply list_filter_iff. tauto.
Qed.

(** On the sample batch, a request for state B. *)
Lemma state_chart_shows_requested_states_witness :
  state_distribution_chart sample_df (query_with_states ["B"] sample_query)
  = Ok (Http200 [("B", 1%nat)])
  ∧ [("B", 1%nat)] ≠ [].
Proof.
  assert (Hc : state_distribution_chart sample_df
                 (query_with_states ["B"] sample_query)
               = Ok (Http200 [("B", 1%nat)])) by (vm_compute; reflexivity).
  split; [exact Hc |].
  refine (proj1 (proj1 (state_chart_shows_requested_states _ _ _ Hc) _)).
  discriminate.
Defined.

(** ** The data-quality table on a filtered view *)

Lemma isna_sum_zero (col : list value) :
  (∀ c, c ∈ col → isna c = false) → isna_sum col = 0%nat.
Proof.
  intros Hcol. unfold isna_sum. rewrite filter_none; [done |].
  intros c Hc. rewrite (Hcol c Hc). by intros [].
Qed.

(** X13 — on a view of the dashboard with the gender filter, the
    data-quality table cannot report a missing date or a missing age: the
    filter has already removed every record that lacks one, so both
    counts are zero, and so is the count of missing states as soon as a
    state is selected. *)
Theorem quality_table_after_filter (df : DataFrame) (f : Filters) (v : DataFrame) :
  apply_filters_gender df f = Ok v →
  "reported_date" ∈ columns df → "age" ∈ columns df →
  df_empty v = false →
  ∃ s c, quality_counts v = Ok (Some [length (rows v); 0; 0; s; c]%nat)
         ∧ (selected_states f ≠ [] → s = 0%nat).
Proof.
  intros Hv Hd Ha Hne.
  pose proof Hv as Hspec. rewrite apply_filters_gender_spec in Hspec.
  destruct (date_raises df); [done |].
  destruct (nonempty (selected_states f) && bool_decide ("state" ∉ columns df))
    eqn:Hst; [done |].
  apply apply_filters_gender_inv in Hv as ->. clear Hspec.
  set (view := filter (λ r, keep_gender (columns df) f r) (rows df)) in *.
  assert (Hkeep : ∀ r, r ∈ view → keep (columns df) f r).
  { intros r Hr. apply list_elem_of_filter in Hr as [Hk _].
    unfold keep_gender in Hk. rewrite andb_True in Hk. tauto. }
  assert (Hdates : isna_sum ((λ r, cell r "reported_date") <$> view) = 0%nat).
  { apply isna_sum_zero. intros c Hc.
    apply list_elem_of_fmap in Hc as (r & -> & Hr).
    specialize (Hkeep r Hr). unfold keep in Hkeep.
    rewrite (bool_decide_eq_true_2 _ Hd), !andb_True in Hkeep.
    destruct Hkeep as (((Hk & _) & _) & _).
    apply date_ok_dated in Hk as (d & Hk & _).
    destruct (cell r "reported_date"); done. }
  assert (Hages : isna_sum ((λ r, cell r "age") <$> view) = 0%nat).
  { apply isna_sum_zero. intros c Hc.
    apply list_elem_of_fmap in Hc as (r & -> & Hr).
    specialize (Hkeep r Hr). unfold keep in Hkeep.
    rewrite (bool_decide_eq_true_2 _ Ha), !andb_True in Hkeep.
    destruct Hkeep as (_ & Hk). apply age_ok_inv in Hk as (a & -> & _). done. }
  unfold quality_counts. rewrite Hne. cbn [columns rows].
  rewrite (getitem_fmap (mkDF (columns df) view) _ Hd). cbn [mbind result_bind rows].
  rewrite (bool_decide_eq_true_2 _ Ha), (getitem_fmap (mkDF (columns df) view) _ Ha).
  cbn [fmap result_fmap mbind result_bind rows]. rewrite Hdates, Hages.
  destruct (decide ("state" ∈ columns df)) as [Hs|Hs].
  - rewrite (bool_decide_eq_true_2 _ Hs), (getitem_fmap (mkDF (columns df) view) _ Hs).
    cbn [fmap result_fmap mbind result_bind rows columns].
    destruct (bool_decide ("cause_of_death" ∈ columns df)) eqn:Hc.
    + apply bool_decide_eq_true_1 in Hc. rewrite (getitem_fmap (mkDF (columns df) view) _ Hc).
      cbn [fmap result_fmap mbind result_bind mret result_ret rows].
      eexists _, _. split; [reflexivity |].
      intros Hsel. apply isna_sum_zero. intros c Hcin.
      apply list_elem_of_fmap in Hcin as (r & -> & Hr).
      specialize (Hkeep r Hr). unfold keep in Hkeep.
      destruct (selected_states f) as [|s0 rest] eqn:Hq; [done |].
      cbn [nonempty] in Hkeep. rewrite !andb_True in Hkeep.
      destruct Hkeep as (((_ & Hk) & _) & _). unfold state_ok, isin in Hk.
      destruct (cell r "state"); done.
    + cbn [fmap result_fmap mbind result_bind mret result_ret rows].
      eexists _, _. split; [reflexivity |].
      intros Hsel. apply isna_sum_zero. intros c Hcin.
      apply list_elem_of_fmap in Hcin as (r & -> & Hr).
      specialize (Hkeep r Hr). unfold keep in Hkeep.
      destruct (selected_states f) as [|s0 rest] eqn:Hq; [done |].
      cbn [nonempty] in Hkeep. rewrite !andb_True in Hkeep.
      destruct Hkeep as (((_ & Hk) & _) & _). unfold state_ok, isin in Hk.
      destruct (cell r "state"); done.
  - rewrite (bool_decide_eq_false_2 _ Hs).
    cbn [fmap result_fmap mbind result_bind mret result_ret rows columns].
    destruct (bool_decide ("cause_of_death" ∈ columns df)) eqn:Hc.
    + apply bool_decide_eq_true_1 in Hc. rewrite (getitem_fmap (mkDF (columns df) view) _ Hc).
      cbn [fmap result_fmap mbind result_bind mret result_ret rows].
      by eexists _, _.
    + cbn [fmap result_fmap mbind result_bind mret result_ret rows].
      by eexists _, _.
Qed.

(** On the sample batch: two records left, nothing missing. *)
Lemma quality_table_after_filter_witness :
  ∃ v, apply_filters_gender sample_df sample_filters = Ok v
       ∧ quality_counts v = Ok (Some [2; 0; 0; 0; 0]%nat).
Proof.
  eexists. split; [reflexivity |].
  destruct (quality_table_after_filter sample_df sample_filters _ eq_refl)
    as (s & c & Hq & _).
  - apply (bool_decide_unpack _). vm_compute. exact I.
  - apply (bool_decide_unpack _). vm_compute. exact I.
  - reflexivity.
  - rewrite Hq. vm_compute in Hq. by injection Hq as <- <-.
Defined.

(** ** The details panel *)

Lemma eq_scalar_refl (v : value) : isna v = false → eq_scalar v v = true.
Proof.
  destruct v as [|b|q|s|d n]; intros Hv; try done; cbn.
  - by apply bool_decide_eq_true_2.
  - apply Qeq_bool_iff. reflexivity.
  - by apply bool_decide_eq_true_2.
  - by rewrite !bool_decide_eq_true_2.
Qed.

Lemma isna_NA (v : value) : isna v = true → v = NA.
Proof. by destruct v. Qed.

Lemma eq_scalar_NA (v : value) : eq_scalar NA v = false.
Proof. by destruct v. Qed.

Lemma filter_first {A : Type} (p : A → bool) (l : list A) (x : A) :
  x ∈ l → p x = true →
  ∃ pre r post, l = pre ++ r :: post ∧ p r = true
    ∧ (∀ y, y ∈ pre → p y = false)
    ∧ filter (λ y, p y) l = r :: filter (λ y, p y) post.
Proof.
  induction l as [|a l IH]; intros Hx Hp; [by apply elem_of_nil in Hx |].
  destruct (p a) eqn:Ha.
  - exists [], a, l. split_and!; [done | done | |].
    + intros y Hy. by apply elem_of_nil in Hy.
    + rewrite filter_cons_True; [done | by rewrite Ha].
  - apply elem_of_cons in Hx as [-> | Hx]; [congruence |].
    destruct (IH Hx Hp) as (pre & r & post & -> & Hr & Hpre & Hf).
    exists (a :: pre), r, post. split_and!; [done | done | |].
    + intros y Hy. apply elem_of_cons in Hy as [-> | Hy]; [done | by apply Hpre].
    + rewrite filter_cons_False; [exact Hf | rewrite Ha; by intros []].
Qed.

(** X14 — the details panel shows the first record of the view, in file
    order, whose case id equals the chosen one: the chosen record itself
    when no other record shares its id.  Choosing a record whose case id
    is missing raises [IndexError], since a missing id equals nothing. *)
Theorem case_details_shows_first_match (fdf : DataFrame) (r0 : gmap string value) :
  "case_id" ∈ columns fdf → r0 ∈ rows fdf →
  let sel := cell r0 "case_id" in
  (isna sel = true → case_details fdf sel = Raise IndexError)
  ∧ (isna sel = false →
     ∃ pre r post, rows fdf = pre ++ r :: post
       ∧ case_details fdf sel = Ok r
       ∧ eq_scalar sel (cell r "case_id") = true
       ∧ (∀ y, y ∈ pre → eq_scalar sel (cell y "case_id") = false)
       ∧ ((∀ y, y ∈ rows fdf → eq_scalar sel (cell y "case_id") = true → y = r0)
          → r = r0)).
Proof.
  intros Hc Hr0 sel.
  assert (Hcd : case_details fdf sel
                = iloc (filter (λ r, eq_scalar sel (cell r "case_id")) (rows fdf)) 0).
  { unfold case_details. rewrite (getitem_fmap _ _ Hc).
    cbn [mbind result_bind]. unfold df_select. cbn [rows].
    rewrite <- list_fmap_compose. f_equal.
    apply (select_fmap (λ r, eq_scalar sel (cell r "case_id"))). }
  split.
  - intros Hna. rewrite Hcd, filter_none; [done |].
    intros y _. rewrite (isna_NA _ Hna), eq_scalar_NA. by intros [].
  - intros Hna.
    destruct (filter_first (λ r, eq_scalar sel (cell r "case_id")) (rows fdf) r0)
      as (pre & r & post & Hrows & Hr & Hpre & Hf);
      [done | by apply eq_scalar_refl |].
    exists pre, r, post. split_and!; [done | | done | done |].
    + by rewrite Hcd, Hf.
    + intros Huniq. apply Huniq; [| done].
      rewrite Hrows. apply elem_of_app. right. left.
Qed.

(** On the sample batch, choosing the second case. *)
Lemma case_details_shows_first_match_witness :
  case_details sample_df (VStr "c2") = Ok sample_c2.
Proof.
  assert (Hc : "case_id" ∈ columns sample_df)
    by (apply (bool_decide_unpack _); vm_compute; exact I).
  assert (Hr : sample_c2 ∈ rows sample_df) by (right; left).
  destruct (proj2 (case_details_shows_first_match sample_df sample_c2 Hc Hr) eq_refl)
    as (pre & r & post & _ & Hd & _ & _ & Huniq).
  change (cell sample_c2 "case_id") with (VStr "c2") in Hd.
  rewrite Hd. vm_compute in Hd. by injection Hd as <-.
Defined.
